(** * oktadance: the authentication dance with the identity provider

  A shallow embedding of the Go package [oktadance] (the orchestrator
  [Authenticate], the two factor protocols [pushFactor.perform] and
  [inputFactor.perform], the exchanger [Authorize], the session client
  [Session] / [CloseSession] and the diagnostic hooks [pre] / [post]),
  together with a model of the parts of the Go standard library the
  package calls: [encoding/json], the cookies of [net/http], contexts,
  the clock, and a scripted transport standing for the provider.

  Layout: [Text] (bytes and small string functions), [Errors] (Go error
  values), [Json] (encoding/json), [Http] (requests, responses, cookies),
  [Effects] (the world the code runs in and its monad), [Oktadance] (the
  package itself), [Observed] (the names the properties are stated with),
  [Scenario] (concrete runs), then the properties. *)

From Stdlib Require Import String Ascii List ZArith NArith Lia Bool Arith.
Import ListNotations.
Open Scope string_scope.
Set Warnings "-register-all".
Set Implicit Arguments.

(* ================================================================== *)
(** ** Bytes and strings *)

Module Text.

(** The double quote, written by its code so that no literal needs it. *)
Definition dquote : ascii := "034"%char.
Definition backslash : ascii := "092"%char.

Definition code (c : ascii) : N := N_of_ascii c.
Definition chr (n : N) : ascii := ascii_of_N n.

Definition between (lo hi : N) (c : ascii) : bool :=
  (lo <=? code c)%N && (code c <=? hi)%N.

Definition is_digit : ascii -> bool := between 48 57.
Definition is_upper : ascii -> bool := between 65 90.

Definition lower (c : ascii) : ascii :=
  if is_upper c then chr (code c + 32) else c.

Fixpoint map_chars (f : ascii -> ascii) (s : string) : string :=
  match s with
  | EmptyString => EmptyString
  | String c r => String (f c) (map_chars f r)
  end.

(** ASCII case folding, the part of [bytes.EqualFold] that matters for
    the field names of this package. *)
Definition equalFold (a b : string) : bool :=
  String.eqb (map_chars lower a) (map_chars lower b).

Fixpoint forallb_chars (p : ascii -> bool) (s : string) : bool :=
  match s with
  | EmptyString => true
  | String c r => p c && forallb_chars p r
  end.

(** Test inputs are written with an apostrophe where the wire has a
    double quote; [q] puts the double quotes back. *)
Definition q : string -> string :=
  map_chars (fun c => if Ascii.eqb c "'"%char then dquote else c).

(** [strings.Cut s sep] for a one-byte separator. *)
Fixpoint cut (sep : ascii) (s : string) : option (string * string) :=
  match s with
  | EmptyString => None
  | String c r =>
      if Ascii.eqb c sep then Some (EmptyString, r)
      else match cut sep r with
           | Some (a, b) => Some (String c a, b)
           | None => None
           end
  end.

Definition is_space (c : ascii) : bool :=
  Ascii.eqb c " "%char || Ascii.eqb c "009"%char.

Fixpoint trim_left (s : string) : string :=
  match s with
  | String c r => if is_space c then trim_left r else s
  | EmptyString => EmptyString
  end.

Fixpoint rev_string (s acc : string) : string :=
  match s with
  | EmptyString => acc
  | String c r => rev_string r (String c acc)
  end.

(** [textproto.TrimString]: spaces and tabs off both ends. *)
Definition trimString (s : string) : string :=
  rev_string (trim_left (rev_string (trim_left s) EmptyString)) EmptyString.

(** [strings.Contains]. *)
Fixpoint contains (s sub : string) : bool :=
  String.prefix sub s ||
  match s with
  | EmptyString => false
  | String _ r => contains r sub
  end.

End Text.

(* ================================================================== *)
(** ** Go error values *)

Module Errors.

Inductive error : Type :=
| errorString (s : string)                (* errors.New, fmt.Errorf without a verb %w *)
| wrapError (msg : string) (err : error)  (* fmt.Errorf with %w *)
| SyntaxError (msg : string)              (* *json.SyntaxError *)
| UnmarshalTypeError (value : string)     (* *json.UnmarshalTypeError *)
| ParseError (value : string)             (* *time.ParseError *)
| urlError (op url : string) (err : error). (* *url.Error, from the transport or the URL parser *)

(** The method [Error()]. *)
Fixpoint Error (e : error) : string :=
  match e with
  | errorString s => s
  | wrapError msg _ => msg
  | SyntaxError msg => msg
  | UnmarshalTypeError v => "json: cannot unmarshal " ++ v
  | ParseError v => "parsing time " ++ v
  | urlError op url err => op ++ " " ++ url ++ ": " ++ Error err
  end.

Definition errors_New (text : string) : error := errorString text.

(** [fmt.Errorf(prefix + "%w", err)]. *)
Definition fmt_Errorf_w (prefix : string) (err : error) : error :=
  wrapError (prefix ++ Error err) err.

(** [errors.Unwrap]. *)
Definition Unwrap (e : error) : option error :=
  match e with
  | wrapError _ err => Some err
  | urlError _ _ err => Some err
  | _ => None
  end.

(** [context.Canceled] and the error of a transport with nothing to read. *)
Definition context_Canceled : error := errorString "context canceled".
Definition io_EOF : error := errorString "EOF".

End Errors.

(* ================================================================== *)
(** ** encoding/json

    The model covers the JSON grammar (objects, arrays, strings with their
    escapes, numbers, literals, insignificant white space), decoding into
    [map[string]interface{}], decoding into the struct types of this
    package, and [Marshal] / [MarshalIndent] of maps.  Two things are
    kept simpler than the library and no property below depends on them:
    bytes above 127 are passed through as they are (the library replaces
    invalid UTF-8 by U+FFFD), and a number decoded into [interface{}]
    keeps its literal (the library goes through float64, which prints an
    integer literal below 2^53 unchanged). *)

Module Json.
Import Text Errors.

Inductive json : Type :=
| JNull
| JBool (b : bool)
| JNum (lit : string)
| JStr (s : string)
| JArr (l : list json)
| JObj (l : list (string * json)).

(** *** The scanner *)

Definition is_ws (c : ascii) : bool :=
  Ascii.eqb c " "%char || Ascii.eqb c "009"%char ||
  Ascii.eqb c "010"%char || Ascii.eqb c "013"%char.

Fixpoint skip_ws (s : string) : string :=
  match s with
  | String c r => if is_ws c then skip_ws r else s
  | EmptyString => EmptyString
  end.

Fixpoint take_digits (s : string) : string * string :=
  match s with
  | String c r =>
      if is_digit c
      then let (ds, rest) := take_digits r in (String c ds, rest)
      else (EmptyString, s)
  | EmptyString => (EmptyString, EmptyString)
  end.

Definition scan_int (s : string) : option (string * string) :=
  match s with
  | String c r =>
      if Ascii.eqb c "0"%char then Some ("0", r)
      else if is_digit c
           then let (ds, rest) := take_digits r in Some (String c ds, rest)
           else None
  | EmptyString => None
  end.

Definition scan_frac (s : string) : option (string * string) :=
  match s with
  | String c r =>
      if Ascii.eqb c "."%char then
        match take_digits r with
        | (EmptyString, _) => None
        | (ds, rest) => Some (String c ds, rest)
        end
      else Some (EmptyString, s)
  | EmptyString => Some (EmptyString, s)
  end.

Definition scan_exp (s : string) : option (string * string) :=
  match s with
  | String c r =>
      if Ascii.eqb c "e"%char || Ascii.eqb c "E"%char then
        let (sign, r1) :=
          match r with
          | String c' r' =>
              if Ascii.eqb c' "+"%char || Ascii.eqb c' "-"%char
              then (String c' EmptyString, r') else (EmptyString, r)
          | EmptyString => (EmptyString, r)
          end in
        match take_digits r1 with
        | (EmptyString, _) => None
        | (ds, rest) => Some (String c (sign ++ ds), rest)
        end
      else Some (EmptyString, s)
  | EmptyString => Some (EmptyString, s)
  end.

(** A number: its literal and what follows it. *)
Definition scan_number (s : string) : option (string * string) :=
  let (sign, s1) :=
    match s with
    | String c r => if Ascii.eqb c "-"%char then ("-", r) else ("", s)
    | EmptyString => ("", s)
    end in
  match scan_int s1 with
  | None => None
  | Some (i, s2) =>
      match scan_frac s2 with
      | None => None
      | Some (f, s3) =>
          match scan_exp s3 with
          | None => None
          | Some (e, s4) => Some (sign ++ i ++ f ++ e, s4)
          end
      end
  end.

Definition hex_val (c : ascii) : option N :=
  if is_digit c then Some (code c - 48)%N
  else if between 97 102 c then Some (code c - 87)%N
  else if between 65 70 c then Some (code c - 55)%N
  else None.

(** Four hexadecimal digits, as after a [\u]. *)
Definition getu4 (s : string) : option (N * string) :=
  match s with
  | String a (String b (String c (String d r))) =>
      match hex_val a, hex_val b, hex_val c, hex_val d with
      | Some x, Some y, Some z, Some w =>
          Some (x * 4096 + y * 256 + z * 16 + w, r)%N
      | _, _, _, _ => None
      end
  | _ => None
  end.

(** [utf8.EncodeRune]. *)
Definition utf8_encode (n : N) : string :=
  if (n <? 128)%N then String (chr n) EmptyString
  else if (n <? 2048)%N then
    String (chr (192 + n / 64)) (String (chr (128 + n mod 64)) EmptyString)
  else if (n <? 65536)%N then
    String (chr (224 + n / 4096))
      (String (chr (128 + (n / 64) mod 64))
         (String (chr (128 + n mod 64)) EmptyString))
  else
    String (chr (240 + n / 262144))
      (String (chr (128 + (n / 4096) mod 64))
         (String (chr (128 + (n / 64) mod 64))
            (String (chr (128 + n mod 64)) EmptyString))).

Definition replacementChar : N := 65533.

(** The rune a [\uXXXX] stands for, given what follows it: a surrogate
    needs its low half right behind it, and alone it is U+FFFD. *)
Definition rune_after (rr : N) (r : string) : N * string :=
  if (55296 <=? rr)%N && (rr <? 57344)%N then
    match r with
    | String b1 (String b2 r') =>
        if Ascii.eqb b1 backslash && Ascii.eqb b2 "u"%char then
          match getu4 r' with
          | Some (rr1, r'') =>
              if (rr <? 56320)%N && (56320 <=? rr1)%N && (rr1 <? 57344)%N
              then (65536 + (rr - 55296) * 1024 + (rr1 - 56320), r'')%N
              else (replacementChar, r)
          | None => (replacementChar, r)
          end
        else (replacementChar, r)
    | _ => (replacementChar, r)
    end
  else (rr, r).

Definition unescape1 (e : ascii) : option ascii :=
  if Ascii.eqb e dquote then Some dquote
  else if Ascii.eqb e backslash then Some backslash
  else if Ascii.eqb e "/"%char then Some "/"%char
  else if Ascii.eqb e "b"%char then Some "008"%char
  else if Ascii.eqb e "f"%char then Some "012"%char
  else if Ascii.eqb e "n"%char then Some "010"%char
  else if Ascii.eqb e "r"%char then Some "013"%char
  else if Ascii.eqb e "t"%char then Some "009"%char
  else None.

Definition prepend (p : string) (x : option (string * string))
  : option (string * string) :=
  match x with
  | Some (s, r) => Some (p ++ s, r)
  | None => None
  end.

(** The text of a string, from behind its opening quote: the decoded
    contents and what follows the closing quote. *)
Fixpoint scan_string (fuel : nat) (s : string) : option (string * string) :=
  match fuel with
  | O => None
  | S fuel =>
      match s with
      | EmptyString => None
      | String c r =>
          if Ascii.eqb c dquote then Some (EmptyString, r)
          else if Ascii.eqb c backslash then
            match r with
            | EmptyString => None
            | String e r1 =>
                if Ascii.eqb e "u"%char then
                  match getu4 r1 with
                  | None => None
                  | Some (rr, r2) =>
                      let (rune, r3) := rune_after rr r2 in
                      prepend (utf8_encode rune) (scan_string fuel r3)
                  end
                else
                  match unescape1 e with
                  | Some ch => prepend (String ch EmptyString) (scan_string fuel r1)
                  | None => None
                  end
            end
          else if (code c <? 32)%N then None
          else prepend (String c EmptyString) (scan_string fuel r)
      end
  end.

Definition strip_prefix (p s : string) : option string :=
  if String.prefix p s
  then Some (String.substring (String.length p) (String.length s - String.length p) s)
  else None.

Section Values.
Variable pv : string -> option (json * string).

(** The elements of an array, from behind its bracket. *)
Fixpoint parse_elements (fuel : nat) (s : string) : option (list json * string) :=
  match fuel with
  | O => None
  | S fuel =>
      match pv s with
      | None => None
      | Some (v, r) =>
          match skip_ws r with
          | String c r' =>
              if Ascii.eqb c ","%char then
                match parse_elements fuel r' with
                | Some (vs, r'') => Some (v :: vs, r'')
                | None => None
                end
              else if Ascii.eqb c "]"%char then Some ([v], r')
              else None
          | EmptyString => None
          end
      end
  end.

(** The members of an object, from behind its brace. *)
Fixpoint parse_members (fuel : nat) (s : string)
  : option (list (string * json) * string) :=
  match fuel with
  | O => None
  | S fuel =>
      match skip_ws s with
      | String c r =>
          if Ascii.eqb c dquote then
            match scan_string (S (String.length r)) r with
            | None => None
            | Some (k, r1) =>
                match skip_ws r1 with
                | String c1 r2 =>
                    if Ascii.eqb c1 ":"%char then
                      match pv r2 with
                      | None => None
                      | Some (v, r3) =>
                          match skip_ws r3 with
                          | String c3 r4 =>
                              if Ascii.eqb c3 ","%char then
                                match parse_members fuel r4 with
                                | Some (kvs, r5) => Some ((k, v) :: kvs, r5)
                                | None => None
                                end
                              else if Ascii.eqb c3 "}"%char then Some ([(k, v)], r4)
                              else None
                          | EmptyString => None
                          end
                      end
                    else None
                | EmptyString => None
                end
            end
          else None
      | EmptyString => None
      end
  end.

End Values.

Fixpoint parse_value (fuel : nat) (s : string) : option (json * string) :=
  match fuel with
  | O => None
  | S fuel =>
      match skip_ws s with
      | EmptyString => None
      | String c r =>
          if Ascii.eqb c "{"%char then
            match skip_ws r with
            | String c' r' =>
                if Ascii.eqb c' "}"%char then Some (JObj [], r')
                else match parse_members (parse_value fuel) fuel r with
                     | Some (kvs, r'') => Some (JObj kvs, r'')
                     | None => None
                     end
            | EmptyString => None
            end
          else if Ascii.eqb c "["%char then
            match skip_ws r with
            | String c' r' =>
                if Ascii.eqb c' "]"%char then Some (JArr [], r')
                else match parse_elements (parse_value fuel) fuel r with
                     | Some (vs, r'') => Some (JArr vs, r'')
                     | None => None
                     end
            | EmptyString => None
            end
          else if Ascii.eqb c dquote then
            match scan_string (S (String.length r)) r with
            | Some (str, r') => Some (JStr str, r')
            | None => None
            end
          else if Ascii.eqb c "-"%char || is_digit c then
            match scan_number (String c r) with
            | Some (lit, r') => Some (JNum lit, r')
            | None => None
            end
          else
            match strip_prefix "true" (String c r),
                  strip_prefix "false" (String c r),
                  strip_prefix "null" (String c r) with
            | Some r', _, _ => Some (JBool true, r')
            | _, Some r', _ => Some (JBool false, r')
            | _, _, Some r' => Some (JNull, r')
            | _, _, _ => None
            end
      end
  end.

(** A whole text: one value, white space around it and nothing else.
    Every step of the scanner consumes a byte, so the length of the text
    bounds both the nesting and the number of elements. *)
Definition parse (data : string) : option json :=
  match parse_value (S (String.length data)) data with
  | Some (v, r) =>
      match skip_ws r with
      | EmptyString => Some v
      | String _ _ => None
      end
  | None => None
  end.

(** *** The encoder *)

Definition hex_digit (n : N) : ascii :=
  nth (N.to_nat n) (list_ascii_of_string "0123456789abcdef") "0"%char.

Definition u00 (c : ascii) : string :=
  "\u00" ++ String (hex_digit (code c / 16)) (String (hex_digit (code c mod 16)) EmptyString).

(** The body of a string literal, with the escapes of [Marshal]: the
    quote, the backslash, the control bytes, the three bytes HTML cares
    about, and the two line separators U+2028 and U+2029. *)
Fixpoint escape (s : string) : string :=
  match s with
  | EmptyString => EmptyString
  | String c r =>
      if Ascii.eqb c dquote then String backslash (String dquote (escape r))
      else if Ascii.eqb c backslash then String backslash (String backslash (escape r))
      else if Ascii.eqb c "010"%char then "\n" ++ escape r
      else if Ascii.eqb c "013"%char then "\r" ++ escape r
      else if Ascii.eqb c "009"%char then "\t" ++ escape r
      else if (code c <? 32)%N || Ascii.eqb c "<"%char || Ascii.eqb c ">"%char
              || Ascii.eqb c "&"%char then u00 c ++ escape r
      else
        match r with
        | String c1 (String c2 r') =>
            if Ascii.eqb c "226"%char && Ascii.eqb c1 "128"%char && Ascii.eqb c2 "168"%char
            then "\u" ++ "2028" ++ escape r'
            else if Ascii.eqb c "226"%char && Ascii.eqb c1 "128"%char && Ascii.eqb c2 "169"%char
            then "\u" ++ "2029" ++ escape r'
            else String c (escape r)
        | _ => String c (escape r)
        end
  end.

Definition quote (s : string) : string :=
  String dquote (escape s ++ String dquote EmptyString).

(** The compact text of a value. *)
Fixpoint encode (j : json) : string :=
  match j with
  | JNull => "null"
  | JBool true => "true"
  | JBool false => "false"
  | JNum lit => lit
  | JStr s => quote s
  | JArr l => "[" ++ String.concat "," (map encode l) ++ "]"
  | JObj l =>
      "{" ++ String.concat ","
               (map (fun kv : string * json =>
                       let (k, v) := kv in quote k ++ ":" ++ encode v) l)
          ++ "}"
  end.

Fixpoint spaces (n : nat) : string :=
  match n with
  | O => EmptyString
  | S n => "  " ++ spaces n
  end.

Definition newline (depth : nat) : string := String "010"%char (spaces depth).

(** The text [Indent] makes of the compact one, with no prefix and two
    spaces a level: an empty object or array stays closed on its line. *)
Fixpoint encode_indent (depth : nat) (j : json) : string :=
  match j with
  | JArr [] => "[]"
  | JObj [] => "{}"
  | JArr l =>
      "[" ++ newline (S depth)
          ++ String.concat ("," ++ newline (S depth)) (map (encode_indent (S depth)) l)
          ++ newline depth ++ "]"
  | JObj l =>
      "{" ++ newline (S depth)
          ++ String.concat ("," ++ newline (S depth))
               (map (fun kv : string * json =>
                       let (k, v) := kv in
                       quote k ++ ": " ++ encode_indent (S depth) v) l)
          ++ newline depth ++ "}"
  | _ => encode j
  end.

(** *** Maps: [map[string]interface{}]

    A Go map holds one value a key; [Marshal] writes the keys in byte
    order.  The model keeps a map as a list sorted by key. *)

Definition gomap : Type := list (string * json).

Fixpoint map_set (k : string) (v : json) (m : gomap) : gomap :=
  match m with
  | [] => [(k, v)]
  | (k', v') :: r =>
      match String.compare k k' with
      | Lt => (k, v) :: m
      | Eq => (k, v) :: r
      | Gt => (k', v') :: map_set k v r
      end
  end.

Definition make_map (l : list (string * json)) : gomap :=
  fold_left (fun m kv => map_set (fst kv) (snd kv) m) l [].

(** A value as [interface{}] holds it: objects become maps. *)
Fixpoint to_iface (j : json) : json :=
  match j with
  | JArr l => JArr (map to_iface l)
  | JObj l =>
      JObj ((fix members (l : list (string * json)) (m : gomap) : gomap :=
               match l with
               | [] => m
               | (k, v) :: r => members r (map_set k (to_iface v) m)
               end) l [])
  | _ => j
  end.

Definition kind_name (j : json) : string :=
  match j with
  | JNull => "null"
  | JBool _ => "bool"
  | JNum _ => "number"
  | JStr _ => "string"
  | JArr _ => "array"
  | JObj _ => "object"
  end.

Definition syntax_error : error :=
  SyntaxError "invalid character in JSON input".

(** [json.Unmarshal(data, &s)] for [s] of type [map[string]interface{}];
    [None] is the nil map.  On an error [s] is left as it was. *)
Definition Unmarshal_map (data : string) (s : option gomap)
  : option gomap * option error :=
  match parse data with
  | None => (s, Some syntax_error)
  | Some JNull => (None, None)
  | Some (JObj l) =>
      (Some (fold_left (fun m kv => map_set (fst kv) (to_iface (snd kv)) m) l
                       (match s with Some m => m | None => [] end)), None)
  | Some j =>
      (s, Some (UnmarshalTypeError
                  (kind_name j ++ " into Go value of type map[string]interface {}")))
  end.

(** [json.Marshal(m)] and [json.MarshalIndent(m, "", "  ")] for a map;
    neither has an error to return on the values of this model. *)
Definition Marshal (m : option gomap) : string :=
  match m with
  | None => "null"
  | Some m => encode (JObj m)
  end.

Definition MarshalIndent (m : option gomap) : string :=
  match m with
  | None => "null"
  | Some m => encode_indent 0 (JObj m)
  end.

(** *** Decoding into structs

    A struct type is described by its fields (the Go name, the name in
    the [json] tag, the type); a decoded value mirrors the description.
    [decode] follows the library: a member is matched to a field by its
    tag, exactly or else up to case; an unknown member is skipped; [null]
    leaves a field as it is; a value of the wrong kind is recorded as an
    [UnmarshalTypeError] and decoding goes on, the first such error being
    the one returned; an error of [time.Time]'s own decoder stops the
    decoding at once. *)

Inductive gotype : Type :=
| TString
| TInt
| TBool
| TTime
| TSlice (elem : gotype)
| TStruct (fields : list (string * string * gotype)).

Inductive goval : Type :=
| VString (s : string)
| VInt (n : Z)
| VBool (b : bool)
| VTime (t : option string)       (* the RFC 3339 text; None is the zero time *)
| VSlice (l : list goval)
| VStruct (fs : list (string * goval)).

Fixpoint zero (t : gotype) : goval :=
  match t with
  | TString => VString ""
  | TInt => VInt 0
  | TBool => VBool false
  | TTime => VTime None
  | TSlice _ => VSlice []
  | TStruct fs =>
      VStruct ((fix fields (fs : list (string * string * gotype)) :=
                  match fs with
                  | [] => []
                  | (name, _, ft) :: r => (name, zero ft) :: fields r
                  end) fs)
  end.

Fixpoint find_exact (key : string) (fs : list (string * string * gotype))
  : option (string * gotype) :=
  match fs with
  | [] => None
  | (name, tag, ft) :: r =>
      if String.eqb tag key then Some (name, ft) else find_exact key r
  end.

Fixpoint find_fold (key : string) (fs : list (string * string * gotype))
  : option (string * gotype) :=
  match fs with
  | [] => None
  | (name, tag, ft) :: r =>
      if equalFold tag key then Some (name, ft) else find_fold key r
  end.

Definition find_field (key : string) (fs : list (string * string * gotype))
  : option (string * gotype) :=
  match find_exact key fs with
  | Some f => Some f
  | None => find_fold key fs
  end.

Fixpoint lookup (name : string) (fs : list (string * goval)) : option goval :=
  match fs with
  | [] => None
  | (n, v) :: r => if String.eqb n name then Some v else lookup name r
  end.

Fixpoint update (name : string) (v : goval) (fs : list (string * goval))
  : list (string * goval) :=
  match fs with
  | [] => []
  | (n, v') :: r =>
      if String.eqb n name then (n, v) :: r else (n, v') :: update name v r
  end.

(** The field [name] of a struct value (of type [ft], should the value
    not have it), and the value with that field replaced. *)
Definition get_field (name : string) (ft : gotype) (cur : goval) : goval :=
  match cur with
  | VStruct fs => match lookup name fs with Some v => v | None => zero ft end
  | _ => zero ft
  end.

Definition set_field (name : string) (v : goval) (cur : goval) : goval :=
  match cur with
  | VStruct fs => VStruct (update name v fs)
  | _ => cur
  end.

Fixpoint digits_value (s : string) (acc : Z) : Z :=
  match s with
  | EmptyString => acc
  | String c r => digits_value r (10 * acc + Z.of_N (code c - 48))
  end.

(** [strconv.ParseInt(lit, 10, 64)] on a JSON number. *)
Definition parse_int (lit : string) : option Z :=
  let (neg, ds) :=
    match lit with
    | String c r => if Ascii.eqb c "-"%char then (true, r) else (false, lit)
    | EmptyString => (false, lit)
    end in
  if negb (String.eqb ds "") && forallb_chars is_digit ds then
    let n := if neg then (- digits_value ds 0)%Z else digits_value ds 0 in
    if ((-9223372036854775808 <=? n) && (n <=? 9223372036854775807))%Z
    then Some n else None
  else None.

Definition two (a b : ascii) : option N :=
  if is_digit a && is_digit b then Some ((code a - 48) * 10 + (code b - 48))%N
  else None.

Definition days_in (year month : N) : N :=
  if (month =? 2)%N then
    if ((year mod 4 =? 0) && (negb (year mod 100 =? 0) || (year mod 400 =? 0)))%N
    then 29%N else 28%N
  else if ((month =? 4) || (month =? 6) || (month =? 9) || (month =? 11))%N
       then 30%N else 31%N.

(** What may follow the seconds: a fraction, then [Z] or an offset. *)
Definition zone_ok (s : string) : bool :=
  let s1 :=
    match s with
    | String c r =>
        if Ascii.eqb c "."%char then
          match take_digits r with
          | (EmptyString, _) => s
          | (_, rest) => rest
          end
        else s
    | EmptyString => s
    end in
  match s1 with
  | String z EmptyString => Ascii.eqb z "Z"%char
  | String sg (String h1 (String h2 (String c (String m1 (String m2 EmptyString))))) =>
      (Ascii.eqb sg "+"%char || Ascii.eqb sg "-"%char) && Ascii.eqb c ":"%char &&
      match two h1 h2, two m1 m2 with
      | Some h, Some m => (h <? 24)%N && (m <? 60)%N
      | _, _ => false
      end
  | _ => false
  end.

(** The layout [time.RFC3339] (date, [T], time, zone), which is what
    [time.Time] accepts from JSON; the leniencies of [time.Parse] on the
    width of the fields are not modelled. *)
Definition rfc3339 (s : string) : bool :=
  match s with
  | String y1 (String y2 (String y3 (String y4 (String d1 (String mo1 (String mo2
      (String d2 (String da1 (String da2 (String t (String h1 (String h2
        (String c1 (String mi1 (String mi2 (String c2 (String s1 (String s2 rest))))))))))))))))))
    =>
      Ascii.eqb d1 "-"%char && Ascii.eqb d2 "-"%char && Ascii.eqb t "T"%char &&
      Ascii.eqb c1 ":"%char && Ascii.eqb c2 ":"%char &&
      match two y1 y2, two y3 y4, two mo1 mo2, two da1 da2 with
      | Some yh, Some yl, Some mo, Some da =>
          (1 <=? mo)%N && (mo <=? 12)%N && (1 <=? da)%N &&
          (da <=? days_in (yh * 100 + yl) mo)%N
      | _, _, _, _ => false
      end &&
      match two h1 h2, two mi1 mi2, two s1 s2 with
      | Some h, Some mi, Some sec => (h <? 24)%N && (mi <? 60)%N && (sec <? 60)%N
      | _, _, _ => false
      end &&
      zone_ok rest
  | _ => false
  end.

(** How far a decoding got: it goes on, with the first recorded error
    if there is one, or it has stopped on an error. *)
Inductive progress : Type :=
| Go_on (saved : option error)
| Stop (err : error).

Definition save (saved : option error) (e : error) : option error :=
  match saved with
  | Some _ => saved
  | None => Some e
  end.

Definition mismatch (saved : option error) (j : json) : progress :=
  Go_on (save saved (UnmarshalTypeError (kind_name j))).

Definition not_a_time (j : json) : progress :=
  Stop (ParseError (encode j)).

Fixpoint decode (t : gotype) (cur : goval) (j : json) (saved : option error)
  {struct j} : goval * progress :=
  match j with
  | JNull =>
      (match t with TSlice _ => VSlice [] | _ => cur end, Go_on saved)
  | JBool b =>
      match t with
      | TBool => (VBool b, Go_on saved)
      | TTime => (cur, not_a_time j)
      | _ => (cur, mismatch saved j)
      end
  | JNum lit =>
      match t with
      | TInt =>
          match parse_int lit with
          | Some n => (VInt n, Go_on saved)
          | None => (cur, mismatch saved j)
          end
      | TTime => (cur, not_a_time j)
      | _ => (cur, mismatch saved j)
      end
  | JStr s =>
      match t with
      | TString => (VString s, Go_on saved)
      | TTime =>
          if rfc3339 s then (VTime (Some s), Go_on saved)
          else (cur, Stop (ParseError s))
      | _ => (cur, mismatch saved j)
      end
  | JArr l =>
      match t with
      | TSlice e =>
          let (vs, p) :=
            (fix elements (l : list json) (saved : option error)
               : list goval * progress :=
               match l with
               | [] => ([], Go_on saved)
               | x :: r =>
                   match decode e (zero e) x saved with
                   | (v, Go_on saved') =>
                       let (vs, p) := elements r saved' in (v :: vs, p)
                   | (v, Stop err) => ([v], Stop err)
                   end
               end) l saved in
          (VSlice vs, p)
      | TTime => (cur, not_a_time j)
      | _ => (cur, mismatch saved j)
      end
  | JObj l =>
      match t with
      | TStruct fs =>
          (fix members (l : list (string * json)) (cur : goval)
               (saved : option error) : goval * progress :=
             match l with
             | [] => (cur, Go_on saved)
             | (k, v) :: r =>
                 match find_field k fs with
                 | None => members r cur saved
                 | Some (name, ft) =>
                     match decode ft (get_field name ft cur) v saved with
                     | (fv, Go_on saved') => members r (set_field name fv cur) saved'
                     | (fv, Stop err) => (set_field name fv cur, Stop err)
                     end
                 end
             end) l cur saved
      | TTime => (cur, not_a_time j)
      | _ => (cur, mismatch saved j)
      end
  end.

(** [json.Unmarshal(data, &v)] for [v] of the struct type [t]: the text
    is checked as a whole first, so a syntax error leaves [v] untouched;
    otherwise [v] is filled as far as the decoding went, whatever error
    is returned with it. *)
Definition Unmarshal (t : gotype) (data : string) (v : goval)
  : goval * option error :=
  match parse data with
  | None => (v, Some syntax_error)
  | Some j =>
      match decode t v j None with
      | (v', Go_on saved) => (v', saved)
      | (v', Stop err) => (v', Some err)
      end
  end.

(** Reading a decoded value. *)
Definition str_field (name : string) (v : goval) : string :=
  match get_field name TString v with
  | VString s => s
  | _ => ""
  end.

Definition bool_field (name : string) (v : goval) : bool :=
  match get_field name TBool v with
  | VBool b => b
  | _ => false
  end.

Definition time_field (name : string) (v : goval) : option string :=
  match get_field name TTime v with
  | VTime t => t
  | _ => None
  end.

Definition slice_field (name : string) (v : goval) : list goval :=
  match get_field name (TSlice TString) v with
  | VSlice l => l
  | _ => []
  end.

Definition struct_field (name : string) (v : goval) : goval :=
  get_field name (TStruct []) v.

End Json.

(* ================================================================== *)
(** ** net/http, net/url and context, as far as the package uses them *)

Module Http.
Import Text Errors.

(** The caller's context: the background one, or one that the caller
    cancels when the clock reaches [t]. *)
Inductive Context : Type :=
| Background
| WithCancelAt (t : nat).

Definition Done (ctx : Context) (now : nat) : bool :=
  match ctx with
  | Background => false
  | WithCancelAt t => (t <=? now)%nat
  end.

Record Cookie : Type := { Name : string; Value : string }.

Record Request : Type := {
  Method : string;
  URL : string;
  Header : list (string * list string);
  ReqCookies : list Cookie;       (* what AddCookie put in the Cookie header *)
  Body : option string;           (* None is the nil body *)
  ContentLength : nat;
  Ctx : Context
}.

Record Response : Type := {
  StatusCode : nat;
  ResHeader : list (string * string);   (* header lines, names in canonical form *)
  ResBody : string                      (* the transport never hands out a nil body *)
}.

(** *** URLs

    [url.Parse] and [http.NewRequest] fail on a malformed URL.  The model
    accepts the URLs it is sure of: scheme https, a host name with an
    optional port, a path without control bytes, percent signs or a
    fragment, and a query of printable bytes. *)

Definition is_alnum (c : ascii) : bool :=
  is_digit c || is_upper c || between 97 122 c.

Definition hostname_byte (c : ascii) : bool :=
  is_alnum c || Ascii.eqb c "-"%char || Ascii.eqb c "."%char || Ascii.eqb c "_"%char.

Definition valid_host (h : string) : bool :=
  match cut ":"%char h with
  | None => negb (String.eqb h "") && forallb_chars hostname_byte h
  | Some (name, port) =>
      negb (String.eqb name "") && forallb_chars hostname_byte name &&
      forallb_chars is_digit port
  end.

Definition path_byte (c : ascii) : bool :=
  (32 <=? code c)%N && (code c <? 127)%N &&
  negb (Ascii.eqb c "%"%char) && negb (Ascii.eqb c "#"%char).

Definition query_byte (c : ascii) : bool :=
  (32 <? code c)%N && (code c <? 127)%N && negb (Ascii.eqb c "#"%char).

Definition valid_url (u : string) : bool :=
  match Json.strip_prefix "https://" u with
  | None => false
  | Some r =>
      let (front, query) :=
        match cut "?"%char r with
        | Some (a, b) => (a, b)
        | None => (r, EmptyString)
        end in
      forallb_chars query_byte query &&
      match cut "/"%char front with
      | None => valid_host front
      | Some (host, path) => valid_host host && forallb_chars path_byte path
      end
  end.

Definition parse_error (u : string) : error :=
  urlError "parse" u (errorString "invalid URL").

(** [http.NewRequest(method, url, body)]: the context is the background
    one, and the length is that of the body it is given. *)
Definition http_NewRequest (method url : string) (body : option string)
  : Request + error :=
  if valid_url url then
    inl {| Method := method; URL := url; Header := []; ReqCookies := [];
           Body := body;
           ContentLength := match body with Some b => String.length b | None => 0 end;
           Ctx := Background |}
  else inr (parse_error url).

Definition WithContext (req : Request) (ctx : Context) : Request :=
  {| Method := Method req; URL := URL req; Header := Header req;
     ReqCookies := ReqCookies req; Body := Body req;
     ContentLength := ContentLength req; Ctx := ctx |}.

Definition set_Body (req : Request) (body : option string) : Request :=
  {| Method := Method req; URL := URL req; Header := Header req;
     ReqCookies := ReqCookies req; Body := body;
     ContentLength := ContentLength req; Ctx := Ctx req |}.

Definition set_ContentLength (req : Request) (n : nat) : Request :=
  {| Method := Method req; URL := URL req; Header := Header req;
     ReqCookies := ReqCookies req; Body := Body req;
     ContentLength := n; Ctx := Ctx req |}.

Definition set_Header (req : Request) (h : list (string * list string)) : Request :=
  {| Method := Method req; URL := URL req; Header := h;
     ReqCookies := ReqCookies req; Body := Body req;
     ContentLength := ContentLength req; Ctx := Ctx req |}.

Definition AddCookie (req : Request) (c : Cookie) : Request :=
  {| Method := Method req; URL := URL req; Header := Header req;
     ReqCookies := (ReqCookies req ++ [c])%list; Body := Body req;
     ContentLength := ContentLength req; Ctx := Ctx req |}.

(** [req.Header[key] = []string{value}]: the key as it is written. *)
Fixpoint header_assign (key : string) (vs : list string)
  (h : list (string * list string)) : list (string * list string) :=
  match h with
  | [] => [(key, vs)]
  | (k, old) :: r =>
      if String.eqb k key then (k, vs) :: r else (k, old) :: header_assign key vs r
  end.

Definition upper (c : ascii) : ascii :=
  if between 97 122 c then chr (code c - 32) else c.

(** [textproto.CanonicalMIMEHeaderKey]: a capital at the start and
    behind every hyphen, small letters elsewhere. *)
Fixpoint canonical (up : bool) (s : string) : string :=
  match s with
  | EmptyString => EmptyString
  | String c r =>
      String (if up then upper c else lower c) (canonical (Ascii.eqb c "-"%char) r)
  end.

Fixpoint header_append (key value : string)
  (h : list (string * list string)) : list (string * list string) :=
  match h with
  | [] => [(key, [value])]
  | (k, old) :: r =>
      if String.eqb k key then (k, (old ++ [value])%list) :: r
      else (k, old) :: header_append key value r
  end.

(** [req.Header.Add(key, value)]. *)
Definition header_Add (key value : string) (req : Request) : Request :=
  set_Header req (header_append (canonical true key) value (Header req)).

Definition set_header (key value : string) (req : Request) : Request :=
  set_Header req (header_assign key [value] (Header req)).

(** *** Query strings *)

Definition unreserved (c : ascii) : bool :=
  is_alnum c || Ascii.eqb c "-"%char || Ascii.eqb c "_"%char ||
  Ascii.eqb c "."%char || Ascii.eqb c "~"%char.

Definition HEX (n : N) : ascii :=
  nth (N.to_nat n) (list_ascii_of_string "0123456789ABCDEF") "0"%char.

(** [url.QueryEscape]. *)
Fixpoint QueryEscape (s : string) : string :=
  match s with
  | EmptyString => EmptyString
  | String c r =>
      if unreserved c then String c (QueryEscape r)
      else if Ascii.eqb c " "%char then String "+"%char (QueryEscape r)
      else String "%"%char (String (HEX (code c / 16)) (String (HEX (code c mod 16))
             (QueryEscape r)))
  end.

Fixpoint insert_param (kv : string * string) (l : list (string * string))
  : list (string * string) :=
  match l with
  | [] => [kv]
  | kv' :: r =>
      if String.ltb (fst kv) (fst kv') then kv :: l else kv' :: insert_param kv r
  end.

(** [url.Values.Encode]: the parameters sorted by key, escaped, joined. *)
Definition Encode (q : list (string * string)) : string :=
  String.concat "&"
    (map (fun kv => QueryEscape (fst kv) ++ "=" ++ QueryEscape (snd kv))
         (fold_left (fun acc kv => insert_param kv acc) q [])).

(** *** Cookies of a response *)

Definition token_byte (c : ascii) : bool :=
  is_alnum c ||
  existsb (Ascii.eqb c) (list_ascii_of_string "!#$%&'*+-.^_`|~").

Definition isCookieNameValid (raw : string) : bool :=
  negb (String.eqb raw "") && forallb_chars token_byte raw.

Definition validCookieValueByte (b : ascii) : bool :=
  (32 <=? code b)%N && (code b <? 127)%N &&
  negb (Ascii.eqb b dquote) && negb (Ascii.eqb b ";"%char) &&
  negb (Ascii.eqb b backslash).

Definition strip_quotes (raw : string) : string :=
  match raw with
  | String c r =>
      if Ascii.eqb c dquote then
        match rev_string r EmptyString with
        | String c' r' =>
            if Ascii.eqb c' dquote then rev_string r' EmptyString else raw
        | EmptyString => raw
        end
      else raw
  | EmptyString => raw
  end.

(** [parseCookieValue(raw, true)]. *)
Definition parseCookieValue (raw : string) : option string :=
  let raw := strip_quotes raw in
  if forallb_chars validCookieValueByte raw then Some raw else None.

(** One [Set-Cookie] line: the name and the value in front of the first
    semicolon; a line without them gives no cookie. *)
Definition readSetCookie (line : string) : option Cookie :=
  let line := trimString line in
  let part0 := match cut ";"%char line with Some (a, _) => a | None => line end in
  match cut "="%char (trimString part0) with
  | None => None
  | Some (name, value) =>
      if isCookieNameValid name then
        match parseCookieValue value with
        | Some v => Some {| Name := name; Value := v |}
        | None => None
        end
      else None
  end.

Fixpoint readSetCookies (h : list (string * string)) : list Cookie :=
  match h with
  | [] => []
  | (k, line) :: r =>
      if String.eqb k "Set-Cookie" then
        match readSetCookie line with
        | Some c => c :: readSetCookies r
        | None => readSetCookies r
        end
      else readSetCookies r
  end.

(** [res.Cookies()]. *)
Definition Cookies (res : Response) : list Cookie := readSetCookies (ResHeader res).

Definition set_ResBody (res : Response) (body : string) : Response :=
  {| StatusCode := StatusCode res; ResHeader := ResHeader res; ResBody := body |}.

(** *** The length a reply declares, and httputil.DumpResponse

    [res.ContentLength] is the transport's: zero for a status that
    allows no body, the number of the header [Content-Length] when the
    reply has one, and unknown (Go's -1, here [None]) otherwise.  (A
    header that is not a number makes the transport fail; here it
    counts as no header.)  Replacing [res.Body] does not change it. *)

Fixpoint header_Get (key : string) (h : list (string * string)) : option string :=
  match h with
  | [] => None
  | (k, v) :: r => if String.eqb k key then Some v else header_Get key r
  end.

Definition bodyAllowedForStatus (status : nat) : bool :=
  negb (((100 <=? status) && (status <=? 199)) || (status =? 204) || (status =? 304))%nat.

Definition parseContentLength (v : string) : option nat :=
  let v := trimString v in
  if negb (String.eqb v "") && forallb_chars is_digit v
  then Some (Z.to_nat (Json.digits_value v 0))
  else None.

Definition ResContentLength (res : Response) : option nat :=
  if bodyAllowedForStatus (StatusCode res) then
    match header_Get "Content-Length" (ResHeader res) with
    | Some v => parseContentLength v
    | None => None
    end
  else Some 0.

(** Whether [httputil.DumpResponse(res, true)] gives the dump.  It
    writes the reply out again, and [Response.Write] refuses a body
    whose length is not the declared one ([http: ContentLength=n with
    Body length m]); a declared length of zero on a body that is not
    empty is taken for an unknown length.  The body is put back either
    way. *)
Definition DumpResponse_ok (res : Response) : bool :=
  match ResContentLength res with
  | None => true
  | Some n => ((n =? 0) || (n =? String.length (ResBody res)))%nat
  end.

End Http.

(* ================================================================== *)
(** ** The world of a run, and the monad of the code

    The provider is a script: the replies the transport will give, in
    order.  The world also records what the code did (the requests it
    handed to the transport, the calls to the MFA handler, the seconds it
    slept, what it logged).  A computation returns a value, returns an
    error, or panics; a loop that is cut off by its fuel returns
    nothing. *)

Module Effects.
Import Errors Http.

Inductive Reply : Type :=
| Answer (res : Response)
| Failure (err : error).

Inductive LogEntry : Type :=
| DumpRequest (name : string) (req : Request)
| DumpResponse (name : string) (res : Response).

Record World : Type := {
  script : list Reply;        (* the replies still to come *)
  requests : list Request;    (* the calls of the transport, oldest first *)
  clock : nat;                (* seconds slept since the start *)
  selects : nat;              (* calls of the handler's Select *)
  reads : nat;                (* calls of the handler's ReadCode *)
  logged : list LogEntry      (* what the logging function was given *)
}.

Definition start (replies : list Reply) : World :=
  {| script := replies; requests := []; clock := 0; selects := 0; reads := 0;
     logged := [] |}.

(** The ways the code changes the world. *)
Definition sent (req : Request) (rest : list Reply) (w : World) : World :=
  {| script := rest; requests := (requests w ++ [req])%list; clock := clock w;
     selects := selects w; reads := reads w; logged := logged w |}.

Definition slept (seconds : nat) (w : World) : World :=
  {| script := script w; requests := requests w; clock := clock w + seconds;
     selects := selects w; reads := reads w; logged := logged w |}.

Definition with_log (e : LogEntry) (w : World) : World :=
  {| script := script w; requests := requests w; clock := clock w;
     selects := selects w; reads := reads w; logged := (logged w ++ [e])%list |}.

Definition selected (w : World) : World :=
  {| script := script w; requests := requests w; clock := clock w;
     selects := S (selects w); reads := reads w; logged := logged w |}.

Definition read (w : World) : World :=
  {| script := script w; requests := requests w; clock := clock w;
     selects := selects w; reads := S (reads w); logged := logged w |}.

Inductive Result (A : Type) : Type :=
| Ok (a : A)
| Err (e : error)
| Panic (msg : string).
Arguments Ok {A} a.
Arguments Err {A} e.
Arguments Panic {A} msg.

Definition M (A : Type) : Type := World -> option (Result A * World).

Definition ret {A} (a : A) : M A := fun w => Some (Ok a, w).
Definition fail {A} (e : error) : M A := fun w => Some (Err e, w).
Definition panic {A} (msg : string) : M A := fun w => Some (Panic msg, w).
Definition out_of_fuel {A} : M A := fun _ => None.

Definition bind {A B} (c : M A) (k : A -> M B) : M B :=
  fun w =>
    match c w with
    | None => None
    | Some (Ok a, w') => k a w'
    | Some (Err e, w') => Some (Err e, w')
    | Some (Panic msg, w') => Some (Panic msg, w')
    end.

(** A Go call whose error is returned as it is: [if err != nil { return "", err }]. *)
Definition try {A} (r : A + error) : M A :=
  match r with
  | inl a => ret a
  | inr e => fail e
  end.

Declare Scope go_scope.
Delimit Scope go_scope with go.
Notation "x <- c ;; k" := (bind c (fun x => k))
  (at level 61, c at next level, right associativity) : go_scope.
Notation "c ;;; k" := (bind c (fun _ => k))
  (at level 61, right associativity) : go_scope.

(** [urlErrorOp]: the method with a capital and small letters. *)
Definition urlErrorOp (method : string) : string :=
  match method with
  | EmptyString => EmptyString
  | String c r => String c (Text.map_chars Text.lower r)
  end.

(** [d.httpClient.Do(req)]: a request whose context is done is not sent;
    otherwise the provider gives its next reply, and a provider with
    nothing left to say closes the connection. *)
Definition Do (req : Request) : M Response :=
  fun w =>
    if Done (Ctx req) (clock w) then
      Some (Err (urlError (urlErrorOp (Method req)) (URL req) context_Canceled),
            sent req (script w) w)
    else
      match script w with
      | [] => Some (Err (urlError (urlErrorOp (Method req)) (URL req) io_EOF),
                    sent req [] w)
      | Answer res :: rest => Some (Ok res, sent req rest w)
      | Failure err :: rest => Some (Err err, sent req rest w)
      end.

(** [time.Sleep]: nothing interrupts it. *)
Definition Sleep (seconds : nat) : M unit :=
  fun w => Some (Ok tt, slept seconds w).

Definition log (e : LogEntry) : M unit :=
  fun w => Some (Ok tt, with_log e w).

Definition count_select : M unit :=
  fun w => Some (Ok tt, selected w).

(** Counts a call of ReadCode and tells how many came before it. *)
Definition count_read : M nat :=
  fun w => Some (Ok (reads w), read w).

End Effects.

(* ================================================================== *)
(** ** The package *)

Module Oktadance.
Import Text Errors Json Http Effects.
Open Scope go_scope.

Definition SessionToken : Type := string.
Definition SessionID : Type := string.

(** The client.  Its transport is the world's; [logger] tells whether a
    logging function was set with [WithLogger]. *)
Record Dance : Type := {
  appID : string;
  oktaDomain : string;
  clientID : string;
  logger : bool;
  prettyJSON : bool
}.

(** [New(oktaDomain)] and the options. *)
Definition New (domain : string) : Dance :=
  {| appID := ""; oktaDomain := domain; clientID := ""; logger := false;
     prettyJSON := false |}.

Definition WithClientID (id : string) (d : Dance) : Dance :=
  {| appID := appID d; oktaDomain := oktaDomain d; clientID := id;
     logger := logger d; prettyJSON := prettyJSON d |}.

Definition WithLogger (d : Dance) : Dance :=
  {| appID := appID d; oktaDomain := oktaDomain d; clientID := clientID d;
     logger := true; prettyJSON := prettyJSON d |}.

Definition WithPrettyJSON (d : Dance) : Dance :=
  {| appID := appID d; oktaDomain := oktaDomain d; clientID := clientID d;
     logger := logger d; prettyJSON := true |}.

(** *** The types of the provider's answers *)

Definition oktaUserAuthnFactorProfile : gotype :=
  TStruct [("CredentialID", "credentialId", TString);
           ("AppID", "appId", TString);
           ("Version", "version", TString)].

Definition oktaUserAuthnFactorEmbeddedVerificationLinksComplete : gotype :=
  TStruct [("Href", "href", TString)].

Definition oktaUserAuthnFactorEmbeddedVerificationLinks : gotype :=
  TStruct [("Complete", "complete", oktaUserAuthnFactorEmbeddedVerificationLinksComplete)].

Definition oktaUserAuthnFactorEmbeddedVerification : gotype :=
  TStruct [("Host", "host", TString);
           ("Signature", "signature", TString);
           ("FactorResult", "factorResult", TString);
           ("Links", "_links", oktaUserAuthnFactorEmbeddedVerificationLinks)].

Definition oktaUserAuthnFactorEmbeddedChallenge : gotype :=
  TStruct [("Nonce", "nonce", TString);
           ("TimeoutSeconnds", "timeoutSeconds", TInt)].

Definition oktaUserAuthnFactorEmbedded : gotype :=
  TStruct [("Verification", "verification", oktaUserAuthnFactorEmbeddedVerification);
           ("Challenge", "challenge", oktaUserAuthnFactorEmbeddedChallenge)].

Definition oktaUserAuthnFactor : gotype :=
  TStruct [("ID", "id", TString);
           ("FactorType", "factorType", TString);
           ("Provider", "provider", TString);
           ("Embedded", "_embedded", oktaUserAuthnFactorEmbedded);
           ("Profile", "profile", oktaUserAuthnFactorProfile)].

Definition oktaUserAuthnEmbedded : gotype :=
  TStruct [("Factors", "factors", TSlice oktaUserAuthnFactor);
           ("Factor", "factor", oktaUserAuthnFactor)].

Definition oktaUserAuthn : gotype :=
  TStruct [("StateToken", "stateToken", TString);
           ("SessionToken", "sessionToken", TString);
           ("ExpiresAt", "expiresAt", TString);
           ("Status", "status", TString);
           ("Embedded", "_embedded", oktaUserAuthnEmbedded);
           ("FactorResult", "factorResult", TString)].

Definition hints : gotype := TStruct [("Allow", "allow", TSlice TString)].

(** The struct [Session]. *)
Definition Session_struct : gotype :=
  TStruct [("ID", "id", TString);
           ("UserID", "userId", TString);
           ("Login", "login", TString);
           ("CreatedAt", "createdAt", TTime);
           ("ExpiresAt", "expiresAt", TTime);
           ("Status", "status", TString);
           ("LastPasswordVerification", "lastPasswordVerification", TTime);
           ("LastFactorVerification", "lastFactorVerification", TTime);
           ("Amr", "amr", TSlice TString);
           ("Idp", "idp", TStruct [("ID", "id", TString); ("Type", "type", TString)]);
           ("MfaActive", "mfaActive", TBool);
           ("Links", "_links",
              TStruct [("Self", "self",
                          TStruct [("Href", "href", TString); ("Hints", "hints", hints)]);
                       ("Refresh", "refresh",
                          TStruct [("Href", "href", TString); ("Hints", "hints", hints)]);
                       ("User", "user",
                          TStruct [("Name", "name", TString); ("Href", "href", TString);
                                   ("Hints", "hints", hints)])])].

(** The fields the code reads, by their Go names. *)
Definition StateToken (v : goval) : string := str_field "StateToken" v.
Definition sessionToken (v : goval) : string := str_field "SessionToken" v.
Definition Status (v : goval) : string := str_field "Status" v.
Definition Embedded (v : goval) : goval := struct_field "Embedded" v.
Definition Factors (v : goval) : list goval := slice_field "Factors" v.
Definition ID (v : goval) : string := str_field "ID" v.
Definition FactorType (v : goval) : string := str_field "FactorType" v.
Definition Provider (v : goval) : string := str_field "Provider" v.
Definition Login (v : goval) : string := str_field "Login" v.

(** *** Factors and the MFA handler *)

Record factor : Type := { id : string; provider : string; factorType : string }.

(** The interface [Factor] has two implementations. *)
Inductive Factor : Type :=
| pushFactor (f : factor)
| inputFactor (f : factor).

Definition the_factor (f : Factor) : factor :=
  match f with
  | pushFactor f => f
  | inputFactor f => f
  end.

(** The interface [Multifactor].  Both methods return Go's pair of a
    value and an error; a handler may answer each call of [ReadCode]
    differently, so it is told how many calls came before. *)
Record Multifactor : Type := {
  Select : list Factor -> option Factor * option error;
  ReadCode : Factor -> nat -> string * option error
}.

(** [(o oktaUserAuthnFactor) factor()]. *)
Definition oktaUserAuthnFactor_factor (o : goval) : Factor :=
  if String.eqb (FactorType o) "push"
  then pushFactor {| id := ID o; provider := Provider o; factorType := FactorType o |}
  else inputFactor {| id := ID o; provider := Provider o; factorType := FactorType o |}.

(** [(ouae oktaUserAuthnEmbedded) factors()]. *)
Definition oktaUserAuthnEmbedded_factors (ouae : goval) : list Factor :=
  fold_left (fun rs f => (rs ++ [oktaUserAuthnFactor_factor f])%list) (Factors ouae) [].

Definition nil_dereference : string :=
  "runtime error: invalid memory address or nil pointer dereference".

(** A method called on the handler: on the nil interface it panics. *)
Definition call_Select (mfa : option Multifactor) (factors : list Factor)
  : M (option Factor * option error) :=
  match mfa with
  | None => panic nil_dereference
  | Some m => count_select ;;; ret (Select m factors)
  end.

Definition call_ReadCode (m : option Multifactor) (f : Factor)
  : M (string * option error) :=
  match m with
  | None => panic nil_dereference
  | Some m => n <- count_read ;; ret (ReadCode m f n)
  end.

(** *** The diagnostic hooks *)

(** The body [pre] and [post] leave behind when pretty printing is on:
    the text is decoded into an empty map, whatever the decoder says,
    and the map is written back with indentation. *)
Definition pretty (body : string) : string :=
  let s : option gomap := Some [] in
  let (s, _) := Unmarshal_map body s in
  MarshalIndent s.

Definition pre (d : Dance) (name : string) (req : Request) : M Request :=
  let req :=
    match prettyJSON d, Body req with
    | true, Some body =>
        let body := pretty body in
        set_ContentLength (set_Body req (Some body)) (String.length body)
    | _, _ => req
    end in
  if negb (logger d) then ret req
  else log (DumpRequest name req) ;;; ret req.

(** [post] returns the error of [httputil.DumpResponse] before it
    calls the logging function; no caller looks at what it returns, so
    the reply goes on as the pretty branch left it. *)
Definition post (d : Dance) (name : string) (res : Response) : M Response :=
  let res :=
    if prettyJSON d then set_ResBody res (pretty (ResBody res)) else res in
  if negb (logger d) then ret res
  else if DumpResponse_ok res then log (DumpResponse name res) ;;; ret res
       else ret res.

(** *** The factor protocols *)

Definition verify_url (d : Dance) (f : factor) : string :=
  "https://" ++ oktaDomain d ++ "/api/v1/authn/factors/" ++ id f ++ "/verify".

Fixpoint inputFactor_perform (fuel : nat) (f : factor) (d : Dance)
  (m : option Multifactor) (stateToken : string) : M SessionToken :=
  match fuel with
  | O => out_of_fuel
  | S fuel =>
      let vu := verify_url d f in
      req <- try (http_NewRequest "POST" vu None) ;;
      ce <- call_ReadCode m (inputFactor f) ;;
      let (code, err) := ce : string * option error in
      match err with
      | Some err => fail (fmt_Errorf_w "error reading MFA input: " err)
      | None =>
          let state := make_map [("stateToken", JStr stateToken);
                                 ("passCode", JStr code)] in
          let buf := Marshal (Some state) in
          let req := header_Add "Content-type" "application/json" req in
          let req := header_Add "Accept" "application/json" req in
          let req := set_Body req (Some buf) in
          req <- pre d "performMFA" req ;;
          res <- Do req ;;
          res <- post d "performMFA" res ;;
          let buf := ResBody res in
          let auth := zero oktaUserAuthn in
          let (auth, _) := Unmarshal oktaUserAuthn buf auth in
          if String.eqb (Status auth) "SUCCESS" then ret (sessionToken auth)
          else if negb (String.eqb (Status auth) "MFA_CHALLENGE")
               then fail (errors_New buf)
               else
                 let stateToken := StateToken auth in
                 Sleep 2 ;;; inputFactor_perform fuel f d m stateToken
      end
  end.

Fixpoint pushFactor_perform (fuel : nat) (f : factor) (d : Dance)
  (m : option Multifactor) (stateToken : string) : M SessionToken :=
  match fuel with
  | O => out_of_fuel
  | S fuel =>
      let vu := verify_url d f in
      req <- try (http_NewRequest "POST" vu None) ;;
      let state := make_map [("stateToken", JStr stateToken)] in
      let buf := Marshal (Some state) in
      let req := header_Add "Content-type" "application/json" req in
      let req := header_Add "Accept" "application/json" req in
      let req := set_Body req (Some buf) in
      req <- pre d "performMFA" req ;;
      res <- Do req ;;
      res <- post d "performMFA" res ;;
      let buf := ResBody res in
      let auth := zero oktaUserAuthn in
      let (auth, _) := Unmarshal oktaUserAuthn buf auth in
      if String.eqb (Status auth) "SUCCESS" then ret (sessionToken auth)
      else if negb (String.eqb (Status auth) "MFA_CHALLENGE")
           then fail (errors_New buf)
           else
             let stateToken := StateToken auth in
             Sleep 2 ;;; pushFactor_perform fuel f d m stateToken
  end.

(** The method [perform] of the interface. *)
Definition perform (fuel : nat) (f : Factor) (d : Dance) (m : option Multifactor)
  (stateToken : string) : M SessionToken :=
  match f with
  | pushFactor f => pushFactor_perform fuel f d m stateToken
  | inputFactor f => inputFactor_perform fuel f d m stateToken
  end.

(** *** The orchestrator *)

Definition authn_url (d : Dance) : string :=
  "https://" ++ oktaDomain d ++ "/api/v1/authn".

Definition Authenticate (fuel : nat) (d : Dance) (ctx : Context)
  (username password : string) (mfa : option Multifactor) : M SessionToken :=
  let body := Marshal (Some (make_map [("username", JStr username);
                                       ("password", JStr password)])) in
  req <- try (http_NewRequest "POST" (authn_url d) (Some body)) ;;
  let req := set_header "Content-type" "application/json" req in
  let req := set_header "Accept" "application/json" req in
  let req := WithContext req ctx in
  req <- pre d "Authenticate" req ;;
  res <- Do req ;;
  res <- post d "Authenticate" res ;;
  let rb := ResBody res in
  let ar := zero oktaUserAuthn in
  let (ar, err) := Unmarshal oktaUserAuthn rb ar in
  match err with
  | Some err => fail err
  | None =>
      if String.eqb (Status ar) "MFA_REQUIRED" then
        factor <-
          (if Nat.eqb (List.length (Factors (Embedded ar))) 1 then
             ret (option_map oktaUserAuthnFactor_factor (hd_error (Factors (Embedded ar))))
           else if Nat.eqb (List.length (Factors (Embedded ar))) 0 then
             fail (errors_New "MFA needed but no factoirs available")
           else
             let factors := oktaUserAuthnEmbedded_factors (Embedded ar) in
             fe <- call_Select mfa factors ;;
             let (factor, err) := fe : option Factor * option error in
             match err with
             | Some err => fail (fmt_Errorf_w "error selecting MFA factor: " err)
             | None =>
                 match factor with
                 | None => fail (errors_New "no MFA was factor selected")
                 | Some _ =>
                     match factor with
                     | None =>
                         fail (errors_New "a factor was returned which was not passed in")
                     | Some _ => ret factor
                     end
                 end
             end) ;;
        match factor with
        | None => fail (errors_New "MFA required but no factor selected")
        | Some factor => perform fuel factor d mfa (StateToken ar)
        end
      else if negb (String.eqb (Status ar) "SUCCESS") then
        fail (errorString ("Status: " ++ Status ar))
      else ret (sessionToken ar)
  end.

(** *** The exchanger *)

Definition authorize_url (d : Dance) : string :=
  "https://" ++ oktaDomain d ++ "/oauth2/v1/authorize".

(** The parameters [Authorize] adds to the query, in the order it adds them. *)
Definition authorize_query (d : Dance) (sessionToken : SessionToken)
  : list (string * string) :=
  [("client_id", clientID d);
   ("redirect_uri", "https://epithet.io/okta-callback");
   ("sessionToken", sessionToken);
   ("prompt", "none");
   ("response_type", "id_token");
   ("scope", "openid")].

Definition url_Parse (u : string) : string + error :=
  if valid_url u then inl u else inr (parse_error u).

(** The loop over [res.Cookies()]: each cookie named [sid] overwrites
    what the ones before it left. *)
Definition last_sid (cookies : list Cookie) : string :=
  fold_left (fun sid c => if String.eqb (Name c) "sid" then Value c else sid)
            cookies "".

Definition Authorize (d : Dance) (ctx : Context) (sessionToken : SessionToken)
  : M SessionID :=
  u <- try (url_Parse (authorize_url d)) ;;
  let q := authorize_query d sessionToken in
  let u := u ++ "?" ++ Encode q in
  req <- try (http_NewRequest "GET" u None) ;;
  let req := set_header "Accept" "application/json" req in
  req <- pre d "Authorize" req ;;
  res <- Do (WithContext req ctx) ;;
  res <- post d "Authorize" res ;;
  if (400 <=? StatusCode res)%nat then
    let buf := ResBody res in
    fail (errors_New buf)
  else
    let sid := last_sid (Cookies res) in
    ret sid.

(** *** The session client *)

Definition sessions_url (d : Dance) : string :=
  "https://" ++ oktaDomain d ++ "/api/v1/sessions/me".

Definition Session (d : Dance) (ctx : Context) (sessionID : SessionID) : M goval :=
  let u := sessions_url d in
  req <- try (http_NewRequest "GET" u None) ;;
  let req := AddCookie req {| Name := "sid"; Value := sessionID |} in
  req <- pre d "Session" req ;;
  res <- Do (WithContext req ctx) ;;
  res <- post d "Session" res ;;
  let body := ResBody res in
  let sess := zero Session_struct in
  let (sess, err) := Unmarshal Session_struct body sess in
  match err with
  | Some err => fail err
  | None => ret sess
  end.

(** [strconv.Itoa] for a status code. *)
Fixpoint digits (fuel n : nat) (acc : string) : string :=
  match fuel with
  | O => acc
  | S fuel =>
      let acc := String (chr (48 + N.of_nat (n mod 10))) acc in
      if (n / 10 =? 0)%nat then acc else digits fuel (n / 10) acc
  end.

Definition Itoa (n : nat) : string := digits (S n) n EmptyString.

Definition CloseSession (d : Dance) (ctx : Context) (sessionID : SessionID) : M unit :=
  let u := sessions_url d in
  req <- try (http_NewRequest "DELETE" u None) ;;
  let req := AddCookie req {| Name := "sid"; Value := sessionID |} in
  req <- pre d "CloseSession" req ;;
  res <- Do (WithContext req ctx) ;;
  res <- post d "CloseSession" res ;;
  if (300 <=? StatusCode res)%nat then
    let body := ResBody res in
    fail (errorString ("Error closing session, status " ++ Itoa (StatusCode res)
                       ++ ": " ++ body))
  else ret tt.

End Oktadance.

(* ================================================================== *)
(** ** What a run looks like from outside

    The names the properties are stated with: the request and the reply
    as the hooks leave them, the answer as the code decodes it, the
    requests the code builds, and the world after one round trip. *)

Module Observed.
Import Text Errors Json Http Effects Oktadance.

(** The request [pre] hands on, and the reply [post] hands on. *)
Definition hooked (d : Dance) (req : Request) : Request :=
  match prettyJSON d, Body req with
  | true, Some body =>
      set_ContentLength (set_Body req (Some (pretty body))) (String.length (pretty body))
  | _, _ => req
  end.

Definition received (d : Dance) (res : Response) : Response :=
  if prettyJSON d then set_ResBody res (pretty (ResBody res)) else res.

(** What [post] makes of a body, and so the body an operation reads
    from a reply: the body itself unless pretty printing is on. *)
Definition as_read (d : Dance) (body : string) : string :=
  if prettyJSON d then pretty body else body.

Definition body_read (d : Dance) (res : Response) : string :=
  as_read d (ResBody res).

(** The provider's answer as the code decodes it, errors of the decoder
    left aside. *)
Definition seen (d : Dance) (res : Response) : goval :=
  fst (Unmarshal oktaUserAuthn (body_read d res) (zero oktaUserAuthn)).

Definition pre_world (d : Dance) (name : string) (req : Request) (w : World) : World :=
  if logger d then with_log (DumpRequest name (hooked d req)) w else w.

Definition post_world (d : Dance) (name : string) (res : Response) (w : World) : World :=
  if logger d && DumpResponse_ok (received d res)
  then with_log (DumpResponse name (received d res)) w else w.

(** The world after [pre], the transport and [post], when the provider
    answered [res] to [req] (the request as the code built it, with the
    context it is sent under). *)
Definition exchanged (d : Dance) (name : string) (req : Request) (res : Response)
  (rest : list Reply) (w : World) : World :=
  post_world d name res (sent (hooked d req) rest (pre_world d name req w)).

(** The same when the context is attached only for the transport, as
    [Authorize], [Session] and [CloseSession] do. *)
Definition exchanged_under (d : Dance) (name : string) (req : Request) (ctx : Context)
  (res : Response) (rest : list Reply) (w : World) : World :=
  post_world d name res
    (sent (WithContext (hooked d req) ctx) rest (pre_world d name req w)).

(** The bodies of the two factor protocols. *)
Definition state_only (stateToken : string) : string :=
  Marshal (Some (make_map [("stateToken", JStr stateToken)])).

Definition state_and_code (stateToken code : string) : string :=
  Marshal (Some (make_map [("stateToken", JStr stateToken); ("passCode", JStr code)])).

(** What a request body holds: a JSON object with the state token as
    its only member, or with the state token and the pass code. *)
Definition carries_only_state_token (req : Request) (stateToken : string) : Prop :=
  exists b : string,
    Body req = Some b /\
    Unmarshal_map b (Some []) = (Some [("stateToken", JStr stateToken)], None).

Definition carries_state_token_and_code (req : Request) (stateToken code : string)
  : Prop :=
  exists b : string,
    Body req = Some b /\
    Unmarshal_map b (Some [])
    = (Some [("passCode", JStr code); ("stateToken", JStr stateToken)], None).

(** The requests as the code builds them, before [pre]. *)
Definition verify_request (d : Dance) (f : factor) (body : string) : Request :=
  {| Method := "POST"; URL := verify_url d f;
     Header := [("Content-Type", ["application/json"]); ("Accept", ["application/json"])];
     ReqCookies := []; Body := Some body; ContentLength := 0; Ctx := Background |}.

Definition credentials (username password : string) : string :=
  Marshal (Some (make_map [("username", JStr username); ("password", JStr password)])).

Definition authn_request (d : Dance) (ctx : Context) (username password : string)
  : Request :=
  {| Method := "POST"; URL := authn_url d;
     Header := [("Content-type", ["application/json"]); ("Accept", ["application/json"])];
     ReqCookies := []; Body := Some (credentials username password);
     ContentLength := String.length (credentials username password); Ctx := ctx |}.

Definition authorize_request (d : Dance) (ctx : Context) (sessionToken : SessionToken)
  : Request :=
  {| Method := "GET";
     URL := authorize_url d ++ "?" ++ Encode (authorize_query d sessionToken);
     Header := [("Accept", ["application/json"])];
     ReqCookies := []; Body := None; ContentLength := 0; Ctx := ctx |}.

Definition session_request (d : Dance) (ctx : Context) (sessionID : SessionID)
  : Request :=
  {| Method := "GET"; URL := sessions_url d; Header := [];
     ReqCookies := [{| Name := "sid"; Value := sessionID |}];
     Body := None; ContentLength := 0; Ctx := ctx |}.

Definition close_request (d : Dance) (ctx : Context) (sessionID : SessionID)
  : Request :=
  {| Method := "DELETE"; URL := sessions_url d; Header := [];
     ReqCookies := [{| Name := "sid"; Value := sessionID |}];
     Body := None; ContentLength := 0; Ctx := ctx |}.

(** The values of the cookies named [sid], in the order of the reply. *)
Definition sid_values (cookies : list Cookie) : list string :=
  map Value (filter (fun c => String.eqb (Name c) "sid") cookies).

(** A reply with a body and nothing else of interest. *)
Definition reply (status : nat) (body : string) : Reply :=
  Answer {| StatusCode := status; ResHeader := []; ResBody := body |}.

End Observed.

(* ================================================================== *)
(** ** Concrete runs

    A client, two factors, a handler and the provider's usual answers,
    for the runs the properties are tried on. *)

Module Scenario.
Import Text Errors Json Http Effects Oktadance Observed.

Definition dance : Dance := WithClientID "0oa1client" (New "example.okta.com").

(** The client of the package's MFA test: logging and pretty printing on. *)
Definition verbose_dance : Dance := WithPrettyJSON (WithLogger dance).

Definition push : factor :=
  {| id := "opf1"; provider := "OKTA"; factorType := "push" |}.

Definition totp : factor :=
  {| id := "ost1"; provider := "GOOGLE"; factorType := "token:software:totp" |}.

Definition push_json : string :=
  "{'id':'opf1','factorType':'push','provider':'OKTA'}".

Definition totp_json : string :=
  "{'id':'ost1','factorType':'token:software:totp','provider':'GOOGLE'}".

Definition answer (status : nat) (body : string) : Response :=
  {| StatusCode := status; ResHeader := []; ResBody := q body |}.

Definition challenge (stateToken : string) : Response :=
  answer 200 ("{'status':'MFA_CHALLENGE','stateToken':'" ++ stateToken ++ "'}").

Definition success (token : string) : Response :=
  answer 200 ("{'status':'SUCCESS','sessionToken':'" ++ token ++ "'}").

Definition mfa_required (factors : string) : Response :=
  answer 200 ("{'status':'MFA_REQUIRED','stateToken':'st0',"
              ++ "'_embedded':{'factors':[" ++ factors ++ "]}}").

(** A human who picks the first factor offered and types the given
    codes one after the other. *)
Definition human (codes : list string) : Multifactor :=
  {| Select := fun factors => (hd_error factors, None);
     ReadCode := fun _ n =>
       match nth_error codes n with
       | Some c => (c, None)
       | None => ("", Some io_EOF)
       end |}.

(** A handler whose selection fails, and one that selects nothing. *)
Definition broken_console : Multifactor :=
  {| Select := fun _ => (None, Some io_EOF);
     ReadCode := fun _ _ => ("", Some io_EOF) |}.

Definition undecided : Multifactor :=
  {| Select := fun _ => (None, None);
     ReadCode := fun _ _ => ("", Some io_EOF) |}.

End Scenario.

(* ================================================================== *)
(** ** The first version of the library

    The file [lib.go] keeps the library as it was before multi-factor
    authentication and the hooks: the same four operations, with a
    client that holds the domain and the client identifier only. *)

Module Legacy.
Import Text Errors Json Http Effects.
Open Scope go_scope.

Record Dance : Type := {
  oktaDomain : string;
  clientID : string
}.

Definition New (domain : string) : Dance :=
  {| oktaDomain := domain; clientID := "" |}.

Definition WithClientID (id : string) (d : Dance) : Dance :=
  {| oktaDomain := oktaDomain d; clientID := id |}.

Definition authnResponse : gotype :=
  TStruct [("SessionToken", "sessionToken", TString)].

Definition Authenticate (d : Dance) (ctx : Context) (username password : string)
  : M Oktadance.SessionToken :=
  let body := Marshal (Some (make_map [("username", JStr username);
                                       ("password", JStr password)])) in
  req <- try (http_NewRequest "POST" ("https://" ++ oktaDomain d ++ "/api/v1/authn")
                              (Some body)) ;;
  let req := set_header "Content-type" "application/json" req in
  let req := set_header "Accept" "application/json" req in
  res <- Do (WithContext req ctx) ;;
  let rb := ResBody res in
  let ar := zero authnResponse in
  let (ar, err) := Unmarshal authnResponse rb ar in
  match err with
  | Some err => fail err
  | None => ret (str_field "SessionToken" ar)
  end.

Definition Authorize (d : Dance) (ctx : Context) (sessionToken : Oktadance.SessionToken)
  : M Oktadance.SessionID :=
  u <- try (Oktadance.url_Parse ("https://" ++ oktaDomain d ++ "/oauth2/v1/authorize")) ;;
  let q := [("client_id", clientID d);
            ("redirect_uri", "https://epithet.io/okta-callback");
            ("sessionToken", sessionToken);
            ("prompt", "none");
            ("response_type", "id_token");
            ("scope", "openid")] in
  let u := u ++ "?" ++ Encode q in
  req <- try (http_NewRequest "GET" u None) ;;
  let req := set_header "Accept" "application/json" req in
  res <- Do (WithContext req ctx) ;;
  if (400 <=? StatusCode res)%nat then
    let buf := ResBody res in
    fail (errors_New buf)
  else
    let sid := Oktadance.last_sid (Cookies res) in
    ret sid.

Definition Session (d : Dance) (ctx : Context) (sessionID : Oktadance.SessionID)
  : M goval :=
  let u := "https://" ++ oktaDomain d ++ "/api/v1/sessions/me" in
  req <- try (http_NewRequest "GET" u None) ;;
  let req := AddCookie req {| Name := "sid"; Value := sessionID |} in
  res <- Do (WithContext req ctx) ;;
  let body := ResBody res in
  let sess := zero Oktadance.Session_struct in
  let (sess, err) := Unmarshal Oktadance.Session_struct body sess in
  match err with
  | Some err => fail err
  | None => ret sess
  end.

Definition CloseSession (d : Dance) (ctx : Context) (sessionID : Oktadance.SessionID)
  : M unit :=
  let u := "https://" ++ oktaDomain d ++ "/api/v1/sessions/me" in
  req <- try (http_NewRequest "DELETE" u None) ;;
  let req := AddCookie req {| Name := "sid"; Value := sessionID |} in
  res <- Do (WithContext req ctx) ;;
  if (300 <=? StatusCode res)%nat then
    let body := ResBody res in
    fail (errorString ("Error closing session, status "
                       ++ Oktadance.Itoa (StatusCode res) ++ ": " ++ body))
  else ret tt.

(** The client of the later version that was built with the same
    arguments and no further option. *)
Definition later (d : Dance) : Oktadance.Dance :=
  Oktadance.WithClientID (clientID d) (Oktadance.New (oktaDomain d)).

End Legacy.

(* ================================================================== *)
(** ** The console handler

    [ConsoleMultifactor] asks a person at a terminal.  The terminal is
    the lines still to be typed and what was shown so far; reading at
    the end of the input gives [io.EOF]. *)

Module Console.
Import Text Errors Json Oktadance.

Definition tab : ascii := "009"%char.
Definition nl : ascii := "010"%char.

(** *** strings.TrimSpace and strconv.Atoi *)

Definition asciiSpace (c : ascii) : bool :=
  existsb (Ascii.eqb c)
    ["009"%char; "010"%char; "011"%char; "012"%char; "013"%char; " "%char].

Definition bytes (l : list ascii) : string := string_of_list_ascii l.

(** The white space of Unicode beyond ASCII, in UTF-8: U+0085, U+00A0,
    U+1680, U+2000 to U+200A, U+2028, U+2029, U+202F, U+205F, U+3000. *)
Definition wide_spaces : list string :=
  [bytes ["194"; "133"]; bytes ["194"; "160"]; bytes ["225"; "154"; "128"];
   bytes ["226"; "128"; "128"]; bytes ["226"; "128"; "129"];
   bytes ["226"; "128"; "130"]; bytes ["226"; "128"; "131"];
   bytes ["226"; "128"; "132"]; bytes ["226"; "128"; "133"];
   bytes ["226"; "128"; "134"]; bytes ["226"; "128"; "135"];
   bytes ["226"; "128"; "136"]; bytes ["226"; "128"; "137"];
   bytes ["226"; "128"; "138"]; bytes ["226"; "128"; "168"];
   bytes ["226"; "128"; "169"]; bytes ["226"; "128"; "175"];
   bytes ["226"; "129"; "159"]; bytes ["227"; "128"; "128"]]%char.

Fixpoint strip_any (prefixes : list string) (s : string) : option string :=
  match prefixes with
  | [] => None
  | p :: ps =>
      match strip_prefix p s with
      | Some r => Some r
      | None => strip_any ps s
      end
  end.

(** What follows one white space rune at the head of [s]. *)
Definition after_space (wide : list string) (s : string) : option string :=
  match s with
  | EmptyString => None
  | String c r => if asciiSpace c then Some r else strip_any wide s
  end.

Fixpoint trim_head (fuel : nat) (wide : list string) (s : string) : string :=
  match fuel with
  | O => s
  | S fuel =>
      match after_space wide s with
      | Some r => trim_head fuel wide r
      | None => s
      end
  end.

Definition reversed (s : string) : string := rev_string s EmptyString.

(** [strings.TrimSpace]: the white space runes off both ends. *)
Definition TrimSpace (s : string) : string :=
  let s := trim_head (String.length s) wide_spaces s in
  reversed (trim_head (String.length s) (map reversed wide_spaces) (reversed s)).

(** [strconv.Atoi]: an optional sign and decimal digits, within [int]. *)
Definition Atoi (s : string) : option Z :=
  let (neg, ds) :=
    match s with
    | String c r =>
        if Ascii.eqb c "-"%char then (true, r)
        else if Ascii.eqb c "+"%char then (false, r)
        else (false, s)
    | EmptyString => (false, s)
    end in
  if negb (String.eqb ds "") && forallb_chars is_digit ds then
    let n := if neg then (- digits_value ds 0)%Z else digits_value ds 0 in
    if ((-9223372036854775808 <=? n) && (n <=? 9223372036854775807))%Z
    then Some n else None
  else None.

(** *** The terminal *)

Inductive Event : Type :=
| Printed (text : string)        (* fmt.Printf *)
| Prompted (prompt : string).    (* SetPrompt, shown by the next Readline *)

Record Terminal : Type := {
  input : list string;
  shown : list Event
}.

Definition Readline (t : Terminal) : (string * option error) * Terminal :=
  match input t with
  | [] => (("", Some io_EOF), t)
  | line :: rest => ((line, None), {| input := rest; shown := shown t |})
  end.

Definition show (e : list Event) (t : Terminal) : Terminal :=
  {| input := input t; shown := (shown t ++ e)%list |}.

Definition FactorType_of (f : Factor) : string := factorType (the_factor f).
Definition Provider_of (f : Factor) : string := provider (the_factor f).

(** The menu of one round of [Select]: the heading and a line a factor. *)
Fixpoint menu_lines (i : nat) (factors : list Factor) : list Event :=
  match factors with
  | [] => []
  | f :: r =>
      Printed ("  " ++ Itoa i ++ String tab (FactorType_of f ++ " (" ++ Provider_of f
               ++ ")" ++ String nl EmptyString))
      :: menu_lines (S i) r
  end.

Definition menu (factors : list Factor) : list Event :=
  (Printed ("select factor:" ++ String nl EmptyString) :: menu_lines 0 factors
   ++ [Prompted ("factor [" ++ String.concat ", " (map Itoa (seq 0 (List.length factors)))
                 ++ "]: ")])%list.

(** [fm[idx]]: the map holds the factors under their positions. *)
Definition offered (factors : list Factor) (idx : Z) : option Factor :=
  if (idx <? 0)%Z then None else nth_error factors (Z.to_nat idx).

(** [Select]: a round shows the menu and reads a line; a line that is
    not a number, or not the number of a factor, starts another round.
    The recursion is on the lines still to be typed. *)
Fixpoint Select_rounds (factors : list Factor) (lines : list string)
  (shown : list Event) : (option Factor * option error) * Terminal :=
  let shown := (shown ++ menu factors)%list in
  match lines with
  | [] => ((None, Some io_EOF), {| input := []; shown := shown |})
  | line :: rest =>
      let choice := TrimSpace line in
      match Atoi choice with
      | None =>
          Select_rounds factors rest
            (shown ++ [Printed ("'" ++ choice ++ "' is not a valid choice"
                                ++ String nl EmptyString)])%list
      | Some idx =>
          match offered factors idx with
          | Some factor => ((Some factor, None), {| input := rest; shown := shown |})
          | None =>
              Select_rounds factors rest
                (shown ++ [Printed (choice ++ " is not an available factor"
                                    ++ String nl EmptyString)])%list
          end
      end
  end.

Definition Select (factors : list Factor) (t : Terminal)
  : (option Factor * option error) * Terminal :=
  Select_rounds factors (input t) (shown t).

(** [ReadCode]. *)
Definition ReadCode (f : Factor) (t : Terminal) : (string * option error) * Terminal :=
  let t := show [Prompted "code: "] t in
  match Readline t with
  | ((_, Some err), t) => (("", Some err), t)
  | ((code, None), t) => ((TrimSpace code, None), t)
  end.

End Console.

(* ================================================================== *)
(** ** What one call of the transport leaves behind *)

Module Calls.
Import Errors Http Effects.

(** The shape the simple operations share: a result, one more request
    in the log of the transport, at most one reply taken off the
    provider's script, and nothing else touched. *)
Definition one_call {A : Type} (run : M A) (req : Request) (w : World) : Prop :=
  exists (r : Result A) (w' : World),
    run w = Some (r, w') /\
    requests w' = (requests w ++ [req])%list /\
    (script w' = script w \/ script w' = tl (script w)) /\
    clock w' = clock w /\ selects w' = selects w /\ reads w' = reads w.

(** The marks that end the host in the address of a request. *)
Definition host_mark (c : ascii) : bool :=
  Ascii.eqb c "/"%char || Ascii.eqb c "?"%char.

End Calls.

(* ================================================================== *)
(** ** The package's tests

    [lib_test.go] runs the whole flow against a provider.  A failed
    requirement of [require] ends the test at once: the test is a
    computation whose error is the failed requirement (the text that
    testify prints for values that differ is not modelled).  The domain,
    the user, the password and the client identifier come from the
    environment. *)

Module Tests.
Import Text Errors Json Http Effects Oktadance.
Open Scope go_scope.

(** [testMFA.Select]: the first factor whose type is [push]. *)
Fixpoint testMFA_Select (factors : list Factor) : option Factor * option error :=
  match factors with
  | [] => (None, Some (errors_New "test requires push type"))
  | f :: r =>
      if String.eqb (factorType (the_factor f)) "push" then (Some f, None)
      else testMFA_Select r
  end.

Definition require_NoError {A : Type} (c : M A) : M A := c.

Definition require_Equal (expected actual : string) : M unit :=
  if String.eqb expected actual then ret tt else fail (errorString "Not equal").

(** [TestDance_WholeFlow_NoMFA]. *)
Definition TestDance_WholeFlow_NoMFA (fuel : nat)
  (oktaDomain user pass clientId : string) : M unit :=
  let ctx := Background in
  let d := WithClientID clientId (New oktaDomain) in
  sessionToken <- require_NoError (Authenticate fuel d ctx user pass None) ;;
  sessionID <- require_NoError (Authorize d ctx sessionToken) ;;
  it <- require_NoError (Session d ctx sessionID) ;;
  require_Equal user (Login it) ;;;
  it <- require_NoError (Session d ctx sessionID) ;;
  require_Equal user (Login it) ;;;
  require_NoError (CloseSession d ctx sessionID).

End Tests.

(* ================================================================== *)
(** ** The handler of the example program

    The example in [examples/oktadance-mfa] brings a console of its own,
    which asks for the type of the factor instead of its number. *)

Module Example.
Import Text Errors Json Oktadance.

(** The map [fm] from the type of a factor to the factor: a later
    factor of the same type takes the place of an earlier one. *)
Definition by_type (factors : list Factor) : string -> option Factor :=
  fold_left
    (fun (fm : string -> option Factor) (f : Factor) =>
       fun key => if String.eqb key (Console.FactorType_of f) then Some f else fm key)
    factors (fun _ => None).

(** [Console.Select]: one prompt, one line, and whatever the map holds
    under that line; nothing is an answer too. *)
Definition Select (factors : list Factor) (t : Console.Terminal)
  : (option Factor * option error) * Console.Terminal :=
  let fm := by_type factors in
  let fs := map Console.FactorType_of factors in
  let t := Console.show [Console.Prompted ("factor [" ++ String.concat ", " fs ++ "]: ")] t in
  match Console.Readline t with
  | ((_, Some err), t) => ((None, Some err), t)
  | ((choice, None), t) =>
      let choice := Console.TrimSpace choice in
      ((fm choice, None), t)
  end.

End Example.

(* ================================================================== *)
(** ** Properties *)

Import Text Errors Json Http Effects Oktadance Observed Scenario.
Open Scope go_scope.
Unset Implicit Arguments.

(** *** Reading back what the encoder wrote *)

Lemma scan_plain (fuel : nat) (c : ascii) (s : string) :
  Ascii.eqb c dquote = false ->
  Ascii.eqb c backslash = false ->
  (code c <? 32)%N = false ->
  scan_string (S fuel) (String c s) = prepend (String c EmptyString) (scan_string fuel s).
Proof. intros H1 H2 H3. cbn [scan_string]. rewrite H1, H2, H3. reflexivity. Qed.

Lemma scan_simple_escape (fuel : nat) (e ch : ascii) (s : string) :
  Ascii.eqb e "u"%char = false ->
  unescape1 e = Some ch ->
  scan_string (S fuel) (String "092"%char (String e s))
  = prepend (String ch EmptyString) (scan_string fuel s).
Proof. intros H1 H2. cbn [scan_string]. cbn [Ascii.eqb backslash dquote Bool.eqb]. rewrite H1, H2. reflexivity. Qed.

Lemma scan_u (fuel : nat) (s r2 : string) (rr : N) :
  getu4 s = Some (rr, r2) ->
  (rr <? 55296)%N = true ->
  scan_string (S fuel) (String "092"%char (String "u"%char s))
  = prepend (utf8_encode rr) (scan_string fuel r2).
Proof.
  intros H1 H2. cbn [scan_string]. cbn [Ascii.eqb backslash dquote Bool.eqb].
  rewrite H1. unfold rune_after.
  replace (55296 <=? rr)%N with false by (symmetry; apply N.leb_gt; apply N.ltb_lt; exact H2).
  reflexivity.
Qed.

Lemma getu4_u00 (c : ascii) (rest : string) :
  getu4 (String "0"%char (String "0"%char
           (String (hex_digit (code c / 16)) (String (hex_digit (code c mod 16)) rest))))
  = Some (code c, rest).
Proof. destruct c as [[] [] [] [] [] [] [] []]; reflexivity. Qed.

Lemma utf8_ascii (c : ascii) : (code c <? 128)%N = true -> utf8_encode (code c) = String c EmptyString.
Proof. destruct c as [[] [] [] [] [] [] [] []]; intros H; try discriminate H; reflexivity. Qed.

Lemma escape_cons (c : ascii) (r : string) :
  escape (String c r) =
    if Ascii.eqb c dquote then String backslash (String dquote (escape r))
    else if Ascii.eqb c backslash then String backslash (String backslash (escape r))
    else if Ascii.eqb c "010"%char then "\n" ++ escape r
    else if Ascii.eqb c "013"%char then "\r" ++ escape r
    else if Ascii.eqb c "009"%char then "\t" ++ escape r
    else if (code c <? 32)%N || Ascii.eqb c "<"%char || Ascii.eqb c ">"%char
            || Ascii.eqb c "&"%char then u00 c ++ escape r
    else
      match r with
      | String c1 (String c2 r') =>
          if Ascii.eqb c "226"%char && Ascii.eqb c1 "128"%char && Ascii.eqb c2 "168"%char
          then "\u" ++ "2028" ++ escape r'
          else if Ascii.eqb c "226"%char && Ascii.eqb c1 "128"%char && Ascii.eqb c2 "169"%char
          then "\u" ++ "2029" ++ escape r'
          else String c (escape r)
      | _ => String c (escape r)
      end.
Proof. destruct r as [|c1 [|c2 r']]; reflexivity. Qed.

Lemma scan_closing (fuel : nat) (rest : string) :
  scan_string (S fuel) (String dquote rest) = Some (EmptyString, rest).
Proof. reflexivity. Qed.

Lemma scan_escape (n : nat) :
  forall (s rest : string) (fuel : nat),
    String.length s <= n ->
    String.length (escape s) < fuel ->
    scan_string fuel (escape s ++ String dquote rest) = Some (s, rest).
Proof.
  induction n as [|n IH]; intros s rest fuel Hn Hf.
  - destruct s; [|cbn in Hn; lia].
    destruct fuel; [lia|]. reflexivity.
  - destruct s as [|c r].
    { destruct fuel; [lia|]. reflexivity. }
    destruct fuel as [|fuel]; [lia|].
    cbn [String.length] in Hn.
    rewrite escape_cons in Hf |- *.
    unfold backslash in *.
    destruct (Ascii.eqb c dquote) eqn:E1.
    { apply Ascii.eqb_eq in E1. subst c. cbn [String.length] in Hf. cbn [append].
      rewrite (scan_simple_escape fuel dquote dquote) by reflexivity.
      rewrite IH by lia. reflexivity. }
    destruct (Ascii.eqb c "092"%char) eqn:E2.
    { apply Ascii.eqb_eq in E2. subst c. cbn [String.length] in Hf. cbn [append].
      rewrite (scan_simple_escape fuel "092"%char "092"%char) by reflexivity.
      rewrite IH by lia. reflexivity. }
    destruct (Ascii.eqb c "010"%char) eqn:E3.
    { apply Ascii.eqb_eq in E3. subst c. cbn [String.length append] in Hf. cbn [append].
      rewrite (scan_simple_escape fuel "n"%char "010"%char) by reflexivity.
      rewrite IH by lia. reflexivity. }
    destruct (Ascii.eqb c "013"%char) eqn:E4.
    { apply Ascii.eqb_eq in E4. subst c. cbn [String.length append] in Hf. cbn [append].
      rewrite (scan_simple_escape fuel "r"%char "013"%char) by reflexivity.
      rewrite IH by lia. reflexivity. }
    destruct (Ascii.eqb c "009"%char) eqn:E5.
    { apply Ascii.eqb_eq in E5. subst c. cbn [String.length append] in Hf. cbn [append].
      rewrite (scan_simple_escape fuel "t"%char "009"%char) by reflexivity.
      rewrite IH by lia. reflexivity. }
    destruct ((code c <? 32)%N || Ascii.eqb c "<"%char || Ascii.eqb c ">"%char
              || Ascii.eqb c "&"%char) eqn:E6.
    { unfold u00 in Hf |- *. cbn [String.length append] in Hf. cbn [append].
      rewrite (scan_u fuel _ _ (code c) (getu4_u00 c _)).
      - rewrite utf8_ascii.
        + rewrite IH by lia. reflexivity.
        + clear - E6. destruct c as [[] [] [] [] [] [] [] []];
            try discriminate E6; reflexivity.
      - clear. destruct c as [[] [] [] [] [] [] [] []]; reflexivity. }
    assert (E7 : (code c <? 32)%N = false).
    { destruct (code c <? 32)%N; [discriminate E6 | reflexivity]. }
    assert (Hplain : forall r0 : string,
               String.length r0 <= n ->
               String.length (String c (escape r0)) < S fuel ->
               scan_string (S fuel) (String c (escape r0) ++ String dquote rest)
               = Some (String c r0, rest)).
    { intros r0 Hr0 Hf0. cbn [String.length] in Hf0. cbn [append].
      rewrite (scan_plain fuel c _ E1 E2 E7).
      rewrite IH by lia. reflexivity. }
    destruct r as [|c1 [|c2 r']].
    + apply Hplain; [lia | exact Hf].
    + apply Hplain; [lia | exact Hf].
    + cbn [String.length] in Hn.
      destruct (Ascii.eqb c "226"%char && Ascii.eqb c1 "128"%char
                && Ascii.eqb c2 "168"%char) eqn:E8.
      { apply andb_prop in E8. destruct E8 as [E8 Ec2].
        apply andb_prop in E8. destruct E8 as [Ec Ec1].
        apply Ascii.eqb_eq in Ec, Ec1, Ec2. subst c c1 c2.
        cbn [String.length append] in Hf. cbn [append].
        rewrite (scan_u fuel
                   (String "2" (String "0" (String "2" (String "8"
                      (escape r' ++ String dquote rest)))))
                   (escape r' ++ String dquote rest) 8232%N eq_refl eq_refl).
        rewrite IH by lia. reflexivity. }
      destruct (Ascii.eqb c "226"%char && Ascii.eqb c1 "128"%char
                && Ascii.eqb c2 "169"%char) eqn:E9.
      { apply andb_prop in E9. destruct E9 as [E9 Ec2].
        apply andb_prop in E9. destruct E9 as [Ec Ec1].
        apply Ascii.eqb_eq in Ec, Ec1, Ec2. subst c c1 c2.
        cbn [String.length append] in Hf. cbn [append].
        rewrite (scan_u fuel
                   (String "2" (String "0" (String "2" (String "9"
                      (escape r' ++ String dquote rest)))))
                   (escape r' ++ String dquote rest) 8233%N eq_refl eq_refl).
        rewrite IH by lia. reflexivity. }
      apply Hplain; [cbn [String.length]; lia | exact Hf].
Qed.

Lemma length_escape_lt (s rest : string) :
  String.length (escape s) < S (String.length (escape s ++ String dquote rest)).
Proof.
  induction (escape s) as [|c e IH]; cbn [String.length append]; lia.
Qed.

Lemma parse_string_value (fuel : nat) (s rest : string) :
  parse_value (S fuel) (String dquote (escape s ++ String dquote rest))
  = Some (JStr s, rest).
Proof.
  cbn [parse_value skip_ws]. 
  change (is_ws dquote) with false. cbv iota.
  change (Ascii.eqb dquote "{"%char) with false.
  change (Ascii.eqb dquote "["%char) with false.
  change (Ascii.eqb dquote dquote) with true. cbv iota.
  rewrite (scan_escape (String.length s) s rest _ (le_n _) (length_escape_lt s rest)).
  reflexivity.
Qed.


Lemma append_assoc (a b c : string) : (a ++ b) ++ c = a ++ (b ++ c).
Proof. induction a as [|x a IH]; cbn [append]; [reflexivity | rewrite IH; reflexivity]. Qed.

Lemma skip_ws_app (w : string) (c : ascii) (r : string) :
  forallb_chars is_ws w = true ->
  is_ws c = false ->
  skip_ws (w ++ String c r) = String c r.
Proof.
  intros Hw Hc. induction w as [|x w IH]; cbn [append skip_ws].
  - rewrite Hc. reflexivity.
  - cbn [forallb_chars] in Hw. apply andb_prop in Hw. destruct Hw as [Hx Hw].
    rewrite Hx. apply IH. exact Hw.
Qed.

Lemma parse_string_value_ws (fuel : nat) (w s rest : string) :
  forallb_chars is_ws w = true ->
  parse_value (S fuel) (w ++ String dquote (escape s ++ String dquote rest))
  = Some (JStr s, rest).
Proof.
  intros Hw.
  rewrite <- (parse_string_value fuel s rest).
  cbn [parse_value]. rewrite (skip_ws_app w dquote _ Hw eq_refl).
  reflexivity.
Qed.

(** One member whose value is a string, followed by the end of the
    object or by a comma and more members. *)
Lemma member_last (pfuel fuel : nat) (w1 w2 w3 k s rest : string) :
  forallb_chars is_ws w1 = true ->
  forallb_chars is_ws w2 = true ->
  forallb_chars is_ws w3 = true ->
  parse_members (parse_value (S pfuel)) (S fuel)
    (w1 ++ String dquote (escape k ++ String dquote (String ":"
       (w2 ++ String dquote (escape s ++ String dquote (w3 ++ String "}" rest))))))
  = Some ([(k, JStr s)], rest).
Proof.
  intros H1 H2 H3.
  cbn [parse_members].
  rewrite (skip_ws_app w1 dquote _ H1 eq_refl).
  change (Ascii.eqb dquote dquote) with true. cbv iota.
  rewrite (scan_escape (String.length k) k _ _ (le_n _) (length_escape_lt k _)).
  cbn [skip_ws is_ws Ascii.eqb Bool.eqb orb]. 
  rewrite (parse_string_value_ws pfuel w2 s _ H2).
  rewrite (skip_ws_app w3 "}"%char _ H3 eq_refl).
  reflexivity.
Qed.

Lemma member_more (pfuel fuel : nat) (w1 w2 w3 k s more : string) :
  forallb_chars is_ws w1 = true ->
  forallb_chars is_ws w2 = true ->
  forallb_chars is_ws w3 = true ->
  parse_members (parse_value (S pfuel)) (S fuel)
    (w1 ++ String dquote (escape k ++ String dquote (String ":"
       (w2 ++ String dquote (escape s ++ String dquote (w3 ++ String "," more))))))
  = match parse_members (parse_value (S pfuel)) fuel more with
    | Some (kvs, r) => Some ((k, JStr s) :: kvs, r)
    | None => None
    end.
Proof.
  intros H1 H2 H3.
  cbn [parse_members].
  rewrite (skip_ws_app w1 dquote _ H1 eq_refl).
  change (Ascii.eqb dquote dquote) with true. cbv iota.
  rewrite (scan_escape (String.length k) k _ _ (le_n _) (length_escape_lt k _)).
  cbn [skip_ws is_ws Ascii.eqb Bool.eqb orb]. 
  rewrite (parse_string_value_ws pfuel w2 s _ H2).
  rewrite (skip_ws_app w3 ","%char _ H3 eq_refl).
  reflexivity.
Qed.


Lemma parse_value_object (fuel : nat) (w r : string) (c' : ascii) (r' : string) :
  forallb_chars is_ws w = true ->
  skip_ws r = String c' r' ->
  Ascii.eqb c' "}"%char = false ->
  parse_value (S fuel) (w ++ String "{"%char r)
  = match parse_members (parse_value fuel) fuel r with
    | Some (kvs, r'') => Some (JObj kvs, r'')
    | None => None
    end.
Proof.
  intros Hw Hs Hc. cbn [parse_value].
  rewrite (skip_ws_app w "{"%char r Hw eq_refl).
  change (Ascii.eqb "{"%char "{"%char) with true. cbv iota.
  rewrite Hs, Hc. reflexivity.
Qed.

Lemma parse_value_object0 (fuel : nat) (r : string) (c' : ascii) (r' : string) :
  skip_ws r = String c' r' ->
  Ascii.eqb c' "}"%char = false ->
  parse_value (S fuel) (String "{"%char r)
  = match parse_members (parse_value fuel) fuel r with
    | Some (kvs, r'') => Some (JObj kvs, r'')
    | None => None
    end.
Proof. exact (parse_value_object fuel EmptyString r c' r' eq_refl). Qed.

(** The text of an object with one string member, compact or indented,
    reads back as that object. *)
Lemma parse_one_member (w1 w2 w3 k s : string) :
  forallb_chars is_ws w1 = true ->
  forallb_chars is_ws w2 = true ->
  forallb_chars is_ws w3 = true ->
  parse (String "{"%char
           (w1 ++ String dquote (escape k ++ String dquote (String ":"
              (w2 ++ String dquote (escape s ++ String dquote (w3 ++ "}")))))))
  = Some (JObj [(k, JStr s)]).
Proof.
  intros H1 H2 H3. unfold parse.
  cbn [String.length].
  assert (Hne : exists n, String.length
            (w1 ++ String dquote (escape k ++ String dquote (String ":"
              (w2 ++ String dquote (escape s ++ String dquote (w3 ++ "}"))))))
            = S n).
  { induction w1 as [|x w1 IH]; cbn [append String.length]; eexists; reflexivity. }
  destruct Hne as [n Hn]. rewrite Hn.
  rewrite (parse_value_object0 (S (S n)) _ dquote _
             (skip_ws_app w1 dquote _ H1 eq_refl) eq_refl).
  rewrite (member_last (S n) (S n) w1 w2 w3 k s EmptyString H1 H2 H3).
  reflexivity.
Qed.

Lemma parse_two_members (w1 w2 w3 w4 w5 w6 k1 s1 k2 s2 : string) :
  forallb_chars is_ws w1 = true ->
  forallb_chars is_ws w2 = true ->
  forallb_chars is_ws w3 = true ->
  forallb_chars is_ws w4 = true ->
  forallb_chars is_ws w5 = true ->
  forallb_chars is_ws w6 = true ->
  parse (String "{"%char
           (w1 ++ String dquote (escape k1 ++ String dquote (String ":"
              (w2 ++ String dquote (escape s1 ++ String dquote (w3 ++ String ","
                 (w4 ++ String dquote (escape k2 ++ String dquote (String ":"
                    (w5 ++ String dquote (escape s2 ++ String dquote (w6 ++ "}")))))))))))))
  = Some (JObj [(k1, JStr s1); (k2, JStr s2)]).
Proof.
  intros H1 H2 H3 H4 H5 H6. unfold parse.
  cbn [String.length].
  match goal with
  | |- context [parse_value (S (S (String.length ?t)))] =>
      assert (Hne : exists n, String.length t = S (S n))
  end.
  { clear. induction w1 as [|x w1 IH]; cbn [append String.length].
    - destruct (escape k1); cbn [append String.length]; eexists; reflexivity.
    - destruct IH as [n IH]. rewrite IH. eexists; reflexivity. }
  destruct Hne as [n Hn]. rewrite Hn.
  rewrite (parse_value_object0 (S (S (S n))) _ dquote _
             (skip_ws_app w1 dquote _ H1 eq_refl) eq_refl).
  rewrite (member_more (S (S n)) (S (S n)) w1 w2 w3 k1 s1 _ H1 H2 H3).
  rewrite (member_last (S (S n)) (S n) w4 w5 w6 k2 s2 EmptyString H4 H5 H6).
  reflexivity.
Qed.


Ltac right_assoc :=
  repeat (first [rewrite append_assoc | progress cbn [append]]).

Lemma encode_one (k s : string) :
  encode (JObj [(k, JStr s)])
  = String "{"%char (String dquote (escape k ++ String dquote (String ":"
      (String dquote (escape s ++ String dquote "}"))))).
Proof.
  cbn [encode map String.concat]. unfold quote. right_assoc. reflexivity.
Qed.

Lemma encode_two (k1 s1 k2 s2 : string) :
  encode (JObj [(k1, JStr s1); (k2, JStr s2)])
  = String "{"%char (String dquote (escape k1 ++ String dquote (String ":"
      (String dquote (escape s1 ++ String dquote (String ","
         (String dquote (escape k2 ++ String dquote (String ":"
            (String dquote (escape s2 ++ String dquote "}"))))))))))).
Proof.
  cbn [encode map String.concat]. unfold quote. right_assoc. reflexivity.
Qed.

Lemma encode_indent_one (k s : string) :
  encode_indent 0 (JObj [(k, JStr s)])
  = String "{"%char (String "010"%char (String " "%char (String " "%char
      (String dquote (escape k ++ String dquote (String ":" (String " "%char
         (String dquote (escape s ++ String dquote (String "010"%char "}")))))))))).
Proof.
  cbn [encode_indent encode map String.concat newline spaces]. unfold quote.
  right_assoc. reflexivity.
Qed.

Lemma encode_indent_two (k1 s1 k2 s2 : string) :
  encode_indent 0 (JObj [(k1, JStr s1); (k2, JStr s2)])
  = String "{"%char
      (String "010"%char (String " "%char (String " "%char (String dquote (escape k1 ++ String dquote (String ":" (String " "%char (String dquote (escape s1 ++ String dquote (String "," (String "010"%char (String " "%char (String " "%char (String dquote (escape k2 ++ String dquote (String ":" (String " "%char (String dquote (escape s2 ++ String dquote (String "010"%char "}")))))))))))))))))))).
Proof.
  cbn [encode_indent encode map String.concat newline spaces]. unfold quote.
  right_assoc. reflexivity.
Qed.

(** An object of one or two string members reads back from its text. *)
Lemma parse_encode_one (k s : string) :
  parse (encode (JObj [(k, JStr s)])) = Some (JObj [(k, JStr s)]).
Proof.
  rewrite encode_one.
  exact (parse_one_member "" "" "" k s eq_refl eq_refl eq_refl).
Qed.

Lemma parse_encode_indent_one (k s : string) :
  parse (encode_indent 0 (JObj [(k, JStr s)])) = Some (JObj [(k, JStr s)]).
Proof.
  rewrite encode_indent_one.
  exact (parse_one_member (String "010"%char "  ") " " (String "010"%char "")
           k s eq_refl eq_refl eq_refl).
Qed.

Lemma parse_encode_two (k1 s1 k2 s2 : string) :
  parse (encode (JObj [(k1, JStr s1); (k2, JStr s2)]))
  = Some (JObj [(k1, JStr s1); (k2, JStr s2)]).
Proof.
  rewrite encode_two.
  exact (parse_two_members "" "" "" "" "" "" k1 s1 k2 s2
           eq_refl eq_refl eq_refl eq_refl eq_refl eq_refl).
Qed.

Lemma parse_encode_indent_two (k1 s1 k2 s2 : string) :
  parse (encode_indent 0 (JObj [(k1, JStr s1); (k2, JStr s2)]))
  = Some (JObj [(k1, JStr s1); (k2, JStr s2)]).
Proof.
  rewrite encode_indent_two.
  exact (parse_two_members (String "010"%char "  ") " " "" (String "010"%char "  ")
           " " (String "010"%char "") k1 s1 k2 s2
           eq_refl eq_refl eq_refl eq_refl eq_refl eq_refl).
Qed.

Lemma state_only_encode (st : string) :
  state_only st = encode (JObj [("stateToken", JStr st)]).
Proof. reflexivity. Qed.

Lemma state_and_code_encode (st code : string) :
  state_and_code st code
  = encode (JObj [("passCode", JStr code); ("stateToken", JStr st)]).
Proof. reflexivity. Qed.

Lemma content_one (k s : string) :
  Unmarshal_map (encode (JObj [(k, JStr s)])) (Some []) = (Some [(k, JStr s)], None).
Proof. unfold Unmarshal_map. rewrite parse_encode_one. reflexivity. Qed.

Lemma content_indent_one (k s : string) :
  Unmarshal_map (encode_indent 0 (JObj [(k, JStr s)])) (Some [])
  = (Some [(k, JStr s)], None).
Proof. unfold Unmarshal_map. rewrite parse_encode_indent_one. reflexivity. Qed.

Lemma state_only_content (st : string) :
  Unmarshal_map (state_only st) (Some []) = (Some [("stateToken", JStr st)], None).
Proof. rewrite state_only_encode. apply content_one. Qed.

Lemma pretty_state_only (st : string) :
  pretty (state_only st) = encode_indent 0 (JObj [("stateToken", JStr st)]).
Proof. unfold pretty. rewrite state_only_content. reflexivity. Qed.

Lemma state_and_code_content (st code : string) :
  Unmarshal_map (state_and_code st code) (Some [])
  = (Some [("passCode", JStr code); ("stateToken", JStr st)], None).
Proof.
  rewrite state_and_code_encode. unfold Unmarshal_map. rewrite parse_encode_two.
  reflexivity.
Qed.

Lemma pretty_state_and_code (st code : string) :
  pretty (state_and_code st code)
  = encode_indent 0 (JObj [("passCode", JStr code); ("stateToken", JStr st)]).
Proof. unfold pretty. rewrite state_and_code_content. reflexivity. Qed.

(** Whatever the configuration, the body of a push verify request is a
    JSON object whose only member is the state token, and that of a
    one-time-code verify request holds the state token and the code. *)
Lemma push_body_content (d : Dance) (f : factor) (st : string) :
  carries_only_state_token (hooked d (verify_request d f (state_only st))) st.
Proof.
  unfold carries_only_state_token, hooked. destruct (prettyJSON d); cbn [Body verify_request set_Body set_ContentLength].
  - eexists. split; [reflexivity|].
    rewrite pretty_state_only. apply content_indent_one.
  - eexists. split; [reflexivity|]. apply state_only_content.
Qed.

Lemma code_body_content (d : Dance) (f : factor) (st code : string) :
  carries_state_token_and_code
    (hooked d (verify_request d f (state_and_code st code))) st code.
Proof.
  unfold carries_state_token_and_code, hooked. destruct (prettyJSON d); cbn [Body verify_request set_Body set_ContentLength].
  - eexists. split; [reflexivity|].
    rewrite pretty_state_and_code. unfold Unmarshal_map.
    rewrite parse_encode_indent_two. reflexivity.
  - eexists. split; [reflexivity|]. apply state_and_code_content.
Qed.

(** *** Running the monad *)

Lemma bind_ok {A B : Type} {c : M A} (k : A -> M B) {w w' : World} {a : A} :
  c w = Some (Ok a, w') -> bind c k w = k a w'.
Proof. intros H. unfold bind. rewrite H. reflexivity. Qed.

Lemma bind_err {A B : Type} {c : M A} (k : A -> M B) {w w' : World} {e : error} :
  c w = Some (Err e, w') -> bind c k w = Some (Err e, w').
Proof. intros H. unfold bind. rewrite H. reflexivity. Qed.

Lemma bind_panic {A B : Type} {c : M A} (k : A -> M B) {w w' : World} {msg : string} :
  c w = Some (Panic msg, w') -> bind c k w = Some (Panic msg, w').
Proof. intros H. unfold bind. rewrite H. reflexivity. Qed.

Lemma pre_run (d : Dance) (name : string) (req : Request) (w : World) :
  pre d name req w = Some (Ok (hooked d req), pre_world d name req w).
Proof.
  unfold pre, pre_world, hooked.
  destruct (prettyJSON d), (Body req), (logger d); reflexivity.
Qed.

Lemma post_run (d : Dance) (name : string) (res : Response) (w : World) :
  post d name res w = Some (Ok (received d res), post_world d name res w).
Proof.
  unfold post, post_world, received.
  destruct (prettyJSON d), (logger d); cbn [negb andb];
    try destruct (DumpResponse_ok _); reflexivity.
Qed.

Lemma received_body (d : Dance) (res : Response) :
  ResBody (received d res) = body_read d res.
Proof. unfold received, body_read, as_read. destruct (prettyJSON d); reflexivity. Qed.

Lemma received_StatusCode (d : Dance) (res : Response) :
  StatusCode (received d res) = StatusCode res.
Proof. unfold received. destruct (prettyJSON d); reflexivity. Qed.

Lemma received_Cookies (d : Dance) (res : Response) :
  Cookies (received d res) = Cookies res.
Proof. unfold received. destruct (prettyJSON d); reflexivity. Qed.

Lemma Do_answer (req : Request) (res : Response) (rest : list Reply) (w : World) :
  Done (Ctx req) (clock w) = false ->
  script w = Answer res :: rest ->
  Do req w = Some (Ok res, sent req rest w).
Proof. intros Hd Hs. unfold Do. rewrite Hd, Hs. reflexivity. Qed.

Lemma Do_cancelled (req : Request) (w : World) :
  Done (Ctx req) (clock w) = true ->
  Do req w = Some (Err (urlError (urlErrorOp (Method req)) (URL req) context_Canceled),
                   sent req (script w) w).
Proof. intros Hd. unfold Do. rewrite Hd. reflexivity. Qed.

Lemma hooked_Method (d : Dance) (req : Request) : Method (hooked d req) = Method req.
Proof. unfold hooked. destruct (prettyJSON d), (Body req); reflexivity. Qed.

Lemma hooked_Ctx (d : Dance) (req : Request) : Ctx (hooked d req) = Ctx req.
Proof. unfold hooked. destruct (prettyJSON d), (Body req); reflexivity. Qed.

Lemma hooked_URL (d : Dance) (req : Request) : URL (hooked d req) = URL req.
Proof. unfold hooked. destruct (prettyJSON d), (Body req); reflexivity. Qed.

Lemma hooked_WithContext (d : Dance) (req : Request) (ctx : Context) :
  WithContext (hooked d req) ctx = hooked d (WithContext req ctx).
Proof. unfold hooked. destruct (prettyJSON d), (Body req) eqn:E; cbn; rewrite ?E; reflexivity. Qed.

(** One round trip: the hooks and the transport, when the provider answers. *)
Lemma round_trip {A : Type} (d : Dance) (name : string) (req : Request)
  (res : Response) (rest : list Reply) (k : Response -> M A) (w : World) :
  Done (Ctx req) (clock w) = false ->
  script w = Answer res :: rest ->
  (req' <- pre d name req ;; res' <- Do req' ;; res'' <- post d name res' ;; k res'') w
  = k (received d res) (exchanged d name req res rest w).
Proof.
  intros Hd Hs.
  rewrite (bind_ok _ (pre_run d name req w)).
  assert (Hdo : Do (hooked d req) (pre_world d name req w)
                = Some (Ok res, sent (hooked d req) rest (pre_world d name req w))).
  { apply Do_answer.
    - rewrite hooked_Ctx. unfold pre_world. destruct (logger d); exact Hd.
    - unfold pre_world. destruct (logger d); exact Hs. }
  rewrite (bind_ok _ Hdo).
  rewrite (bind_ok _ (post_run d name res _)).
  reflexivity.
Qed.

(** What a round trip leaves in the world. *)
Lemma exchanged_script d name req res rest w :
  script (exchanged d name req res rest w) = rest.
Proof.
  unfold exchanged, post_world, pre_world.
  destruct (logger d); cbn [andb]; try destruct (DumpResponse_ok _); reflexivity.
Qed.

Lemma exchanged_requests d name req res rest w :
  requests (exchanged d name req res rest w) = (requests w ++ [hooked d req])%list.
Proof.
  unfold exchanged, post_world, pre_world.
  destruct (logger d); cbn [andb]; try destruct (DumpResponse_ok _); reflexivity.
Qed.

Lemma exchanged_clock d name req res rest w :
  clock (exchanged d name req res rest w) = clock w.
Proof.
  unfold exchanged, post_world, pre_world.
  destruct (logger d); cbn [andb]; try destruct (DumpResponse_ok _); reflexivity.
Qed.

Lemma exchanged_reads d name req res rest w :
  reads (exchanged d name req res rest w) = reads w.
Proof.
  unfold exchanged, post_world, pre_world.
  destruct (logger d); cbn [andb]; try destruct (DumpResponse_ok _); reflexivity.
Qed.

Lemma exchanged_selects d name req res rest w :
  selects (exchanged d name req res rest w) = selects w.
Proof.
  unfold exchanged, post_world, pre_world.
  destruct (logger d); cbn [andb]; try destruct (DumpResponse_ok _); reflexivity.
Qed.

Ltac world :=
  repeat (progress
    (cbn [script requests clock reads selects slept read selected];
     rewrite ?exchanged_script, ?exchanged_requests, ?exchanged_clock,
       ?exchanged_reads, ?exchanged_selects)).

(** *** One iteration of the push protocol *)

Lemma pushFactor_iteration (fuel : nat) (f : factor) (d : Dance)
  (m : option Multifactor) (st : string) (w : World) (res : Response)
  (rest : list Reply) :
  valid_url (verify_url d f) = true ->
  script w = Answer res :: rest ->
  pushFactor_perform (S fuel) f d m st w =
    let w1 := exchanged d "performMFA" (verify_request d f (state_only st)) res rest w in
    if String.eqb (Status (seen d res)) "SUCCESS"
    then Some (Ok (sessionToken (seen d res)), w1)
    else if negb (String.eqb (Status (seen d res)) "MFA_CHALLENGE")
         then Some (Err (errors_New (body_read d res)), w1)
         else pushFactor_perform fuel f d m (StateToken (seen d res)) (slept 2 w1).
Proof.
  intros Hu Hs.
  cbn [pushFactor_perform].
  unfold http_NewRequest. rewrite Hu. cbn [try].
  rewrite (bind_ok _ (w:=w) (w':=w) eq_refl).
  erewrite round_trip; [ | reflexivity | exact Hs ].
  fold (state_only st).
  change (set_Body _ (Some (state_only st)))
    with (verify_request d f (state_only st)).
  rewrite received_body. unfold seen.
  destruct (Unmarshal oktaUserAuthn (body_read d res) (zero oktaUserAuthn))
    as [auth e].
  cbn [fst].
  destruct (String.eqb (Status auth) "SUCCESS"); [reflexivity|].
  destruct (String.eqb (Status auth) "MFA_CHALLENGE"); reflexivity.
Qed.


(** *** The push protocol *)

(** C1.  Push-factor challenge resolution.  When the provider answers the
    verify endpoint with [MFA_CHALLENGE], [MFA_CHALLENGE] and then
    [SUCCESS] (the status being the one the loop decodes from each
    reply), the push protocol makes exactly three verify calls; each
    request is the verify request whose body is the JSON object holding
    the state token alone, first the token it was started with and then
    the one of the challenge just received; the handler is never called;
    the loop sleeps two seconds after each challenge; and the result is
    the session token of the last reply, with no error.  Any fuel of
    three or more gives this result. *)
Theorem push_challenge_resolution :
  forall (d : Dance) (f : factor) (m : option Multifactor) (st0 : string)
         (w : World) (r1 r2 r3 : Response) (rest : list Reply) (fuel : nat),
    valid_url (verify_url d f) = true ->
    script w = Answer r1 :: Answer r2 :: Answer r3 :: rest ->
    Status (seen d r1) = "MFA_CHALLENGE" ->
    Status (seen d r2) = "MFA_CHALLENGE" ->
    Status (seen d r3) = "SUCCESS" ->
    3 <= fuel ->
    exists w' : World,
      perform fuel (pushFactor f) d m st0 w
        = Some (Ok (sessionToken (seen d r3)), w') /\
      requests w'
        = (requests w ++
           [hooked d (verify_request d f (state_only st0));
            hooked d (verify_request d f (state_only (StateToken (seen d r1))));
            hooked d (verify_request d f (state_only (StateToken (seen d r2))))])%list /\
      script w' = rest /\
      reads w' = reads w /\
      selects w' = selects w /\
      clock w' = clock w + 4 /\
      carries_only_state_token
        (hooked d (verify_request d f (state_only st0))) st0 /\
      carries_only_state_token
        (hooked d (verify_request d f (state_only (StateToken (seen d r1)))))
        (StateToken (seen d r1)) /\
      carries_only_state_token
        (hooked d (verify_request d f (state_only (StateToken (seen d r2)))))
        (StateToken (seen d r2)).
Proof.
  intros d f m st0 w r1 r2 r3 rest fuel Hu Hs H1 H2 H3 Hfuel.
  destruct fuel as [|[|[|fuel]]]; try lia.
  cbn [perform].
  rewrite (pushFactor_iteration _ f d m st0 w r1 _ Hu Hs).
  cbv zeta. rewrite H1. cbn [String.eqb Ascii.eqb Bool.eqb negb].
  erewrite pushFactor_iteration; [ | exact Hu | world; reflexivity ].
  cbv zeta. rewrite H2. cbn [String.eqb Ascii.eqb Bool.eqb negb].
  erewrite pushFactor_iteration; [ | exact Hu | world; reflexivity ].
  cbv zeta. rewrite H3. cbn [String.eqb Ascii.eqb Bool.eqb negb].
  eexists. split; [reflexivity|].
  world. rewrite <- !app_assoc. cbn [app].
  repeat split; try lia; apply push_body_content.
Qed.

(** *** The one-time-code protocol *)

Lemma inputFactor_iteration (fuel : nat) (f : factor) (d : Dance)
  (m : Multifactor) (st code : string) (w : World) (res : Response)
  (rest : list Reply) :
  valid_url (verify_url d f) = true ->
  script w = Answer res :: rest ->
  ReadCode m (inputFactor f) (reads w) = (code, None) ->
  inputFactor_perform (S fuel) f d (Some m) st w =
    let w1 := exchanged d "performMFA" (verify_request d f (state_and_code st code))
                        res rest (read w) in
    if String.eqb (Status (seen d res)) "SUCCESS"
    then Some (Ok (sessionToken (seen d res)), w1)
    else if negb (String.eqb (Status (seen d res)) "MFA_CHALLENGE")
         then Some (Err (errors_New (body_read d res)), w1)
         else inputFactor_perform fuel f d (Some m) (StateToken (seen d res)) (slept 2 w1).
Proof.
  intros Hu Hs Hc.
  cbn [inputFactor_perform].
  unfold http_NewRequest. rewrite Hu. cbn [try].
  rewrite (bind_ok _ (w:=w) (w':=w) eq_refl).
  assert (Hr : call_ReadCode (Some m) (inputFactor f) w = Some (Ok (code, None), read w)).
  { unfold call_ReadCode, bind, count_read, ret. rewrite Hc. reflexivity. }
  rewrite (bind_ok _ Hr).
  erewrite round_trip; [ | reflexivity | exact Hs ].
  fold (state_and_code st code).
  change (set_Body _ (Some (state_and_code st code)))
    with (verify_request d f (state_and_code st code)).
  rewrite received_body. unfold seen.
  destruct (Unmarshal oktaUserAuthn (body_read d res) (zero oktaUserAuthn))
    as [auth e].
  cbn [fst].
  destruct (String.eqb (Status auth) "SUCCESS"); [reflexivity|].
  destruct (String.eqb (Status auth) "MFA_CHALLENGE"); reflexivity.
Qed.

(** C2.  One-time-code challenge resolution.  The handler gives a code
    at its first call and another at its second; the provider answers
    the first with [MFA_CHALLENGE] (the code was wrong) and the second
    with [SUCCESS].  Then the protocol makes exactly two verify calls,
    each carrying the state token of the moment and the code just read,
    calls [ReadCode] exactly twice, sleeps once, and returns the session
    token of the second reply with no error: the wrong code was a retry.
    And once a code was read and the provider answered, one iteration
    ends in an error exactly when the status is neither [SUCCESS] nor
    [MFA_CHALLENGE] (with one unit of fuel, no result means that the loop
    went on). *)
Theorem code_challenge_resolution :
  forall (d : Dance) (f : factor) (m : Multifactor) (st0 c1 c2 : string)
         (w : World) (r1 r2 : Response) (rest : list Reply) (fuel : nat),
    valid_url (verify_url d f) = true ->
    script w = Answer r1 :: Answer r2 :: rest ->
    ReadCode m (inputFactor f) (reads w) = (c1, None) ->
    ReadCode m (inputFactor f) (S (reads w)) = (c2, None) ->
    Status (seen d r1) = "MFA_CHALLENGE" ->
    Status (seen d r2) = "SUCCESS" ->
    2 <= fuel ->
    (exists w' : World,
       perform fuel (inputFactor f) d (Some m) st0 w
         = Some (Ok (sessionToken (seen d r2)), w') /\
       requests w'
         = (requests w ++
            [hooked d (verify_request d f (state_and_code st0 c1));
             hooked d (verify_request d f
                         (state_and_code (StateToken (seen d r1)) c2))])%list /\
       script w' = rest /\
       reads w' = reads w + 2 /\
       clock w' = clock w + 2 /\
       carries_state_token_and_code
         (hooked d (verify_request d f (state_and_code st0 c1))) st0 c1 /\
       carries_state_token_and_code
         (hooked d (verify_request d f (state_and_code (StateToken (seen d r1)) c2)))
         (StateToken (seen d r1)) c2) /\
    (forall (st c : string) (w0 : World) (r : Response) (rest0 : list Reply),
       script w0 = Answer r :: rest0 ->
       ReadCode m (inputFactor f) (reads w0) = (c, None) ->
       ((exists (e : error) (w' : World),
           perform 1 (inputFactor f) d (Some m) st w0 = Some (Err e, w'))
        <-> (Status (seen d r) <> "SUCCESS" /\ Status (seen d r) <> "MFA_CHALLENGE"))).
Proof.
  intros d f m st0 c1 c2 w r1 r2 rest fuel Hu Hs Hc1 Hc2 H1 H2 Hfuel.
  split.
  - destruct fuel as [|[|fuel]]; try lia.
    cbn [perform].
    rewrite (inputFactor_iteration _ f d m st0 c1 w r1 _ Hu Hs Hc1).
    cbv zeta. rewrite H1. cbn [String.eqb Ascii.eqb Bool.eqb negb].
    erewrite inputFactor_iteration;
      [ | exact Hu | world; reflexivity | world; exact Hc2 ].
    cbv zeta. rewrite H2. cbn [String.eqb Ascii.eqb Bool.eqb negb].
    eexists. split; [reflexivity|].
    world. rewrite <- !app_assoc. cbn [app].
    repeat split; try lia; apply code_body_content.
  - intros st c w0 r rest0 Hs0 Hc0.
    cbn [perform].
    rewrite (inputFactor_iteration 0 f d m st c w0 r _ Hu Hs0 Hc0).
    cbv zeta.
    destruct (String.eqb_spec (Status (seen d r)) "SUCCESS") as [Es|Es].
    + split.
      * intros (e & w' & H). discriminate H.
      * intros [Hn _]. contradiction.
    + destruct (String.eqb_spec (Status (seen d r)) "MFA_CHALLENGE") as [Ec|Ec];
        cbn [negb].
      * split.
        -- intros (e & w' & H). cbn in H. discriminate H.
        -- intros [_ Hn]. contradiction.
      * split.
        -- intros _. split; assumption.
        -- intros _. eexists. eexists. reflexivity.
Qed.

Lemma push_challenge_resolution_witness :
  exists w' : World,
    perform 3 (pushFactor push) verbose_dance None "st0"
      (start [Answer (challenge "st1"); Answer (challenge "st2"); Answer (success "tok")])
      = Some (Ok "tok", w') /\
    map Body (requests w')
      = [Some (pretty (state_only "st0")); Some (pretty (state_only "st1"));
         Some (pretty (state_only "st2"))] /\
    script w' = [] /\ reads w' = 0 /\ clock w' = 4.
Proof.
  destruct (push_challenge_resolution verbose_dance push None "st0"
              (start [Answer (challenge "st1"); Answer (challenge "st2");
                      Answer (success "tok")])
              (challenge "st1") (challenge "st2") (success "tok") [] 3)
    as (w' & Hrun & Hreq & Hscript & Hreads & _ & Hclock & _);
    try (vm_compute; reflexivity); try lia.
  exists w'. rewrite Hreq, Hscript, Hreads, Hclock.
  repeat split; try exact Hrun; vm_compute; reflexivity.
Defined.

Lemma code_challenge_resolution_witness :
  (exists w' : World,
     perform 2 (inputFactor totp) dance (Some (human ["000000"; "123456"])) "st0"
       (start [Answer (challenge "st1"); Answer (success "tok")])
       = Some (Ok "tok", w') /\
     map Body (requests w')
       = [Some (state_and_code "st0" "000000"); Some (state_and_code "st1" "123456")] /\
     script w' = [] /\ reads w' = 2 /\ clock w' = 2) /\
  ((exists (e : error) (w' : World),
      perform 1 (inputFactor totp) dance (Some (human ["000000"; "123456"])) "st0"
        (start [Answer (answer 200 "{'status':'LOCKED_OUT'}")]) = Some (Err e, w'))
   <-> (Status (seen dance (answer 200 "{'status':'LOCKED_OUT'}")) <> "SUCCESS" /\
        Status (seen dance (answer 200 "{'status':'LOCKED_OUT'}")) <> "MFA_CHALLENGE")).
Proof.
  destruct (code_challenge_resolution dance totp (human ["000000"; "123456"])
              "st0" "000000" "123456"
              (start [Answer (challenge "st1"); Answer (success "tok")])
              (challenge "st1") (success "tok") [] 2)
    as [(w' & Hrun & Hreq & Hscript & Hreads & Hclock & _) Honly];
    try (vm_compute; reflexivity); try lia.
  split.
  - exists w'. rewrite Hreq, Hscript, Hreads, Hclock.
    repeat split; try exact Hrun; vm_compute; reflexivity.
  - apply (Honly "st0" "000000"
             (start [Answer (answer 200 "{'status':'LOCKED_OUT'}")])
             (answer 200 "{'status':'LOCKED_OUT'}") []);
      vm_compute; reflexivity.
Defined.

(** *** The orchestrator *)

(** The primary exchange: the credentials go out under the caller's
    context, and what follows depends on the decoded answer alone. *)
Lemma Authenticate_exchange (fuel : nat) (d : Dance) (ctx : Context)
  (username password : string) (mfa : option Multifactor) (w : World)
  (res : Response) (rest : list Reply) (ar : goval) (err : option error) :
  valid_url (authn_url d) = true ->
  Done ctx (clock w) = false ->
  script w = Answer res :: rest ->
  Unmarshal oktaUserAuthn (body_read d res) (zero oktaUserAuthn) = (ar, err) ->
  Authenticate fuel d ctx username password mfa w =
    let w1 := exchanged d "Authenticate" (authn_request d ctx username password)
                        res rest w in
    match err with
    | Some err => Some (Err err, w1)
    | None =>
        if String.eqb (Status ar) "MFA_REQUIRED" then
          (factor <-
             (if Nat.eqb (List.length (Factors (Embedded ar))) 1 then
                ret (option_map oktaUserAuthnFactor_factor
                       (hd_error (Factors (Embedded ar))))
              else if Nat.eqb (List.length (Factors (Embedded ar))) 0 then
                fail (errors_New "MFA needed but no factoirs available")
              else
                fe <- call_Select mfa (oktaUserAuthnEmbedded_factors (Embedded ar)) ;;
                match snd fe with
                | Some err => fail (fmt_Errorf_w "error selecting MFA factor: " err)
                | None =>
                    match fst fe with
                    | None => fail (errors_New "no MFA was factor selected")
                    | Some _ => ret (fst fe)
                    end
                end) ;;
           match factor with
           | None => fail (errors_New "MFA required but no factor selected")
           | Some factor => perform fuel factor d mfa (StateToken ar)
           end) w1
        else if negb (String.eqb (Status ar) "SUCCESS") then
          Some (Err (errorString ("Status: " ++ Status ar)), w1)
        else Some (Ok (sessionToken ar), w1)
    end.
Proof.
  intros Hu Hd Hs Hdec.
  unfold Authenticate.
  unfold http_NewRequest. rewrite Hu. cbn [try].
  rewrite (bind_ok _ (w:=w) (w':=w) eq_refl).
  erewrite round_trip; [ | exact Hd | exact Hs ].
  fold (credentials username password).
  change (WithContext _ ctx) with (authn_request d ctx username password).
  rewrite received_body, Hdec.
  cbv zeta.
  destruct err as [err|]; [reflexivity|].
  destruct (String.eqb (Status ar) "MFA_REQUIRED").
  - unfold bind.
    destruct (Nat.eqb (List.length (Factors (Embedded ar))) 1); [reflexivity|].
    destruct (Nat.eqb (List.length (Factors (Embedded ar))) 0); [reflexivity|].
    destruct (call_Select mfa _ _) as [[[[fa er]|e|msg] w2]|]; try reflexivity.
    cbn [fst snd].
    destruct er; [reflexivity|]. destruct fa; reflexivity.
  - destruct (String.eqb (Status ar) "SUCCESS"); reflexivity.
Qed.




(** *** Choosing among several factors *)

(** X5.  With two factors or more and a handler, [Authenticate] asks
    the handler once; an error of the handler comes back wrapped, and no
    verify call is made. *)
Lemma select_error_is_wrapped :
  forall (fuel : nat) (d : Dance) (ctx : Context) (username password : string)
         (m : Multifactor) (w : World) (res : Response) (rest : list Reply)
         (ar : goval) (chosen : option Factor) (err : error),
    valid_url (authn_url d) = true ->
    Done ctx (clock w) = false ->
    script w = Answer res :: rest ->
    Unmarshal oktaUserAuthn (body_read d res) (zero oktaUserAuthn) = (ar, None) ->
    Status ar = "MFA_REQUIRED" ->
    2 <= List.length (Factors (Embedded ar)) ->
    Select m (oktaUserAuthnEmbedded_factors (Embedded ar)) = (chosen, Some err) ->
    exists w' : World,
      Authenticate fuel d ctx username password (Some m) w
        = Some (Err (fmt_Errorf_w "error selecting MFA factor: " err), w') /\
      Unwrap (fmt_Errorf_w "error selecting MFA factor: " err) = Some err /\
      requests w'
        = (requests w ++ [hooked d (authn_request d ctx username password)])%list /\
      selects w' = S (selects w).
Proof.
  intros fuel d ctx username password m w res rest ar chosen err
         Hu Hd Hs Hdec Hst Hlen Hsel.
  rewrite (Authenticate_exchange fuel d ctx username password (Some m) w res rest ar None
             Hu Hd Hs Hdec).
  cbv zeta. rewrite Hst. cbn [String.eqb Ascii.eqb Bool.eqb].
  destruct (List.length (Factors (Embedded ar))) as [|[|n]] eqn:El; try lia.
  cbn [Nat.eqb].
  unfold call_Select, bind, count_select, ret, fail. rewrite Hsel. cbn [fst snd].
  eexists. split; [reflexivity|].
  world. repeat split.
Qed.

(** A handler that returns neither a factor nor an error. *)
Lemma nothing_selected :
  forall (fuel : nat) (d : Dance) (ctx : Context) (username password : string)
         (m : Multifactor) (w : World) (res : Response) (rest : list Reply)
         (ar : goval),
    valid_url (authn_url d) = true ->
    Done ctx (clock w) = false ->
    script w = Answer res :: rest ->
    Unmarshal oktaUserAuthn (body_read d res) (zero oktaUserAuthn) = (ar, None) ->
    Status ar = "MFA_REQUIRED" ->
    2 <= List.length (Factors (Embedded ar)) ->
    Select m (oktaUserAuthnEmbedded_factors (Embedded ar)) = (None, None) ->
    exists w' : World,
      Authenticate fuel d ctx username password (Some m) w
        = Some (Err (errors_New "no MFA was factor selected"), w') /\
      requests w'
        = (requests w ++ [hooked d (authn_request d ctx username password)])%list.
Proof.
  intros fuel d ctx username password m w res rest ar Hu Hd Hs Hdec Hst Hlen Hsel.
  rewrite (Authenticate_exchange fuel d ctx username password (Some m) w res rest ar None
             Hu Hd Hs Hdec).
  cbv zeta. rewrite Hst. cbn [String.eqb Ascii.eqb Bool.eqb].
  destruct (List.length (Factors (Embedded ar))) as [|[|n]] eqn:El; try lia.
  cbn [Nat.eqb].
  unfold call_Select, bind, count_select, ret, fail. rewrite Hsel. cbn [fst snd].
  eexists. split; [reflexivity|]. world. reflexivity.
Qed.

(** Without a handler the selection is a call on the nil interface. *)
Lemma missing_handler_always_panics :
  forall (fuel : nat) (d : Dance) (ctx : Context) (username password : string)
         (w : World) (res : Response) (rest : list Reply) (ar : goval),
    valid_url (authn_url d) = true ->
    Done ctx (clock w) = false ->
    script w = Answer res :: rest ->
    Unmarshal oktaUserAuthn (body_read d res) (zero oktaUserAuthn) = (ar, None) ->
    Status ar = "MFA_REQUIRED" ->
    2 <= List.length (Factors (Embedded ar)) ->
    exists w' : World,
      Authenticate fuel d ctx username password None w
        = Some (Panic nil_dereference, w').
Proof.
  intros fuel d ctx username password w res rest ar Hu Hd Hs Hdec Hst Hlen.
  rewrite (Authenticate_exchange fuel d ctx username password None w res rest ar None
             Hu Hd Hs Hdec).
  cbv zeta. rewrite Hst. cbn [String.eqb Ascii.eqb Bool.eqb].
  destruct (List.length (Factors (Embedded ar))) as [|[|n]] eqn:El; try lia.
  cbn [Nat.eqb].
  eexists. reflexivity.
Qed.

(** C5, on the code.  The primary answer has status [MFA_REQUIRED] and
    offers a push factor and a one-time-code factor; no handler was
    supplied.  [Authenticate] does not return an error: it panics on the
    nil handler, after the primary request and before any verify call.
    With a handler whose selection fails the error comes back wrapped,
    and with one that selects nothing the error says so; in both cases
    the primary request is the only one. *)
Theorem missing_handler_panics :
  (exists w' : World,
     Authenticate 1 dance Background "user" "pass" None
       (start [Answer (mfa_required (push_json ++ "," ++ totp_json))])
       = Some (Panic nil_dereference, w') /\
     map URL (requests w') = ["https://example.okta.com/api/v1/authn"]) /\
  ~ (exists (e : error) (w' : World),
       Authenticate 1 dance Background "user" "pass" None
         (start [Answer (mfa_required (push_json ++ "," ++ totp_json))])
       = Some (Err e, w')) /\
  (exists w' : World,
     Authenticate 1 dance Background "user" "pass" (Some broken_console)
       (start [Answer (mfa_required (push_json ++ "," ++ totp_json))])
       = Some (Err (wrapError "error selecting MFA factor: EOF" io_EOF), w') /\
     map URL (requests w') = ["https://example.okta.com/api/v1/authn"]) /\
  (exists w' : World,
     Authenticate 1 dance Background "user" "pass" (Some undecided)
       (start [Answer (mfa_required (push_json ++ "," ++ totp_json))])
       = Some (Err (errorString "no MFA was factor selected"), w') /\
     map URL (requests w') = ["https://example.okta.com/api/v1/authn"]).
Proof.
  split; [|split; [|split]].
  - eexists. split; vm_compute; reflexivity.
  - intros (e & w' & H). vm_compute in H. discriminate H.
  - eexists. split; vm_compute; reflexivity.
  - eexists. split; vm_compute; reflexivity.
Qed.

(** *** The polling loops as a whole *)

Lemma pre_world_script d name req w : script (pre_world d name req w) = script w.
Proof. unfold pre_world. destruct (logger d); reflexivity. Qed.

Lemma pre_world_clock d name req w : clock (pre_world d name req w) = clock w.
Proof. unfold pre_world. destruct (logger d); reflexivity. Qed.

Lemma pre_world_requests d name req w : requests (pre_world d name req w) = requests w.
Proof. unfold pre_world. destruct (logger d); reflexivity. Qed.

Lemma pre_world_selects d name req w : selects (pre_world d name req w) = selects w.
Proof. unfold pre_world. destruct (logger d); reflexivity. Qed.

Lemma pre_world_reads d name req w : reads (pre_world d name req w) = reads w.
Proof. unfold pre_world. destruct (logger d); reflexivity. Qed.

Ltac frame :=
  world; cbn [selects reads clock script sent];
  rewrite ?pre_world_selects, ?pre_world_reads, ?pre_world_clock, ?pre_world_script;
  cbn [selects reads clock script read]; try reflexivity.

(** A request under the background context, when the provider does not
    answer: the transport's error is the result. *)
Lemma round_trip_no_answer {A : Type} (d : Dance) (name : string) (req : Request)
  (k : Response -> M A) (w : World) :
  Ctx req = Background ->
  (forall res rest, script w <> Answer res :: rest) ->
  exists (e : error) (rest : list Reply),
    (req' <- pre d name req ;; res' <- Do req' ;; res'' <- post d name res' ;; k res'') w
    = Some (Err e, sent (hooked d req) rest (pre_world d name req w)).
Proof.
  intros Hc Hs.
  rewrite (bind_ok _ (pre_run d name req w)).
  unfold bind at 1, Do. rewrite hooked_Ctx, Hc. cbn [Done].
  rewrite pre_world_script.
  destruct (script w) as [|[res|err] rest] eqn:E.
  - eexists. eexists. reflexivity.
  - exfalso. apply (Hs res rest). reflexivity.
  - eexists. eexists. reflexivity.
Qed.

(** Every iteration takes a reply off the script, so a loop with more
    fuel than the script has replies comes to a result; and every request
    it hands to the transport is under the background context. *)
Lemma pushFactor_perform_total :
  forall (fuel : nat) (f : factor) (d : Dance) (m : option Multifactor)
         (st : string) (w : World),
    List.length (script w) < fuel ->
    exists (r : Result SessionToken) (w' : World) (new : list Request),
      pushFactor_perform fuel f d m st w = Some (r, w') /\
      requests w' = (requests w ++ new)%list /\
      Forall (fun q => Ctx q = Background) new /\
      selects w' = selects w.
Proof.
  induction fuel as [|fuel IH]; intros f d m st w Hlen; [lia|].
  destruct (valid_url (verify_url d f)) eqn:Hu.
  - destruct (script w) as [|[res|err] rest] eqn:Hs.
    + cbn [pushFactor_perform]. unfold http_NewRequest. rewrite Hu. cbn [try].
      rewrite (bind_ok _ (w:=w) (w':=w) eq_refl).
      destruct (round_trip_no_answer d "performMFA"
                  (verify_request d f (state_only st))
                  (fun res => let (auth, _) := Unmarshal oktaUserAuthn (ResBody res)
                                                 (zero oktaUserAuthn) in
                     if String.eqb (Status auth) "SUCCESS" then ret (sessionToken auth)
                     else if negb (String.eqb (Status auth) "MFA_CHALLENGE")
                          then fail (errors_New (ResBody res))
                          else Sleep 2 ;;; pushFactor_perform fuel f d m (StateToken auth))
                  w eq_refl) as (e & rest & Hrun).
      { intros res rest. rewrite Hs. discriminate. }
      exists (Err e), (sent (hooked d (verify_request d f (state_only st))) rest
                         (pre_world d "performMFA" (verify_request d f (state_only st)) w)),
             [hooked d (verify_request d f (state_only st))].
      split; [exact Hrun|]. split.
      * cbn [requests sent]. rewrite pre_world_requests. reflexivity.
      * split; [constructor; [rewrite hooked_Ctx; reflexivity | constructor] | frame].
    + rewrite (pushFactor_iteration fuel f d m st w res rest Hu Hs). cbv zeta.
      destruct (String.eqb (Status (seen d res)) "SUCCESS").
      * eexists. eexists. exists [hooked d (verify_request d f (state_only st))].
        split; [reflexivity|]. split; [world; reflexivity|].
        split; [constructor; [rewrite hooked_Ctx; reflexivity | constructor] | frame].
      * destruct (String.eqb (Status (seen d res)) "MFA_CHALLENGE"); cbn [negb].
        -- destruct (IH f d m (StateToken (seen d res))
                       (slept 2 (exchanged d "performMFA"
                                   (verify_request d f (state_only st)) res rest w)))
             as (r & w' & new & Hrun & Hreq & Hall & Hsel).
           { world. cbn [List.length] in Hlen. lia. }
           exists r, w', (hooked d (verify_request d f (state_only st)) :: new).
           split; [exact Hrun|]. split.
           ++ rewrite Hreq. world. rewrite <- app_assoc. reflexivity.
           ++ split; [constructor; [rewrite hooked_Ctx; reflexivity | exact Hall] | rewrite Hsel; frame].
        -- eexists. eexists. exists [hooked d (verify_request d f (state_only st))].
           split; [reflexivity|]. split; [world; reflexivity|].
           split; [constructor; [rewrite hooked_Ctx; reflexivity | constructor] | frame].
    + cbn [pushFactor_perform]. unfold http_NewRequest. rewrite Hu. cbn [try].
      rewrite (bind_ok _ (w:=w) (w':=w) eq_refl).
      destruct (round_trip_no_answer d "performMFA"
                  (verify_request d f (state_only st))
                  (fun res => let (auth, _) := Unmarshal oktaUserAuthn (ResBody res)
                                                 (zero oktaUserAuthn) in
                     if String.eqb (Status auth) "SUCCESS" then ret (sessionToken auth)
                     else if negb (String.eqb (Status auth) "MFA_CHALLENGE")
                          then fail (errors_New (ResBody res))
                          else Sleep 2 ;;; pushFactor_perform fuel f d m (StateToken auth))
                  w eq_refl) as (e & rest' & Hrun).
      { intros res rest'. rewrite Hs. discriminate. }
      exists (Err e), (sent (hooked d (verify_request d f (state_only st))) rest'
                         (pre_world d "performMFA" (verify_request d f (state_only st)) w)),
             [hooked d (verify_request d f (state_only st))].
      split; [exact Hrun|]. split.
      * cbn [requests sent]. rewrite pre_world_requests. reflexivity.
      * split; [constructor; [rewrite hooked_Ctx; reflexivity | constructor] | frame].
  - cbn [pushFactor_perform]. unfold http_NewRequest. rewrite Hu. cbn [try].
    exists (Err (parse_error (verify_url d f))), w, [].
    split; [reflexivity|]. split; [rewrite app_nil_r; reflexivity | split; [constructor | frame]].
Qed.

Lemma inputFactor_perform_total :
  forall (fuel : nat) (f : factor) (d : Dance) (m : option Multifactor)
         (st : string) (w : World),
    List.length (script w) < fuel ->
    exists (r : Result SessionToken) (w' : World) (new : list Request),
      inputFactor_perform fuel f d m st w = Some (r, w') /\
      requests w' = (requests w ++ new)%list /\
      Forall (fun q => Ctx q = Background) new /\
      selects w' = selects w.
Proof.
  induction fuel as [|fuel IH]; intros f d m st w Hlen; [lia|].
  destruct (valid_url (verify_url d f)) eqn:Hu.
  2:{ cbn [inputFactor_perform]. unfold http_NewRequest. rewrite Hu. cbn [try].
      exists (Err (parse_error (verify_url d f))), w, [].
      split; [reflexivity|]. split; [rewrite app_nil_r; reflexivity | split; [constructor | frame]]. }
  destruct m as [m|].
  2:{ cbn [inputFactor_perform]. unfold http_NewRequest. rewrite Hu. cbn [try].
      rewrite (bind_ok _ (w:=w) (w':=w) eq_refl).
      exists (Panic nil_dereference), w, [].
      split; [reflexivity|]. split; [rewrite app_nil_r; reflexivity | split; [constructor | frame]]. }
  destruct (ReadCode m (inputFactor f) (reads w)) as [code [err|]] eqn:Hc.
  { cbn [inputFactor_perform]. unfold http_NewRequest. rewrite Hu. cbn [try].
    rewrite (bind_ok _ (w:=w) (w':=w) eq_refl).
    assert (Hr : call_ReadCode (Some m) (inputFactor f) w
                 = Some (Ok (code, Some err), read w)).
    { unfold call_ReadCode, bind, count_read, ret. rewrite Hc. reflexivity. }
    rewrite (bind_ok _ Hr).
    eexists. exists (read w), [].
    split; [reflexivity|]. split; [rewrite app_nil_r; reflexivity | split; [constructor | frame]]. }
  destruct (script w) as [|[res|err] rest] eqn:Hs.
  2:{ rewrite (inputFactor_iteration fuel f d m st code w res rest Hu Hs Hc). cbv zeta.
      destruct (String.eqb (Status (seen d res)) "SUCCESS").
      - eexists. eexists. exists [hooked d (verify_request d f (state_and_code st code))].
        split; [reflexivity|]. split; [world; reflexivity|].
        split; [constructor; [rewrite hooked_Ctx; reflexivity | constructor] | frame].
      - destruct (String.eqb (Status (seen d res)) "MFA_CHALLENGE"); cbn [negb].
        + destruct (IH f d (Some m) (StateToken (seen d res))
                      (slept 2 (exchanged d "performMFA"
                                  (verify_request d f (state_and_code st code))
                                  res rest (read w))))
            as (r & w' & new & Hrun & Hreq & Hall & Hsel).
          { world. cbn [List.length] in Hlen. lia. }
          exists r, w', (hooked d (verify_request d f (state_and_code st code)) :: new).
          split; [exact Hrun|]. split.
          * rewrite Hreq. world. rewrite <- app_assoc. reflexivity.
          * split; [constructor; [rewrite hooked_Ctx; reflexivity | exact Hall] | rewrite Hsel; frame].
        + eexists. eexists. exists [hooked d (verify_request d f (state_and_code st code))].
          split; [reflexivity|]. split; [world; reflexivity|].
          split; [constructor; [rewrite hooked_Ctx; reflexivity | constructor] | frame]. }
  all: cbn [inputFactor_perform]; unfold http_NewRequest; rewrite Hu; cbn [try];
    rewrite (bind_ok _ (w:=w) (w':=w) eq_refl);
    assert (Hr : call_ReadCode (Some m) (inputFactor f) w
                 = Some (Ok (code, None), read w))
      by (unfold call_ReadCode, bind, count_read, ret; rewrite Hc; reflexivity);
    rewrite (bind_ok _ Hr);
    (destruct (round_trip_no_answer d "performMFA"
                    (verify_request d f (state_and_code st code))
                    (fun res => let (auth, _) := Unmarshal oktaUserAuthn (ResBody res)
                                                   (zero oktaUserAuthn) in
                       if String.eqb (Status auth) "SUCCESS" then ret (sessionToken auth)
                       else if negb (String.eqb (Status auth) "MFA_CHALLENGE")
                            then fail (errors_New (ResBody res))
                            else Sleep 2 ;;; inputFactor_perform fuel f d (Some m)
                                               (StateToken auth))
                    (read w) eq_refl) as (e & rest' & Hrun);
          [ intros res0 rest0; cbn [script read]; rewrite Hs; discriminate | ]);
    exists (Err e),
      (sent (hooked d (verify_request d f (state_and_code st code))) rest'
            (pre_world d "performMFA" (verify_request d f (state_and_code st code))
                       (read w))),
      [hooked d (verify_request d f (state_and_code st code))];
    (split; [exact Hrun|]); split;
      [ cbn [requests sent]; rewrite pre_world_requests; reflexivity
      | split; [constructor; [rewrite hooked_Ctx; reflexivity | constructor] | frame] ].
Qed.

(** Both protocols, through the interface. *)
Lemma perform_total :
  forall (fuel : nat) (f : Factor) (d : Dance) (m : option Multifactor)
         (st : string) (w : World),
    List.length (script w) < fuel ->
    exists (r : Result SessionToken) (w' : World) (new : list Request),
      perform fuel f d m st w = Some (r, w') /\
      requests w' = (requests w ++ new)%list /\
      Forall (fun q => Ctx q = Background) new /\
      selects w' = selects w.
Proof.
  intros fuel [f|f] d m st w Hlen; cbn [perform].
  - apply pushFactor_perform_total. exact Hlen.
  - apply inputFactor_perform_total. exact Hlen.
Qed.

(** *** Cancellation *)

(** X29.  The transport refuses a request whose context is done: a
    caller who has cancelled before the primary request gets the
    cancellation back as the error, and no reply is taken off the
    provider's script. *)
Lemma cancelled_before_the_start :
  forall (fuel : nat) (d : Dance) (t : nat) (username password : string)
         (mfa : option Multifactor) (w : World),
    valid_url (authn_url d) = true ->
    t <= clock w ->
    exists w' : World,
      Authenticate fuel d (WithCancelAt t) username password mfa w
        = Some (Err (urlError "Post" (authn_url d) context_Canceled), w') /\
      script w' = script w.
Proof.
  intros fuel d t username password mfa w Hu Ht.
  unfold Authenticate. unfold http_NewRequest. rewrite Hu. cbn [try].
  rewrite (bind_ok _ (w:=w) (w':=w) eq_refl).
  rewrite (bind_ok _ (pre_run d "Authenticate" _ w)).
  cbv beta.
  match goal with
  | |- context [bind (Do ?r) _ ?w0] =>
      assert (Hdo : Do r w0
                    = Some (Err (urlError "Post" (authn_url d) context_Canceled),
                            sent r (script w0) w0))
  end.
  { rewrite Do_cancelled.
    - rewrite hooked_Method, hooked_URL. reflexivity.
    - rewrite hooked_Ctx. cbn [Ctx WithContext Done].
      replace (clock (pre_world d "Authenticate" _ w)) with (clock w)
        by (unfold pre_world; destruct (logger d); reflexivity).
      apply Nat.leb_le. exact Ht. }
  rewrite (bind_err _ Hdo).
  eexists. split; [reflexivity|].
  cbn [script sent]. unfold pre_world. destruct (logger d); reflexivity.
Qed.

(** C3, on the code.  The caller cancels one second into the run, while
    the polling loop is in its first wait.  The primary request went out
    under the caller's context; the verify requests go out under the
    background context, the wait lasts its two seconds, the second
    verify call is made after the cancellation, and the run ends with
    the session token instead of a cancellation error.  This holds for
    the push protocol and for the one-time-code protocol alike. *)
Theorem polling_ignores_cancellation :
  (exists w' : World,
     Authenticate 2 dance (WithCancelAt 1) "user" "pass" None
       (start [Answer (mfa_required push_json); Answer (challenge "st1");
               Answer (success "tok")])
       = Some (Ok "tok", w') /\
     map Ctx (requests w') = [WithCancelAt 1; Background; Background] /\
     clock w' = 2) /\
  (exists w' : World,
     Authenticate 2 dance (WithCancelAt 1) "user" "pass"
       (Some (human ["000000"; "123456"]))
       (start [Answer (mfa_required totp_json); Answer (challenge "st1");
               Answer (success "tok")])
       = Some (Ok "tok", w') /\
     map Ctx (requests w') = [WithCancelAt 1; Background; Background] /\
     clock w' = 2).
Proof.
  split; eexists; (split; [|split]); vm_compute; reflexivity.
Qed.

(** *** Decoding failures *)

(** [Authenticate] and [Session] check the error of the decoder and
    return it. *)
Lemma Authenticate_returns_decode_failure :
  forall (fuel : nat) (d : Dance) (ctx : Context) (username password : string)
         (mfa : option Multifactor) (w : World) (res : Response)
         (rest : list Reply) (ar : goval) (err : error),
    valid_url (authn_url d) = true ->
    Done ctx (clock w) = false ->
    script w = Answer res :: rest ->
    Unmarshal oktaUserAuthn (body_read d res) (zero oktaUserAuthn) = (ar, Some err) ->
    exists w' : World,
      Authenticate fuel d ctx username password mfa w = Some (Err err, w').
Proof.
  intros fuel d ctx username password mfa w res rest ar err Hu Hd Hs Hdec.
  rewrite (Authenticate_exchange fuel d ctx username password mfa w res rest ar (Some err)
             Hu Hd Hs Hdec).
  eexists. reflexivity.
Qed.

(** C4, on the code.  A verify reply whose body has a number where the
    struct has a string ([expiresAt]) makes the decoder return an
    [UnmarshalTypeError] with the rest of the struct filled in.  Both
    polling loops drop that error and return the session token as a
    success, while [Authenticate] returns the error for the same body.
    A verify reply that is not JSON at all makes the decoder return a
    syntax error; the loops return an error made of the raw body, not
    the decoder's. *)
Theorem verify_decode_failure_is_dropped :
  snd (Unmarshal oktaUserAuthn
         (q "{'status':'SUCCESS','sessionToken':'tok','expiresAt':5}")
         (zero oktaUserAuthn))
    = Some (UnmarshalTypeError "number") /\
  (exists w' : World,
     pushFactor_perform 1 push dance None "st0"
       (start [Answer (answer 200 "{'status':'SUCCESS','sessionToken':'tok','expiresAt':5}")])
     = Some (Ok "tok", w')) /\
  (exists w' : World,
     inputFactor_perform 1 totp dance (Some (human ["123456"])) "st0"
       (start [Answer (answer 200 "{'status':'SUCCESS','sessionToken':'tok','expiresAt':5}")])
     = Some (Ok "tok", w')) /\
  (exists w' : World,
     Authenticate 1 dance Background "user" "pass" None
       (start [Answer (answer 200 "{'status':'SUCCESS','sessionToken':'tok','expiresAt':5}")])
     = Some (Err (UnmarshalTypeError "number"), w')) /\
  snd (Unmarshal oktaUserAuthn "<html>502 Bad Gateway</html>" (zero oktaUserAuthn))
    = Some syntax_error /\
  (exists w' : World,
     pushFactor_perform 1 push dance None "st0"
       (start [Answer (answer 502 "<html>502 Bad Gateway</html>")])
     = Some (Err (errorString "<html>502 Bad Gateway</html>"), w')).
Proof.
  repeat split; try (eexists; vm_compute; reflexivity); vm_compute; reflexivity.
Qed.

(** *** The hooks *)

(** Without pretty printing the hooks hand on what they were given,
    and the log is all they touch in the world. *)
Lemma hooks_only_observe_without_pretty :
  forall (d : Dance) (name : string) (req : Request) (res : Response) (w : World),
    prettyJSON d = false ->
    (exists w' : World,
       pre d name req w = Some (Ok req, w') /\
       script w' = script w /\ requests w' = requests w /\ clock w' = clock w) /\
    (exists w' : World,
       post d name res w = Some (Ok res, w') /\
       script w' = script w /\ requests w' = requests w /\ clock w' = clock w).
Proof.
  intros d name req res w Hp.
  rewrite pre_run, post_run. unfold hooked, received, pre_world, post_world.
  rewrite Hp.
  split; eexists; (split; [reflexivity|]); destruct (logger d); cbn [andb];
    try destruct (DumpResponse_ok _); repeat split.
Qed.

Lemma credentials_encode (username password : string) :
  credentials username password
  = encode (JObj [("password", JStr password); ("username", JStr username)]).
Proof. reflexivity. Qed.

(** X30.  With pretty printing on, [pre] rewrites the body of a
    request; for the three bodies the package builds, what the rewritten
    text holds is what the original held. *)
Lemma request_bodies_keep_their_content :
  forall (username password stateToken code : string),
    Unmarshal_map (pretty (credentials username password)) (Some [])
      = Unmarshal_map (credentials username password) (Some []) /\
    Unmarshal_map (pretty (state_only stateToken)) (Some [])
      = Unmarshal_map (state_only stateToken) (Some []) /\
    Unmarshal_map (pretty (state_and_code stateToken code)) (Some [])
      = Unmarshal_map (state_and_code stateToken code) (Some []).
Proof.
  intros username password stateToken code.
  assert (Hc : Unmarshal_map (credentials username password) (Some [])
               = (Some [("password", JStr password); ("username", JStr username)],
                  None)).
  { rewrite credentials_encode. unfold Unmarshal_map. rewrite parse_encode_two.
    reflexivity. }
  split; [|split].
  - unfold pretty. rewrite Hc.
    change (MarshalIndent (Some [("password", JStr password);
                                 ("username", JStr username)]))
      with (encode_indent 0 (JObj [("password", JStr password);
                                   ("username", JStr username)])).
    unfold Unmarshal_map at 1. rewrite parse_encode_indent_two. reflexivity.
  - rewrite pretty_state_only, state_only_content. apply content_indent_one.
  - rewrite pretty_state_and_code, state_and_code_content.
    unfold Unmarshal_map. rewrite parse_encode_indent_two. reflexivity.
Qed.

(** C8, on the code.  With pretty printing on, [post] decodes the body
    into a map and ignores the decoder's error, so a body that is not a
    JSON object is replaced by the text of the empty map: the JSON array
    [[1,2]] and the plain text [Unauthorized] both become [{}], which is
    not the content that was received, and the operation that called the
    hook goes on with [{}]. *)
Theorem pretty_hook_replaces_body :
  (exists w' : World,
     post verbose_dance "Authorize"
       {| StatusCode := 200; ResHeader := []; ResBody := "[1,2]" |} (start [])
     = Some (Ok {| StatusCode := 200; ResHeader := []; ResBody := "{}" |}, w')) /\
  parse "[1,2]" = Some (JArr [JNum "1"; JNum "2"]) /\
  parse "{}" = Some (JObj []) /\
  (exists w' : World,
     post verbose_dance "Authorize"
       {| StatusCode := 401; ResHeader := []; ResBody := "Unauthorized" |} (start [])
     = Some (Ok {| StatusCode := 401; ResHeader := []; ResBody := "{}" |}, w')) /\
  (exists w' : World,
     Authorize verbose_dance Background "tok"
       (start [Answer {| StatusCode := 401; ResHeader := [];
                         ResBody := "Unauthorized" |}])
     = Some (Err (errorString "{}"), w')).
Proof.
  repeat split; try (eexists; vm_compute; reflexivity); vm_compute; reflexivity.
Qed.

(** *** The exchanger and the session client *)

Lemma round_trip_under {A : Type} (d : Dance) (name : string) (req : Request)
  (ctx : Context) (res : Response) (rest : list Reply) (k : Response -> M A)
  (w : World) :
  Done ctx (clock w) = false ->
  script w = Answer res :: rest ->
  (req' <- pre d name req ;; res' <- Do (WithContext req' ctx) ;;
   res'' <- post d name res' ;; k res'') w
  = k (received d res) (exchanged_under d name req ctx res rest w).
Proof.
  intros Hd Hs.
  rewrite (bind_ok _ (pre_run d name req w)).
  assert (Hdo : Do (WithContext (hooked d req) ctx) (pre_world d name req w)
                = Some (Ok res, sent (WithContext (hooked d req) ctx) rest
                                     (pre_world d name req w))).
  { apply Do_answer.
    - cbn [Ctx WithContext]. unfold pre_world. destruct (logger d); exact Hd.
    - unfold pre_world. destruct (logger d); exact Hs. }
  rewrite (bind_ok _ Hdo).
  rewrite (bind_ok _ (post_run d name res _)).
  reflexivity.
Qed.

Lemma exchanged_under_requests d name req ctx res rest w :
  requests (exchanged_under d name req ctx res rest w)
  = (requests w ++ [WithContext (hooked d req) ctx])%list.
Proof.
  unfold exchanged_under, post_world, pre_world.
  destruct (logger d); cbn [andb]; try destruct (DumpResponse_ok _); reflexivity.
Qed.

Lemma exchanged_under_script d name req ctx res rest w :
  script (exchanged_under d name req ctx res rest w) = rest.
Proof.
  unfold exchanged_under, post_world, pre_world.
  destruct (logger d); cbn [andb]; try destruct (DumpResponse_ok _); reflexivity.
Qed.

Lemma last_default (l : list string) (a d d' : string) :
  last (a :: l) d = last (a :: l) d'.
Proof.
  revert a. induction l as [|b l IH]; intros a; [reflexivity|].
  change (last (b :: l) d = last (b :: l) d'). apply IH.
Qed.

(** The loop over the cookies keeps the last value it met. *)
Lemma fold_sid (cookies : list Cookie) (acc : string) :
  fold_left (fun sid c => if String.eqb (Name c) "sid" then Value c else sid) cookies acc
  = last (sid_values cookies) acc.
Proof.
  revert acc. induction cookies as [|c cookies IH]; intros acc; [reflexivity|].
  cbn [fold_left]. rewrite IH. unfold sid_values. cbn [filter].
  destruct (String.eqb (Name c) "sid"); [|reflexivity].
  cbn [map]. fold (sid_values cookies).
  destruct (sid_values cookies) as [|v vs]; [reflexivity|].
  change (last (Value c :: v :: vs) acc) with (last (v :: vs) acc).
  apply last_default.
Qed.

Lemma last_sid_spec (cookies : list Cookie) :
  last_sid cookies = last (sid_values cookies) "".
Proof. apply fold_sid. Qed.

Lemma Authorize_exchange (d : Dance) (ctx : Context) (token : SessionToken)
  (w : World) (res : Response) (rest : list Reply) :
  valid_url (authorize_url d) = true ->
  valid_url (authorize_url d ++ "?" ++ Encode (authorize_query d token)) = true ->
  Done ctx (clock w) = false ->
  script w = Answer res :: rest ->
  Authorize d ctx token w =
    let w1 := exchanged_under d "Authorize" (authorize_request d Background token)
                              ctx res rest w in
    if (400 <=? StatusCode res)%nat
    then Some (Err (errors_New (body_read d res)), w1)
    else Some (Ok (last (sid_values (Cookies res)) ""), w1).
Proof.
  intros Hu Hq Hd Hs.
  unfold Authorize, url_Parse. rewrite Hu. cbn [try].
  rewrite (bind_ok _ (w:=w) (w':=w) eq_refl).
  unfold http_NewRequest. rewrite Hq. cbn [try].
  rewrite (bind_ok _ (w:=w) (w':=w) eq_refl).
  erewrite round_trip_under; [ | exact Hd | exact Hs ].
  rewrite received_StatusCode, received_body, received_Cookies, last_sid_spec.
  cbv zeta.
  destruct (400 <=? StatusCode res)%nat; reflexivity.
Qed.

Lemma Session_exchange (d : Dance) (ctx : Context) (sessionID : SessionID)
  (w : World) (res : Response) (rest : list Reply) :
  valid_url (sessions_url d) = true ->
  Done ctx (clock w) = false ->
  script w = Answer res :: rest ->
  Session d ctx sessionID w =
    let w1 := exchanged_under d "Session" (session_request d Background sessionID)
                              ctx res rest w in
    match Unmarshal Session_struct (body_read d res) (zero Session_struct) with
    | (_, Some err) => Some (Err err, w1)
    | (sess, None) => Some (Ok sess, w1)
    end.
Proof.
  intros Hu Hd Hs.
  unfold Session, http_NewRequest. rewrite Hu. cbn [try].
  rewrite (bind_ok _ (w:=w) (w':=w) eq_refl).
  erewrite round_trip_under; [ | exact Hd | exact Hs ].
  rewrite received_body. cbv zeta.
  destruct (Unmarshal Session_struct (body_read d res) (zero Session_struct))
    as [sess [err|]]; reflexivity.
Qed.

(** [Session] returns the decoder's error. *)
Lemma Session_returns_decode_failure :
  forall (d : Dance) (ctx : Context) (sessionID : SessionID) (w : World)
         (res : Response) (rest : list Reply) (sess : goval) (err : error),
    valid_url (sessions_url d) = true ->
    Done ctx (clock w) = false ->
    script w = Answer res :: rest ->
    Unmarshal Session_struct (body_read d res) (zero Session_struct) = (sess, Some err) ->
    exists w' : World, Session d ctx sessionID w = Some (Err err, w').
Proof.
  intros d ctx sessionID w res rest sess err Hu Hd Hs Hdec.
  rewrite (Session_exchange d ctx sessionID w res rest Hu Hd Hs), Hdec.
  eexists. reflexivity.
Qed.

(** C9, as the code has it.  [Session] does not look at the status of
    the reply: whatever the status code and the headers, it returns the
    snapshot decoded from the body it reads, with no error, when that
    decoding has none.  With pretty printing off the body it reads is
    the body of the reply.  With pretty printing on it is the text
    [post] wrote: for a body that decodes into a map without an error,
    that map written with indentation.  (A body that does not decode
    into a map is the case of C8, which this statement leaves out.) *)
Theorem Session_ignores_status :
  forall (d : Dance) (ctx : Context) (sessionID : SessionID) (w : World)
         (status : nat) (header : list (string * string)) (body : string)
         (rest : list Reply) (sess : goval),
    valid_url (sessions_url d) = true ->
    Done ctx (clock w) = false ->
    script w = Answer {| StatusCode := status; ResHeader := header; ResBody := body |}
                 :: rest ->
    (prettyJSON d = false ->
       Unmarshal Session_struct body (zero Session_struct) = (sess, None) ->
       exists w' : World,
         Session d ctx sessionID w = Some (Ok sess, w') /\
         script w' = rest) /\
    (prettyJSON d = true ->
       forall m : option gomap,
         Unmarshal_map body (Some []) = (m, None) ->
         Unmarshal Session_struct (MarshalIndent m) (zero Session_struct) = (sess, None) ->
         exists w' : World,
           Session d ctx sessionID w = Some (Ok sess, w') /\
           script w' = rest).
Proof.
  intros d ctx sessionID w status header body rest sess Hu Hd Hs.
  rewrite (Session_exchange d ctx sessionID w _ rest Hu Hd Hs).
  unfold body_read, as_read. cbn [ResBody]. cbv zeta.
  split.
  - intros Hp Hdec. rewrite Hp, Hdec.
    eexists. split; [reflexivity|]. apply exchanged_under_script.
  - intros Hp m Hm Hdec. rewrite Hp. unfold pretty. rewrite Hm, Hdec.
    eexists. split; [reflexivity|]. apply exchanged_under_script.
Qed.

Lemma Session_ignores_status_witness :
  (exists w' : World,
     Session dance Background "abc123"
       (start [Answer (answer 500 "{'id':'101W','login':'user@example.com','mfaActive':true}")])
     = Some (Ok (fst (Unmarshal Session_struct
                        (q "{'id':'101W','login':'user@example.com','mfaActive':true}")
                        (zero Session_struct))), w') /\
     Login (fst (Unmarshal Session_struct
                   (q "{'id':'101W','login':'user@example.com','mfaActive':true}")
                   (zero Session_struct))) = "user@example.com") /\
  (exists (sess : goval) (w' : World),
     Session verbose_dance Background "abc123"
       (start [Answer (answer 404 "{'login':'user@example.com','id':'101W'}")])
     = Some (Ok sess, w') /\
     Login sess = "user@example.com" /\ ID sess = "101W").
Proof.
  split.
  - destruct (Session_ignores_status dance Background "abc123"
                (start [Answer (answer 500 "{'id':'101W','login':'user@example.com','mfaActive':true}")])
                500 [] (q "{'id':'101W','login':'user@example.com','mfaActive':true}") []
                (fst (Unmarshal Session_struct
                        (q "{'id':'101W','login':'user@example.com','mfaActive':true}")
                        (zero Session_struct))))
      as (Hplain & _).
    + vm_compute; reflexivity.
    + reflexivity.
    + reflexivity.
    + destruct Hplain as (w' & Hrun & _);
        [reflexivity | vm_compute; reflexivity |].
      exists w'. split; [exact Hrun | vm_compute; reflexivity].
  - destruct (Session_ignores_status verbose_dance Background "abc123"
                (start [Answer (answer 404 "{'login':'user@example.com','id':'101W'}")])
                404 [] (q "{'login':'user@example.com','id':'101W'}") []
                (fst (Unmarshal Session_struct
                        (MarshalIndent (Some [("id", JStr "101W");
                                              ("login", JStr "user@example.com")]))
                        (zero Session_struct))))
      as (_ & Hpretty).
    + vm_compute; reflexivity.
    + reflexivity.
    + reflexivity.
    + destruct (Hpretty eq_refl (Some [("id", JStr "101W");
                                        ("login", JStr "user@example.com")]))
        as (w' & Hrun & _); [vm_compute; reflexivity | vm_compute; reflexivity |].
      eexists. exists w'. split; [exact Hrun|]. split; vm_compute; reflexivity.
Defined.

(** C9, as the specification words it, fails by the design of the
    pretty printing option.  The client was built with
    [WithPrettyJSON]; the body of the reply is a JSON object with the
    members [login] and [LOGIN].  The body decodes into the struct
    without an error, the later member [LOGIN] giving the login [b];
    it also decodes into a map without an error, and [post] writes the
    map back with its keys sorted, [LOGIN] first.  [Session] decodes
    that text, so the snapshot it returns has the login [a]: it is not
    the snapshot decoded from the body of the reply. *)
Lemma Session_pretty_body_counterexample :
  Unmarshal_map (q "{'login':'a','LOGIN':'b'}") (Some [])
    = (Some [("LOGIN", JStr "b"); ("login", JStr "a")], None) /\
  snd (Unmarshal Session_struct (q "{'login':'a','LOGIN':'b'}") (zero Session_struct))
    = None /\
  Login (fst (Unmarshal Session_struct (q "{'login':'a','LOGIN':'b'}")
                        (zero Session_struct))) = "b" /\
  (exists (sess : goval) (w' : World),
     Session verbose_dance Background "abc123"
       (start [Answer (answer 200 "{'login':'a','LOGIN':'b'}")])
     = Some (Ok sess, w') /\
     Login sess = "a") /\
  ~ (exists w' : World,
       Session verbose_dance Background "abc123"
         (start [Answer (answer 200 "{'login':'a','LOGIN':'b'}")])
       = Some (Ok (fst (Unmarshal Session_struct (q "{'login':'a','LOGIN':'b'}")
                                  (zero Session_struct))), w')).
Proof.
  split; [vm_compute; reflexivity|].
  split; [vm_compute; reflexivity|].
  split; [vm_compute; reflexivity|].
  split.
  - eexists. eexists. split; vm_compute; reflexivity.
  - intros (w' & Hrun). vm_compute in Hrun. discriminate Hrun.
Qed.

(** C7, as the code has it.  When the provider answers the authorize
    request with a status of 400 or more, [Authorize] returns an error
    whose text is the body it read.  With pretty printing off that is
    the body of the reply.  With pretty printing on and a body that
    decodes into a map without an error, it is that map written with
    indentation.  (A body that does not decode is the case of C8, which
    this statement leaves out.)  When the status is below 400,
    [Authorize] returns, with no error, the value of the cookie named
    [sid] (of the last one, should there be several); with no such
    cookie it returns the empty identifier. *)
Theorem Authorize_outcome :
  forall (d : Dance) (ctx : Context) (token : SessionToken) (w : World)
         (res : Response) (rest : list Reply),
    valid_url (authorize_url d) = true ->
    valid_url (authorize_url d ++ "?" ++ Encode (authorize_query d token)) = true ->
    Done ctx (clock w) = false ->
    script w = Answer res :: rest ->
    (400 <= StatusCode res ->
       (prettyJSON d = false ->
          exists w' : World,
            Authorize d ctx token w = Some (Err (errors_New (ResBody res)), w') /\
            Error (errors_New (ResBody res)) = ResBody res) /\
       (prettyJSON d = true ->
          forall m : option gomap,
            Unmarshal_map (ResBody res) (Some []) = (m, None) ->
            exists w' : World,
              Authorize d ctx token w = Some (Err (errors_New (MarshalIndent m)), w') /\
              Error (errors_New (MarshalIndent m)) = MarshalIndent m)) /\
    (StatusCode res < 400 ->
       exists (sid : SessionID) (w' : World),
         Authorize d ctx token w = Some (Ok sid, w') /\
         sid = last (sid_values (Cookies res)) "" /\
         (sid_values (Cookies res) = [] -> sid = "") /\
         (forall v : string, sid_values (Cookies res) = [v] -> sid = v)).
Proof.
  intros d ctx token w res rest Hu Hq Hd Hs.
  rewrite (Authorize_exchange d ctx token w res rest Hu Hq Hd Hs). cbv zeta.
  split.
  - intros Hst. apply Nat.leb_le in Hst. rewrite Hst. split.
    + intros Hp. unfold body_read, as_read. rewrite Hp.
      eexists. split; reflexivity.
    + intros Hp m Hm. unfold body_read, as_read, pretty. rewrite Hp, Hm.
      eexists. split; reflexivity.
  - intros Hst. apply Nat.leb_gt in Hst. rewrite Hst.
    eexists. eexists. split; [reflexivity|]. split; [reflexivity|]. split.
    + intros E. rewrite E. reflexivity.
    + intros v E. rewrite E. reflexivity.
Qed.

Lemma Authorize_outcome_witness :
  (exists w' : World,
     Authorize dance Background "tok"
       (start [Answer {| StatusCode := 200;
                         ResHeader := [("Set-Cookie", "sid=abc123")];
                         ResBody := "" |}])
     = Some (Ok "abc123", w')) /\
  (exists w' : World,
     Authorize dance Background "tok"
       (start [Answer {| StatusCode := 401; ResHeader := [];
                         ResBody := "Unauthorized" |}])
     = Some (Err (errorString "Unauthorized"), w')) /\
  (exists w' : World,
     Authorize verbose_dance Background "tok"
       (start [Answer (answer 401 "{'errorCode':'E0000004'}")])
     = Some (Err (errorString
                    (MarshalIndent (Some [("errorCode", JStr "E0000004")]))), w')).
Proof.
  split; [|split].
  - destruct (Authorize_outcome dance Background "tok"
                (start [Answer {| StatusCode := 200;
                                  ResHeader := [("Set-Cookie", "sid=abc123")];
                                  ResBody := "" |}])
                {| StatusCode := 200; ResHeader := [("Set-Cookie", "sid=abc123")];
                   ResBody := "" |} [])
      as (_ & Hok).
    + vm_compute; reflexivity.
    + vm_compute; reflexivity.
    + reflexivity.
    + reflexivity.
    + destruct Hok as (sid & w' & Hrun & _ & _ & Hone); [vm_compute; lia|].
      assert (E : sid = "abc123") by (apply Hone; vm_compute; reflexivity).
      exists w'. rewrite E in Hrun. exact Hrun.
  - destruct (Authorize_outcome dance Background "tok"
                (start [Answer {| StatusCode := 401; ResHeader := [];
                                  ResBody := "Unauthorized" |}])
                {| StatusCode := 401; ResHeader := []; ResBody := "Unauthorized" |} [])
      as (Herr & _).
    + vm_compute; reflexivity.
    + vm_compute; reflexivity.
    + reflexivity.
    + reflexivity.
    + destruct Herr as (Hplain & _); [vm_compute; lia|].
      destruct (Hplain eq_refl) as (w' & Hrun & _).
      exists w'. exact Hrun.
  - destruct (Authorize_outcome verbose_dance Background "tok"
                (start [Answer (answer 401 "{'errorCode':'E0000004'}")])
                (answer 401 "{'errorCode':'E0000004'}") [])
      as (Herr & _).
    + vm_compute; reflexivity.
    + vm_compute; reflexivity.
    + reflexivity.
    + reflexivity.
    + destruct Herr as (_ & Hpretty); [vm_compute; lia|].
      destruct (Hpretty eq_refl (Some [("errorCode", JStr "E0000004")]))
        as (w' & Hrun & _); [vm_compute; reflexivity|].
      exists w'. exact Hrun.
Defined.

(** C7, as the specification words it, fails by the design of the
    pretty printing option.  The provider answers 401 with a JSON
    object as the body; the client was built with [WithPrettyJSON]; the
    body decodes into a map without an error and [post] writes the map
    back with indentation, as the option is meant to.  The error
    [Authorize] returns has the indented text, which does not contain
    the body of the reply. *)
Lemma Authorize_error_body_counterexample :
  Unmarshal_map (q "{'errorCode':'E0000004'}") (Some [])
    = (Some [("errorCode", JStr "E0000004")], None) /\
  ~ (exists (e : error) (w' : World),
       Authorize verbose_dance Background "tok"
         (start [Answer (answer 401 "{'errorCode':'E0000004'}")])
       = Some (Err e, w') /\
       contains (Error e) (q "{'errorCode':'E0000004'}") = true).
Proof.
  split; [vm_compute; reflexivity|].
  intros (e & w' & Hrun & Hc).
  vm_compute in Hrun.
  injection Hrun as He _. subst e.
  vm_compute in Hc. discriminate Hc.
Qed.

Lemma sid_values_app (l1 l2 : list Cookie) :
  sid_values (l1 ++ l2) = (sid_values l1 ++ sid_values l2)%list.
Proof. unfold sid_values. rewrite filter_app, map_app. reflexivity. Qed.

Lemma sid_values_none (l : list Cookie) :
  (forall c, In c l -> Name c <> "sid") -> sid_values l = [].
Proof.
  induction l as [|c l IH]; intros H; [reflexivity|].
  unfold sid_values. cbn [filter].
  destruct (String.eqb_spec (Name c) "sid") as [E|E].
  - exfalso. apply (H c); [left; reflexivity | exact E].
  - apply IH. intros c' Hin. apply H. right. exact Hin.
Qed.

(** C10, as the code has it.  When the reply to the authorize request
    has a status below 400 and carries cookies named [sid], [Authorize]
    returns the value of the last of them in the order of the reply's
    cookies, whatever cookies come before it.  (A reply with a status
    of 400 or more is an error whatever cookies it carries.) *)
Theorem Authorize_takes_last_sid :
  forall (d : Dance) (ctx : Context) (token : SessionToken) (w : World)
         (res : Response) (rest : list Reply)
         (before after : list Cookie) (c : Cookie),
    valid_url (authorize_url d) = true ->
    valid_url (authorize_url d ++ "?" ++ Encode (authorize_query d token)) = true ->
    Done ctx (clock w) = false ->
    script w = Answer res :: rest ->
    StatusCode res < 400 ->
    Cookies res = (before ++ c :: after)%list ->
    Name c = "sid" ->
    (forall c' : Cookie, In c' after -> Name c' <> "sid") ->
    exists w' : World,
      Authorize d ctx token w = Some (Ok (Value c), w').
Proof.
  intros d ctx token w res rest before after c Hu Hq Hd Hs Hst Hc Hn Hafter.
  rewrite (Authorize_exchange d ctx token w res rest Hu Hq Hd Hs). cbv zeta.
  apply Nat.leb_gt in Hst. rewrite Hst.
  rewrite Hc, sid_values_app.
  change (c :: after) with ([c] ++ after)%list.
  rewrite sid_values_app, (sid_values_none after Hafter), app_nil_r.
  unfold sid_values at 2. cbn [filter]. rewrite Hn. cbn [String.eqb Ascii.eqb Bool.eqb map].
  rewrite last_last.
  eexists. reflexivity.
Qed.

Lemma Authorize_takes_last_sid_witness :
  exists w' : World,
    Authorize verbose_dance Background "tok"
      (start [Answer {| StatusCode := 302;
                        ResHeader := [("Set-Cookie", "sid=first; Path=/");
                                      ("Set-Cookie", "JSESSIONID=x; Path=/");
                                      ("Set-Cookie", "sid=second; Secure")];
                        ResBody := "" |}])
    = Some (Ok "second", w').
Proof.
  apply (Authorize_takes_last_sid verbose_dance Background "tok"
           (start [Answer {| StatusCode := 302;
                             ResHeader := [("Set-Cookie", "sid=first; Path=/");
                                           ("Set-Cookie", "JSESSIONID=x; Path=/");
                                           ("Set-Cookie", "sid=second; Secure")];
                             ResBody := "" |}])
           {| StatusCode := 302;
              ResHeader := [("Set-Cookie", "sid=first; Path=/");
                            ("Set-Cookie", "JSESSIONID=x; Path=/");
                            ("Set-Cookie", "sid=second; Secure")];
              ResBody := "" |} []
           [{| Name := "sid"; Value := "first" |};
            {| Name := "JSESSIONID"; Value := "x" |}]
           []
           {| Name := "sid"; Value := "second" |});
    try (vm_compute; reflexivity).
  - vm_compute. lia.
  - intros c' [].
Defined.

(** C10, as the specification words it, fails on a reply the code
    treats as an error.  The provider answers 401 with two cookies
    named [sid] and the body [denied]; the client has no option set.
    [Authorize] looks at the status before the cookies: it returns the
    error whose text is the body, and not the value of the last
    cookie. *)
Lemma Authorize_last_sid_counterexample :
  sid_values (Cookies {| StatusCode := 401;
                         ResHeader := [("Set-Cookie", "sid=first");
                                       ("Set-Cookie", "sid=second")];
                         ResBody := "denied" |})
    = ["first"; "second"] /\
  (exists w' : World,
     Authorize dance Background "tok"
       (start [Answer {| StatusCode := 401;
                         ResHeader := [("Set-Cookie", "sid=first");
                                       ("Set-Cookie", "sid=second")];
                         ResBody := "denied" |}])
     = Some (Err (errorString "denied"), w')) /\
  ~ (exists w' : World,
       Authorize dance Background "tok"
         (start [Answer {| StatusCode := 401;
                           ResHeader := [("Set-Cookie", "sid=first");
                                         ("Set-Cookie", "sid=second")];
                           ResBody := "denied" |}])
       = Some (Ok "second", w')).
Proof.
  split; [vm_compute; reflexivity|].
  split.
  - eexists. vm_compute. reflexivity.
  - intros (w' & Hrun). vm_compute in Hrun. discriminate Hrun.
Qed.

(* ================================================================== *)
(** ** Further properties of the package *)

(** *** The orchestrator on the answers that need no factor *)

(** X1.  When the primary answer decodes with status [SUCCESS],
    [Authenticate] returns the session token of that answer as it is
    and makes no further call: the primary request is the only request,
    the rest of the provider's script is untouched, the handler is not
    called and the code does not sleep. *)
Theorem Authenticate_success_is_immediate :
  forall (fuel : nat) (d : Dance) (ctx : Context) (username password : string)
         (mfa : option Multifactor) (w : World) (res : Response)
         (rest : list Reply) (ar : goval),
    valid_url (authn_url d) = true ->
    Done ctx (clock w) = false ->
    script w = Answer res :: rest ->
    Unmarshal oktaUserAuthn (body_read d res) (zero oktaUserAuthn) = (ar, None) ->
    Status ar = "SUCCESS" ->
    exists w' : World,
      Authenticate fuel d ctx username password mfa w
        = Some (Ok (sessionToken ar), w') /\
      requests w'
        = (requests w ++ [hooked d (authn_request d ctx username password)])%list /\
      script w' = rest /\
      selects w' = selects w /\ reads w' = reads w /\ clock w' = clock w.
Proof.
  intros fuel d ctx username password mfa w res rest ar Hu Hd Hs Hdec Hst.
  rewrite (Authenticate_exchange fuel d ctx username password mfa w res rest ar None
             Hu Hd Hs Hdec).
  cbv zeta. rewrite Hst. cbn [String.eqb Ascii.eqb Bool.eqb negb].
  eexists. split; [reflexivity|]. world. repeat split.
Qed.

Lemma Authenticate_success_is_immediate_witness :
  exists w' : World,
    Authenticate 0 verbose_dance (WithCancelAt 5) "user" "pass" None
      (start [Answer (success "tok"); Answer (challenge "never read")])
    = Some (Ok "tok", w') /\
    script w' = [Answer (challenge "never read")] /\
    List.length (requests w') = 1.
Proof.
  destruct (Authenticate_success_is_immediate 0 verbose_dance (WithCancelAt 5)
              "user" "pass" None
              (start [Answer (success "tok"); Answer (challenge "never read")])
              (success "tok") [Answer (challenge "never read")]
              (fst (Unmarshal oktaUserAuthn (body_read verbose_dance (success "tok"))
                              (zero oktaUserAuthn))))
    as (w' & Hrun & Hreq & Hscript & _); try (vm_compute; reflexivity).
  exists w'. rewrite Hreq, Hscript.
  repeat split; try exact Hrun; vm_compute; reflexivity.
Defined.

(** X2.  When the primary answer decodes with a status that is neither
    [MFA_REQUIRED] nor [SUCCESS], [Authenticate] fails with the error
    [Status: ] followed by that status, after the primary request
    alone. *)
Theorem Authenticate_other_status_fails :
  forall (fuel : nat) (d : Dance) (ctx : Context) (username password : string)
         (mfa : option Multifactor) (w : World) (res : Response)
         (rest : list Reply) (ar : goval),
    valid_url (authn_url d) = true ->
    Done ctx (clock w) = false ->
    script w = Answer res :: rest ->
    Unmarshal oktaUserAuthn (body_read d res) (zero oktaUserAuthn) = (ar, None) ->
    Status ar <> "MFA_REQUIRED" ->
    Status ar <> "SUCCESS" ->
    exists w' : World,
      Authenticate fuel d ctx username password mfa w
        = Some (Err (errorString ("Status: " ++ Status ar)), w') /\
      requests w'
        = (requests w ++ [hooked d (authn_request d ctx username password)])%list /\
      script w' = rest /\
      selects w' = selects w /\ reads w' = reads w.
Proof.
  intros fuel d ctx username password mfa w res rest ar Hu Hd Hs Hdec Hm Hst.
  rewrite (Authenticate_exchange fuel d ctx username password mfa w res rest ar None
             Hu Hd Hs Hdec).
  cbv zeta.
  destruct (String.eqb_spec (Status ar) "MFA_REQUIRED") as [E|_]; [contradiction|].
  destruct (String.eqb_spec (Status ar) "SUCCESS") as [E|_]; [contradiction|].
  cbn [negb].
  eexists. split; [reflexivity|]. world. repeat split.
Qed.

Lemma Authenticate_other_status_fails_witness :
  exists w' : World,
    Authenticate 3 dance Background "user" "pass" (Some (human []))
      (start [Answer (answer 200 "{'status':'LOCKED_OUT'}")])
    = Some (Err (errorString "Status: LOCKED_OUT"), w') /\
    List.length (requests w') = 1.
Proof.
  destruct (Authenticate_other_status_fails 3 dance Background "user" "pass"
              (Some (human []))
              (start [Answer (answer 200 "{'status':'LOCKED_OUT'}")])
              (answer 200 "{'status':'LOCKED_OUT'}") []
              (fst (Unmarshal oktaUserAuthn
                      (body_read dance (answer 200 "{'status':'LOCKED_OUT'}"))
                      (zero oktaUserAuthn))))
    as (w' & Hrun & Hreq & _); try (vm_compute; reflexivity);
    try (vm_compute; discriminate).
  exists w'. rewrite Hreq. split; [exact Hrun | reflexivity].
Defined.

(** *** One factor, and the factor the handler chose *)

(** X3.  When the primary answer has status [MFA_REQUIRED] and offers
    exactly one factor, [Authenticate] goes on with the protocol of that
    factor and the state token of the answer, and [Select] is never
    called: not before the protocol starts and, with fuel beyond what is
    left of the script, not until the run has ended. *)
Theorem single_factor_is_chosen_without_asking :
  forall (fuel : nat) (d : Dance) (ctx : Context) (username password : string)
         (mfa : option Multifactor) (w : World) (res : Response)
         (rest : list Reply) (ar o : goval),
    valid_url (authn_url d) = true ->
    Done ctx (clock w) = false ->
    script w = Answer res :: rest ->
    Unmarshal oktaUserAuthn (body_read d res) (zero oktaUserAuthn) = (ar, None) ->
    Status ar = "MFA_REQUIRED" ->
    Factors (Embedded ar) = [o] ->
    List.length rest < fuel ->
    Authenticate fuel d ctx username password mfa w
      = perform fuel (oktaUserAuthnFactor_factor o) d mfa (StateToken ar)
          (exchanged d "Authenticate" (authn_request d ctx username password)
                     res rest w) /\
    exists (r : Result SessionToken) (w' : World),
      Authenticate fuel d ctx username password mfa w = Some (r, w') /\
      selects w' = selects w.
Proof.
  intros fuel d ctx username password mfa w res rest ar o Hu Hd Hs Hdec Hst Hf Hfuel.
  assert (Heq : Authenticate fuel d ctx username password mfa w
                = perform fuel (oktaUserAuthnFactor_factor o) d mfa (StateToken ar)
                    (exchanged d "Authenticate"
                       (authn_request d ctx username password) res rest w)).
  { rewrite (Authenticate_exchange fuel d ctx username password mfa w res rest ar None
               Hu Hd Hs Hdec).
    cbv zeta. rewrite Hst, Hf. reflexivity. }
  split; [exact Heq|].
  rewrite Heq.
  destruct (perform_total fuel (oktaUserAuthnFactor_factor o) d mfa (StateToken ar)
              (exchanged d "Authenticate" (authn_request d ctx username password)
                         res rest w))
    as (r & w' & new & Hrun & _ & _ & Hsel).
  { world. exact Hfuel. }
  exists r, w'. split; [exact Hrun|]. rewrite Hsel. world. reflexivity.
Qed.

Lemma single_factor_is_chosen_without_asking_witness :
  exists (r : Result SessionToken) (w' : World),
    Authenticate 3 dance Background "user" "pass" (Some broken_console)
      (start [Answer (mfa_required push_json); Answer (challenge "st1");
              Answer (success "tok")])
    = Some (r, w') /\ selects w' = 0.
Proof.
  destruct (single_factor_is_chosen_without_asking 3 dance Background "user" "pass"
              (Some broken_console)
              (start [Answer (mfa_required push_json); Answer (challenge "st1");
                      Answer (success "tok")])
              (mfa_required push_json)
              [Answer (challenge "st1"); Answer (success "tok")]
              (fst (Unmarshal oktaUserAuthn (body_read dance (mfa_required push_json))
                              (zero oktaUserAuthn)))
              (hd (VString "")
                  (Factors (Embedded
                     (fst (Unmarshal oktaUserAuthn
                             (body_read dance (mfa_required push_json))
                             (zero oktaUserAuthn)))))))
    as (_ & r & w' & Hrun & Hsel); try (vm_compute; reflexivity).
  exists r, w'. split; [exact Hrun | exact Hsel].
Defined.

(** X4.  With two factors or more, [Authenticate] goes on with whatever
    factor the handler returns, on the state token of the primary
    answer; the factor is not compared with the ones that were offered,
    so one that was not offered is performed as well. *)
Theorem chosen_factor_is_performed :
  forall (fuel : nat) (d : Dance) (ctx : Context) (username password : string)
         (m : Multifactor) (w : World) (res : Response) (rest : list Reply)
         (ar : goval) (chosen : Factor),
    valid_url (authn_url d) = true ->
    Done ctx (clock w) = false ->
    script w = Answer res :: rest ->
    Unmarshal oktaUserAuthn (body_read d res) (zero oktaUserAuthn) = (ar, None) ->
    Status ar = "MFA_REQUIRED" ->
    2 <= List.length (Factors (Embedded ar)) ->
    Select m (oktaUserAuthnEmbedded_factors (Embedded ar)) = (Some chosen, None) ->
    Authenticate fuel d ctx username password (Some m) w
      = perform fuel chosen d (Some m) (StateToken ar)
          (selected (exchanged d "Authenticate"
                       (authn_request d ctx username password) res rest w)).
Proof.
  intros fuel d ctx username password m w res rest ar chosen
         Hu Hd Hs Hdec Hst Hlen Hsel.
  rewrite (Authenticate_exchange fuel d ctx username password (Some m) w res rest ar None
             Hu Hd Hs Hdec).
  cbv zeta. rewrite Hst. cbn [String.eqb Ascii.eqb Bool.eqb].
  destruct (List.length (Factors (Embedded ar))) as [|[|n]] eqn:El; try lia.
  cbn [Nat.eqb].
  unfold call_Select, bind, count_select, ret. rewrite Hsel. reflexivity.
Qed.

Lemma chosen_factor_is_performed_witness :
  Authenticate 1 dance Background "user" "pass"
    (Some {| Select := fun _ => (Some (pushFactor {| id := "elsewhere"; provider := "X";
                                                      factorType := "push" |}), None);
             ReadCode := fun _ _ => ("", Some io_EOF) |})
    (start [Answer (mfa_required (push_json ++ "," ++ totp_json));
            Answer (success "tok")])
  = perform 1 (pushFactor {| id := "elsewhere"; provider := "X"; factorType := "push" |})
      dance
      (Some {| Select := fun _ => (Some (pushFactor {| id := "elsewhere"; provider := "X";
                                                        factorType := "push" |}), None);
               ReadCode := fun _ _ => ("", Some io_EOF) |})
      "st0"
      (selected (exchanged dance "Authenticate"
                   (authn_request dance Background "user" "pass")
                   (mfa_required (push_json ++ "," ++ totp_json))
                   [Answer (success "tok")]
                   (start [Answer (mfa_required (push_json ++ "," ++ totp_json));
                           Answer (success "tok")]))).
Proof.
  apply (chosen_factor_is_performed 1 dance Background "user" "pass" _
           (start [Answer (mfa_required (push_json ++ "," ++ totp_json));
                   Answer (success "tok")])
           (mfa_required (push_json ++ "," ++ totp_json)) [Answer (success "tok")]
           (fst (Unmarshal oktaUserAuthn
                   (body_read dance (mfa_required (push_json ++ "," ++ totp_json)))
                   (zero oktaUserAuthn))));
    try (vm_compute; reflexivity).
Defined.

Lemma select_error_is_wrapped_witness :
  exists w' : World,
    Authenticate 1 verbose_dance Background "user" "pass" (Some broken_console)
      (start [Answer (mfa_required (push_json ++ "," ++ totp_json))])
    = Some (Err (wrapError "error selecting MFA factor: EOF" io_EOF), w') /\
    List.length (requests w') = 1 /\ selects w' = 1.
Proof.
  destruct (select_error_is_wrapped 1 verbose_dance Background "user" "pass"
              broken_console
              (start [Answer (mfa_required (push_json ++ "," ++ totp_json))])
              (mfa_required (push_json ++ "," ++ totp_json)) []
              (fst (Unmarshal oktaUserAuthn
                      (body_read verbose_dance
                         (mfa_required (push_json ++ "," ++ totp_json)))
                      (zero oktaUserAuthn)))
              None io_EOF)
    as (w' & Hrun & _ & Hreq & Hsel); try (vm_compute; reflexivity).
  exists w'. rewrite Hreq, Hsel. repeat split. exact Hrun.
Defined.

(** X6.  The factors handed to the handler are the provider's, one for
    each entry and in the provider's order; an entry whose type is
    [push] becomes a push factor and every other entry a one-time-code
    factor, each keeping its identifier, provider and type. *)
Theorem factors_are_the_providers :
  forall ouae : goval,
    oktaUserAuthnEmbedded_factors ouae = map oktaUserAuthnFactor_factor (Factors ouae) /\
    List.length (oktaUserAuthnEmbedded_factors ouae) = List.length (Factors ouae) /\
    (forall (i : nat) (o : goval),
       nth_error (Factors ouae) i = Some o ->
       exists f : Factor,
         nth_error (oktaUserAuthnEmbedded_factors ouae) i = Some f /\
         id (the_factor f) = ID o /\
         provider (the_factor f) = Provider o /\
         factorType (the_factor f) = FactorType o /\
         (FactorType o = "push" -> f = pushFactor (the_factor f)) /\
         (FactorType o <> "push" -> f = inputFactor (the_factor f))).
Proof.
  intros ouae.
  assert (Hmap : forall (l : list goval) (acc : list Factor),
             fold_left (fun rs f => (rs ++ [oktaUserAuthnFactor_factor f])%list) l acc
             = (acc ++ map oktaUserAuthnFactor_factor l)%list).
  { induction l as [|x l IH]; intros acc; cbn [fold_left map].
    - rewrite app_nil_r. reflexivity.
    - rewrite IH, <- app_assoc. reflexivity. }
  assert (E : oktaUserAuthnEmbedded_factors ouae
              = map oktaUserAuthnFactor_factor (Factors ouae)).
  { unfold oktaUserAuthnEmbedded_factors. rewrite Hmap. reflexivity. }
  split; [exact E|]. split; [rewrite E; apply length_map|].
  intros i o Hi. rewrite E.
  exists (oktaUserAuthnFactor_factor o).
  split; [rewrite nth_error_map, Hi; reflexivity|].
  unfold oktaUserAuthnFactor_factor.
  destruct (String.eqb_spec (FactorType o) "push") as [Ep|Ep]; cbn [the_factor id provider factorType];
    repeat split; try reflexivity; intros; try contradiction; congruence.
Qed.

(** *** The polling loops, reply by reply *)

Lemma round_trip_failure {A : Type} (d : Dance) (name : string) (req : Request)
  (err : error) (rest : list Reply) (k : Response -> M A) (w : World) :
  Done (Ctx req) (clock w) = false ->
  script w = Failure err :: rest ->
  (req' <- pre d name req ;; res' <- Do req' ;; res'' <- post d name res' ;; k res'') w
  = Some (Err err, sent (hooked d req) rest (pre_world d name req w)).
Proof.
  intros Hd Hs.
  rewrite (bind_ok _ (pre_run d name req w)).
  unfold bind at 1, Do. rewrite hooked_Ctx, pre_world_clock, Hd, pre_world_script, Hs.
  reflexivity.
Qed.

Lemma round_trip_silence {A : Type} (d : Dance) (name : string) (req : Request)
  (k : Response -> M A) (w : World) :
  Done (Ctx req) (clock w) = false ->
  script w = [] ->
  (req' <- pre d name req ;; res' <- Do req' ;; res'' <- post d name res' ;; k res'') w
  = Some (Err (urlError (urlErrorOp (Method req)) (URL req) io_EOF),
          sent (hooked d req) [] (pre_world d name req w)).
Proof.
  intros Hd Hs.
  rewrite (bind_ok _ (pre_run d name req w)).
  unfold bind at 1, Do. rewrite hooked_Ctx, pre_world_clock, Hd, pre_world_script, Hs.
  rewrite hooked_Method, hooked_URL. reflexivity.
Qed.

Lemma pushFactor_polling :
  forall (d : Dance) (f : factor) (m : option Multifactor)
         (challenges : list Response) (final : Response) (rest : list Reply)
         (st0 : string) (w : World) (fuel : nat),
    valid_url (verify_url d f) = true ->
    script w = (map Answer challenges ++ Answer final :: rest)%list ->
    Forall (fun r => Status (seen d r) = "MFA_CHALLENGE") challenges ->
    Status (seen d final) <> "MFA_CHALLENGE" ->
    List.length challenges < fuel ->
    exists w' : World,
      pushFactor_perform fuel f d m st0 w
        = Some ((if String.eqb (Status (seen d final)) "SUCCESS"
                 then Ok (sessionToken (seen d final))
                 else Err (errors_New (body_read d final))), w') /\
      List.length (requests w') = List.length (requests w) + S (List.length challenges) /\
      clock w' = clock w + 2 * List.length challenges /\
      script w' = rest /\
      reads w' = reads w /\ selects w' = selects w.
Proof.
  intros d f m challenges.
  induction challenges as [|r cs IH]; intros final rest st0 w fuel Hu Hs Hall Hfin Hfuel.
  - destruct fuel as [|fuel]; [cbn in Hfuel; lia|].
    cbn [map app] in Hs.
    rewrite (pushFactor_iteration fuel f d m st0 w final rest Hu Hs). cbv zeta.
    destruct (String.eqb (Status (seen d final)) "SUCCESS").
    + eexists. split; [reflexivity|]. world. rewrite length_app.
      cbn [List.length]. repeat split; lia.
    + destruct (String.eqb_spec (Status (seen d final)) "MFA_CHALLENGE") as [E|_];
        [contradiction|]. cbn [negb].
      eexists. split; [reflexivity|]. world. rewrite length_app.
      cbn [List.length]. repeat split; lia.
  - destruct fuel as [|fuel]; [cbn in Hfuel; lia|].
    cbn [map app] in Hs.
    rewrite (pushFactor_iteration fuel f d m st0 w r _ Hu Hs). cbv zeta.
    inversion Hall as [|r' cs' Hr Hcs]; subst.
    rewrite Hr. cbn [String.eqb Ascii.eqb Bool.eqb negb].
    destruct (IH final rest (StateToken (seen d r))
                (slept 2 (exchanged d "performMFA"
                            (verify_request d f (state_only st0)) r
                            (map Answer cs ++ Answer final :: rest)%list w))
                fuel Hu)
      as (w' & Hrun & Hreq & Hclock & Hscript & Hreads & Hsel);
      [world; reflexivity | exact Hcs | exact Hfin | cbn [List.length] in Hfuel; lia |].
    exists w'. split; [exact Hrun|].
    rewrite Hreq, Hclock, Hscript, Hreads, Hsel. world. rewrite length_app.
    cbn [List.length]. repeat split; lia.
Qed.

(** X7.  The push protocol polls for as long as it is challenged.  When
    the provider answers [MFA_CHALLENGE] any number [n] of times and
    then something else (the statuses being those the loop decodes from
    the bodies it reads), the loop makes [n + 1] verify calls, sleeps
    [2 n] seconds, never calls the handler, and ends on the last answer:
    with its session token when the status is [SUCCESS], and otherwise
    with an error whose text is the body as the loop read it after
    [post].  That is the body of the answer when pretty printing is
    off; with pretty printing on it is the text [post] put in its
    place. *)
Theorem push_polls_while_challenged :
  forall (d : Dance) (f : factor) (m : option Multifactor)
         (challenges : list Response) (final : Response) (rest : list Reply)
         (st0 : string) (w : World) (fuel : nat),
    valid_url (verify_url d f) = true ->
    script w = (map Answer challenges ++ Answer final :: rest)%list ->
    Forall (fun r => Status (seen d r) = "MFA_CHALLENGE") challenges ->
    Status (seen d final) <> "MFA_CHALLENGE" ->
    List.length challenges < fuel ->
    (exists w' : World,
       pushFactor_perform fuel f d m st0 w
         = Some ((if String.eqb (Status (seen d final)) "SUCCESS"
                  then Ok (sessionToken (seen d final))
                  else Err (errors_New (body_read d final))), w') /\
       List.length (requests w') = List.length (requests w) + S (List.length challenges) /\
       clock w' = clock w + 2 * List.length challenges /\
       script w' = rest /\
       reads w' = reads w /\ selects w' = selects w) /\
    (prettyJSON d = false -> body_read d final = ResBody final) /\
    (prettyJSON d = true -> body_read d final = pretty (ResBody final)).
Proof.
  intros d f m challenges final rest st0 w fuel Hu Hs Hall Hfin Hfuel.
  split; [|split].
  - exact (pushFactor_polling d f m challenges final rest st0 w fuel
             Hu Hs Hall Hfin Hfuel).
  - intros Hp. unfold body_read, as_read. rewrite Hp. reflexivity.
  - intros Hp. unfold body_read, as_read. rewrite Hp. reflexivity.
Qed.

Lemma push_polls_while_challenged_witness :
  exists w' : World,
    pushFactor_perform 4 push verbose_dance None "st0"
      (start [Answer (challenge "st1"); Answer (challenge "st2"); Answer (challenge "st3");
              Answer (answer 200 "{'status':'LOCKED_OUT'}")])
    = Some (Err (errorString (MarshalIndent (Some [("status", JStr "LOCKED_OUT")]))),
            w') /\
    List.length (requests w') = 4 /\ clock w' = 6.
Proof.
  destruct (push_polls_while_challenged verbose_dance push None
              [challenge "st1"; challenge "st2"; challenge "st3"]
              (answer 200 "{'status':'LOCKED_OUT'}") [] "st0"
              (start [Answer (challenge "st1"); Answer (challenge "st2");
                      Answer (challenge "st3");
                      Answer (answer 200 "{'status':'LOCKED_OUT'}")]) 4)
    as ((w' & Hrun & Hreq & Hclock & _) & _).
  - (vm_compute; reflexivity).
  - (vm_compute; reflexivity).
  - (repeat (apply Forall_cons; [vm_compute; reflexivity|]); apply Forall_nil).
  - (vm_compute; discriminate).
  - (vm_compute; reflexivity).
  - exists w'. rewrite Hreq, Hclock. (split; [exact Hrun | split; reflexivity]).
Defined.

Lemma inputFactor_polling :
  forall (d : Dance) (f : factor) (m : Multifactor)
         (challenges : list Response) (final : Response) (rest : list Reply)
         (st0 : string) (w : World) (fuel : nat),
    valid_url (verify_url d f) = true ->
    script w = (map Answer challenges ++ Answer final :: rest)%list ->
    Forall (fun r => Status (seen d r) = "MFA_CHALLENGE") challenges ->
    Status (seen d final) <> "MFA_CHALLENGE" ->
    (forall i : nat, i <= List.length challenges ->
       snd (ReadCode m (inputFactor f) (reads w + i)) = None) ->
    List.length challenges < fuel ->
    exists w' : World,
      inputFactor_perform fuel f d (Some m) st0 w
        = Some ((if String.eqb (Status (seen d final)) "SUCCESS"
                 then Ok (sessionToken (seen d final))
                 else Err (errors_New (body_read d final))), w') /\
      List.length (requests w') = List.length (requests w) + S (List.length challenges) /\
      reads w' = reads w + S (List.length challenges) /\
      clock w' = clock w + 2 * List.length challenges /\
      script w' = rest /\
      selects w' = selects w.
Proof.
  intros d f m challenges.
  induction challenges as [|r cs IH];
    intros final rest st0 w fuel Hu Hs Hall Hfin Hcodes Hfuel.
  - destruct fuel as [|fuel]; [cbn in Hfuel; lia|].
    cbn [map app] in Hs.
    pose proof (Hcodes 0 (Nat.le_0_l _)) as Hc. rewrite Nat.add_0_r in Hc.
    destruct (ReadCode m (inputFactor f) (reads w)) as [code e] eqn:Ec.
    cbn [snd] in Hc. subst e.
    rewrite (inputFactor_iteration fuel f d m st0 code w final rest Hu Hs Ec). cbv zeta.
    destruct (String.eqb (Status (seen d final)) "SUCCESS").
    + eexists. split; [reflexivity|]. world. rewrite length_app.
      cbn [List.length]. repeat split; lia.
    + destruct (String.eqb_spec (Status (seen d final)) "MFA_CHALLENGE") as [E|_];
        [contradiction|]. cbn [negb].
      eexists. split; [reflexivity|]. world. rewrite length_app.
      cbn [List.length]. repeat split; lia.
  - destruct fuel as [|fuel]; [cbn in Hfuel; lia|].
    cbn [map app] in Hs.
    pose proof (Hcodes 0 (Nat.le_0_l _)) as Hc. rewrite Nat.add_0_r in Hc.
    destruct (ReadCode m (inputFactor f) (reads w)) as [code e] eqn:Ec.
    cbn [snd] in Hc. subst e.
    rewrite (inputFactor_iteration fuel f d m st0 code w r _ Hu Hs Ec). cbv zeta.
    inversion Hall as [|r' cs' Hr Hcs]; subst.
    rewrite Hr. cbn [String.eqb Ascii.eqb Bool.eqb negb].
    destruct (IH final rest (StateToken (seen d r))
                (slept 2 (exchanged d "performMFA"
                            (verify_request d f (state_and_code st0 code)) r
                            (map Answer cs ++ Answer final :: rest)%list (read w)))
                fuel Hu)
      as (w' & Hrun & Hreq & Hreads & Hclock & Hscript & Hsel);
      [world; reflexivity | exact Hcs | exact Hfin | | cbn [List.length] in Hfuel; lia |].
    { intros i Hi. world.
      replace (S (reads w) + i) with (reads w + S i) by lia.
      apply Hcodes. cbn [List.length]. lia. }
    exists w'. split; [exact Hrun|].
    rewrite Hreq, Hreads, Hclock, Hscript, Hsel. world. rewrite length_app.
    cbn [List.length]. repeat split; lia.
Qed.

(** X8.  The one-time-code protocol does the same, reading a code
    before every call: after [n] challenges and one other answer (the
    statuses being those the loop decodes from the bodies it reads) the
    handler was asked [n + 1] times, [n + 1] verify calls were made and
    [2 n] seconds were slept.  The result is the session token of the
    last answer when its status is [SUCCESS], and otherwise an error
    whose text is the body as the loop read it after [post]: the body
    of the answer when pretty printing is off, and with pretty printing
    on the text [post] put in its place. *)
Theorem code_polls_while_challenged :
  forall (d : Dance) (f : factor) (m : Multifactor)
         (challenges : list Response) (final : Response) (rest : list Reply)
         (st0 : string) (w : World) (fuel : nat),
    valid_url (verify_url d f) = true ->
    script w = (map Answer challenges ++ Answer final :: rest)%list ->
    Forall (fun r => Status (seen d r) = "MFA_CHALLENGE") challenges ->
    Status (seen d final) <> "MFA_CHALLENGE" ->
    (forall i : nat, i <= List.length challenges ->
       snd (ReadCode m (inputFactor f) (reads w + i)) = None) ->
    List.length challenges < fuel ->
    (exists w' : World,
       inputFactor_perform fuel f d (Some m) st0 w
         = Some ((if String.eqb (Status (seen d final)) "SUCCESS"
                  then Ok (sessionToken (seen d final))
                  else Err (errors_New (body_read d final))), w') /\
       List.length (requests w') = List.length (requests w) + S (List.length challenges) /\
       reads w' = reads w + S (List.length challenges) /\
       clock w' = clock w + 2 * List.length challenges /\
       script w' = rest /\
       selects w' = selects w) /\
    (prettyJSON d = false -> body_read d final = ResBody final) /\
    (prettyJSON d = true -> body_read d final = pretty (ResBody final)).
Proof.
  intros d f m challenges final rest st0 w fuel Hu Hs Hall Hfin Hcodes Hfuel.
  split; [|split].
  - exact (inputFactor_polling d f m challenges final rest st0 w fuel
             Hu Hs Hall Hfin Hcodes Hfuel).
  - intros Hp. unfold body_read, as_read. rewrite Hp. reflexivity.
  - intros Hp. unfold body_read, as_read. rewrite Hp. reflexivity.
Qed.

Lemma code_polls_while_challenged_witness :
  exists w' : World,
    inputFactor_perform 3 totp dance (Some (human ["1"; "2"; "3"])) "st0"
      (start [Answer (challenge "st1"); Answer (challenge "st2"); Answer (success "tok")])
    = Some (Ok "tok", w') /\
    List.length (requests w') = 3 /\ reads w' = 3 /\ clock w' = 4.
Proof.
  destruct (code_polls_while_challenged dance totp (human ["1"; "2"; "3"])
              [challenge "st1"; challenge "st2"] (success "tok") [] "st0"
              (start [Answer (challenge "st1"); Answer (challenge "st2");
                      Answer (success "tok")]) 3)
    as ((w' & Hrun & Hreq & Hreads & Hclock & _) & _).
  - vm_compute; reflexivity.
  - vm_compute; reflexivity.
  - repeat (apply Forall_cons; [vm_compute; reflexivity|]); apply Forall_nil.
  - vm_compute; discriminate.
  - intros [|[|[|i]]] Hi; try reflexivity. cbn in Hi. lia.
  - cbn. lia.
  - exists w'. rewrite Hreq, Hreads, Hclock. split; [exact Hrun | repeat split].
Defined.

Lemma pushFactor_failure (fuel : nat) (f : factor) (d : Dance)
  (m : option Multifactor) (st : string) (w : World) (err : error)
  (rest : list Reply) :
  valid_url (verify_url d f) = true ->
  script w = Failure err :: rest ->
  pushFactor_perform (S fuel) f d m st w
  = Some (Err err,
          sent (hooked d (verify_request d f (state_only st))) rest
               (pre_world d "performMFA" (verify_request d f (state_only st)) w)).
Proof.
  intros Hu Hs.
  cbn [pushFactor_perform]. unfold http_NewRequest. rewrite Hu. cbn [try].
  rewrite (bind_ok _ (w:=w) (w':=w) eq_refl).
  fold (state_only st).
  change (set_Body _ (Some (state_only st)))
    with (verify_request d f (state_only st)).
  apply (round_trip_failure d "performMFA" (verify_request d f (state_only st))
           err rest _ w eq_refl Hs).
Qed.

Lemma pushFactor_silence (fuel : nat) (f : factor) (d : Dance)
  (m : option Multifactor) (st : string) (w : World) :
  valid_url (verify_url d f) = true ->
  script w = [] ->
  pushFactor_perform (S fuel) f d m st w
  = Some (Err (urlError "Post" (verify_url d f) io_EOF),
          sent (hooked d (verify_request d f (state_only st))) []
               (pre_world d "performMFA" (verify_request d f (state_only st)) w)).
Proof.
  intros Hu Hs.
  cbn [pushFactor_perform]. unfold http_NewRequest. rewrite Hu. cbn [try].
  rewrite (bind_ok _ (w:=w) (w':=w) eq_refl).
  fold (state_only st).
  change (set_Body _ (Some (state_only st)))
    with (verify_request d f (state_only st)).
  apply (round_trip_silence d "performMFA" (verify_request d f (state_only st))
           _ w eq_refl Hs).
Qed.

(** X9.  The push protocol never uses the MFA handler: its run is the
    same whatever handler it is given, a nil one included. *)
Theorem push_never_uses_the_handler :
  forall (fuel : nat) (f : factor) (d : Dance) (m m' : option Multifactor)
         (st : string) (w : World),
    pushFactor_perform fuel f d m st w = pushFactor_perform fuel f d m' st w.
Proof.
  induction fuel as [|fuel IH]; intros f d m m' st w; [reflexivity|].
  destruct (valid_url (verify_url d f)) eqn:Hu.
  - destruct (script w) as [|[res|err] rest] eqn:Hs.
    + rewrite !(pushFactor_silence fuel f d _ st w Hu Hs). reflexivity.
    + rewrite !(pushFactor_iteration fuel f d _ st w res rest Hu Hs). cbv zeta.
      destruct (String.eqb (Status (seen d res)) "SUCCESS"); [reflexivity|].
      destruct (String.eqb (Status (seen d res)) "MFA_CHALLENGE"); cbn [negb];
        [apply IH | reflexivity].
    + rewrite !(pushFactor_failure fuel f d _ st w err rest Hu Hs). reflexivity.
  - cbn [pushFactor_perform]. unfold http_NewRequest. rewrite Hu. reflexivity.
Qed.

(** *** When the transport or the handler fails *)

(** X10.  A failure of the transport on the primary request is returned
    as it is: [Authenticate] makes that one call, takes the failure off
    the provider's script, does not call the handler and does not
    sleep. *)
Theorem Authenticate_transport_failure :
  forall (fuel : nat) (d : Dance) (ctx : Context) (username password : string)
         (mfa : option Multifactor) (w : World) (err : error) (rest : list Reply),
    valid_url (authn_url d) = true ->
    Done ctx (clock w) = false ->
    script w = Failure err :: rest ->
    exists w' : World,
      Authenticate fuel d ctx username password mfa w = Some (Err err, w') /\
      requests w'
        = (requests w ++ [hooked d (authn_request d ctx username password)])%list /\
      script w' = rest /\
      selects w' = selects w /\ reads w' = reads w /\ clock w' = clock w.
Proof.
  intros fuel d ctx username password mfa w err rest Hu Hd Hs.
  unfold Authenticate. unfold http_NewRequest. rewrite Hu. cbn [try].
  rewrite (bind_ok _ (w:=w) (w':=w) eq_refl).
  fold (credentials username password).
  change (WithContext _ ctx) with (authn_request d ctx username password).
  rewrite (round_trip_failure d "Authenticate"
             (authn_request d ctx username password) err rest _ w Hd Hs).
  eexists. split; [reflexivity|].
  cbn [requests script selects reads clock sent].
  rewrite pre_world_requests, pre_world_selects, pre_world_reads, pre_world_clock.
  repeat split.
Qed.

Lemma Authenticate_transport_failure_witness :
  exists w' : World,
    Authenticate 2 verbose_dance Background "user" "pass" (Some (human []))
      (start [Failure (errorString "connection refused");
              Answer (success "tok")])
    = Some (Err (errorString "connection refused"), w') /\
    script w' = [Answer (success "tok")] /\
    List.length (requests w') = 1.
Proof.
  destruct (Authenticate_transport_failure 2 verbose_dance Background "user" "pass"
              (Some (human []))
              (start [Failure (errorString "connection refused");
                      Answer (success "tok")])
              (errorString "connection refused") [Answer (success "tok")])
    as (w' & Hrun & Hreq & Hscript & _).
  - vm_compute; reflexivity.
  - reflexivity.
  - reflexivity.
  - exists w'. rewrite Hreq, Hscript. split; [exact Hrun | split; reflexivity].
Defined.

Lemma cancelled_before_the_start_witness :
  exists w' : World,
    Authenticate 2 dance (WithCancelAt 0) "user" "pass" None
      (start [Answer (success "tok")])
    = Some (Err (urlError "Post" "https://example.okta.com/api/v1/authn"
                          context_Canceled), w') /\
    script w' = [Answer (success "tok")].
Proof.
  apply (cancelled_before_the_start 2 dance 0 "user" "pass" None
           (start [Answer (success "tok")])).
  - vm_compute; reflexivity.
  - apply Nat.le_refl.
Defined.

Lemma code_is_read (f : factor) (m : Multifactor) (w : World) (code : string)
  (e : option error) :
  ReadCode m (inputFactor f) (reads w) = (code, e) ->
  call_ReadCode (Some m) (inputFactor f) w = Some (Ok (code, e), read w).
Proof.
  intros Hc. unfold call_ReadCode, bind, count_read, ret. rewrite Hc. reflexivity.
Qed.

Lemma inputFactor_failure (fuel : nat) (f : factor) (d : Dance) (m : Multifactor)
  (st code : string) (w : World) (err : error) (rest : list Reply) :
  valid_url (verify_url d f) = true ->
  script w = Failure err :: rest ->
  ReadCode m (inputFactor f) (reads w) = (code, None) ->
  inputFactor_perform (S fuel) f d (Some m) st w
  = Some (Err err,
          sent (hooked d (verify_request d f (state_and_code st code))) rest
               (pre_world d "performMFA"
                  (verify_request d f (state_and_code st code)) (read w))).
Proof.
  intros Hu Hs Hc.
  cbn [inputFactor_perform]. unfold http_NewRequest. rewrite Hu. cbn [try].
  rewrite (bind_ok _ (w:=w) (w':=w) eq_refl).
  rewrite (bind_ok _ (code_is_read f m w code None Hc)).
  fold (state_and_code st code).
  change (set_Body _ (Some (state_and_code st code)))
    with (verify_request d f (state_and_code st code)).
  apply (round_trip_failure d "performMFA"
           (verify_request d f (state_and_code st code)) err rest _ (read w)
           eq_refl Hs).
Qed.

Lemma inputFactor_silence (fuel : nat) (f : factor) (d : Dance) (m : Multifactor)
  (st code : string) (w : World) :
  valid_url (verify_url d f) = true ->
  script w = [] ->
  ReadCode m (inputFactor f) (reads w) = (code, None) ->
  inputFactor_perform (S fuel) f d (Some m) st w
  = Some (Err (urlError "Post" (verify_url d f) io_EOF),
          sent (hooked d (verify_request d f (state_and_code st code))) []
               (pre_world d "performMFA"
                  (verify_request d f (state_and_code st code)) (read w))).
Proof.
  intros Hu Hs Hc.
  cbn [inputFactor_perform]. unfold http_NewRequest. rewrite Hu. cbn [try].
  rewrite (bind_ok _ (w:=w) (w':=w) eq_refl).
  rewrite (bind_ok _ (code_is_read f m w code None Hc)).
  fold (state_and_code st code).
  change (set_Body _ (Some (state_and_code st code)))
    with (verify_request d f (state_and_code st code)).
  apply (round_trip_silence d "performMFA"
           (verify_request d f (state_and_code st code)) _ (read w) eq_refl Hs).
Qed.

Lemma inputFactor_read_error (fuel : nat) (f : factor) (d : Dance) (m : Multifactor)
  (st code : string) (w : World) (err : error) :
  valid_url (verify_url d f) = true ->
  ReadCode m (inputFactor f) (reads w) = (code, Some err) ->
  inputFactor_perform (S fuel) f d (Some m) st w
  = Some (Err (fmt_Errorf_w "error reading MFA input: " err), read w).
Proof.
  intros Hu Hc.
  cbn [inputFactor_perform]. unfold http_NewRequest. rewrite Hu. cbn [try].
  rewrite (bind_ok _ (w:=w) (w':=w) eq_refl).
  rewrite (bind_ok _ (code_is_read f m w code (Some err) Hc)).
  reflexivity.
Qed.

Lemma inputFactor_no_handler (fuel : nat) (f : factor) (d : Dance) (st : string)
  (w : World) :
  valid_url (verify_url d f) = true ->
  inputFactor_perform (S fuel) f d None st w = Some (Panic nil_dereference, w).
Proof.
  intros Hu.
  cbn [inputFactor_perform]. unfold http_NewRequest. rewrite Hu. cbn [try].
  rewrite (bind_ok _ (w:=w) (w':=w) eq_refl). reflexivity.
Qed.

Lemma perform_bad_url (fuel : nat) (F : Factor) (d : Dance) (m : option Multifactor)
  (st : string) (w : World) :
  valid_url (verify_url d (the_factor F)) = false ->
  perform (S fuel) F d m st w
  = Some (Err (parse_error (verify_url d (the_factor F))), w).
Proof.
  intros Hu. destruct F as [f|f]; cbn [perform the_factor] in *.
  - cbn [pushFactor_perform]. unfold http_NewRequest. rewrite Hu. reflexivity.
  - cbn [inputFactor_perform]. unfold http_NewRequest. rewrite Hu. reflexivity.
Qed.

(** X11.  When the handler cannot give a code, the one-time-code
    protocol stops at once: the handler's error comes back wrapped, with
    [error reading MFA input: ] in front of its text, and no verify call
    is made for that round. *)
Theorem read_error_is_wrapped :
  forall (fuel : nat) (f : factor) (d : Dance) (m : Multifactor)
         (st code : string) (w : World) (err : error),
    valid_url (verify_url d f) = true ->
    ReadCode m (inputFactor f) (reads w) = (code, Some err) ->
    exists w' : World,
      inputFactor_perform (S fuel) f d (Some m) st w
        = Some (Err (wrapError ("error reading MFA input: " ++ Error err) err), w') /\
      Unwrap (wrapError ("error reading MFA input: " ++ Error err) err) = Some err /\
      requests w' = requests w /\ script w' = script w /\
      reads w' = S (reads w) /\ clock w' = clock w.
Proof.
  intros fuel f d m st code w err Hu Hc.
  rewrite (inputFactor_read_error fuel f d m st code w err Hu Hc).
  exists (read w). repeat split.
Qed.

Lemma read_error_is_wrapped_witness :
  exists w' : World,
    inputFactor_perform 5 totp dance (Some broken_console) "st0"
      (start [Answer (success "tok")])
    = Some (Err (wrapError "error reading MFA input: EOF" io_EOF), w') /\
    requests w' = [] /\ script w' = [Answer (success "tok")].
Proof.
  destruct (read_error_is_wrapped 4 totp dance broken_console "st0" ""
              (start [Answer (success "tok")]) io_EOF)
    as (w' & Hrun & _ & Hreq & Hscript & _).
  - vm_compute; reflexivity.
  - reflexivity.
  - exists w'. rewrite Hreq, Hscript. split; [exact Hrun | split; reflexivity].
Defined.

(** X12.  A nil handler is fatal for a single one-time-code factor too.
    When the primary answer has status [MFA_REQUIRED] and its only
    factor is not a push factor, [Authenticate] with no handler panics
    on the call of [ReadCode]: after the primary request, and before any
    verify call. *)
Theorem code_without_handler_panics :
  forall (fuel : nat) (d : Dance) (ctx : Context) (username password : string)
         (w : World) (res : Response) (rest : list Reply) (ar o : goval),
    valid_url (authn_url d) = true ->
    Done ctx (clock w) = false ->
    script w = Answer res :: rest ->
    Unmarshal oktaUserAuthn (body_read d res) (zero oktaUserAuthn) = (ar, None) ->
    Status ar = "MFA_REQUIRED" ->
    Factors (Embedded ar) = [o] ->
    FactorType o <> "push" ->
    valid_url (verify_url d (the_factor (oktaUserAuthnFactor_factor o))) = true ->
    exists w' : World,
      Authenticate (S fuel) d ctx username password None w
        = Some (Panic nil_dereference, w') /\
      requests w'
        = (requests w ++ [hooked d (authn_request d ctx username password)])%list /\
      script w' = rest.
Proof.
  intros fuel d ctx username password w res rest ar o Hu Hd Hs Hdec Hst Hf Hty Hv.
  rewrite (Authenticate_exchange (S fuel) d ctx username password None w res rest ar None
             Hu Hd Hs Hdec).
  cbv zeta. rewrite Hst, Hf.
  cbn [String.eqb Ascii.eqb Bool.eqb List.length Nat.eqb hd_error option_map].
  unfold bind at 1, ret at 1.
  revert Hv. unfold oktaUserAuthnFactor_factor.
  destruct (String.eqb_spec (FactorType o) "push") as [E|_]; [contradiction|].
  cbn [the_factor perform]. intros Hv.
  rewrite (inputFactor_no_handler fuel _ d (StateToken ar) _ Hv).
  eexists. split; [reflexivity|]. world. split; reflexivity.
Qed.

Lemma code_without_handler_panics_witness :
  exists w' : World,
    Authenticate 1 dance Background "user" "pass" None
      (start [Answer (mfa_required totp_json); Answer (success "tok")])
    = Some (Panic nil_dereference, w') /\
    List.length (requests w') = 1 /\ script w' = [Answer (success "tok")].
Proof.
  destruct (code_without_handler_panics 0 dance Background "user" "pass"
              (start [Answer (mfa_required totp_json); Answer (success "tok")])
              (mfa_required totp_json) [Answer (success "tok")]
              (fst (Unmarshal oktaUserAuthn (body_read dance (mfa_required totp_json))
                              (zero oktaUserAuthn)))
              (hd (VString "")
                  (Factors (Embedded
                     (fst (Unmarshal oktaUserAuthn
                             (body_read dance (mfa_required totp_json))
                             (zero oktaUserAuthn)))))))
    as (w' & Hrun & Hreq & Hscript).
  - vm_compute; reflexivity.
  - reflexivity.
  - reflexivity.
  - vm_compute; reflexivity.
  - vm_compute; reflexivity.
  - vm_compute; reflexivity.
  - vm_compute; discriminate.
  - vm_compute; reflexivity.
  - exists w'. rewrite Hreq, Hscript. split; [exact Hrun | split; reflexivity].
Defined.

(** X13.  Neither protocol tries again after a failure of the
    transport: the failure of a verify call (for the one-time-code
    protocol, of the call that follows a code the handler gave) is the
    result of the whole protocol, whatever the provider would have
    answered next, and the code does not sleep before it returns. *)
Theorem verify_failure_is_not_retried :
  forall (fuel : nat) (F : Factor) (d : Dance) (m : Multifactor) (st : string)
         (w : World) (err : error) (rest : list Reply),
    valid_url (verify_url d (the_factor F)) = true ->
    script w = Failure err :: rest ->
    (F = pushFactor (the_factor F) \/ snd (ReadCode m F (reads w)) = None) ->
    exists w' : World,
      perform (S fuel) F d (Some m) st w = Some (Err err, w') /\
      List.length (requests w') = S (List.length (requests w)) /\
      script w' = rest /\ clock w' = clock w.
Proof.
  intros fuel [f|f] d m st w err rest Hu Hs Hc; cbn [perform the_factor] in *.
  - rewrite (pushFactor_failure fuel f d (Some m) st w err rest Hu Hs).
    eexists. split; [reflexivity|].
    cbn [requests script clock sent].
    rewrite pre_world_requests, pre_world_clock, length_app. cbn [List.length].
    repeat split. lia.
  - destruct Hc as [Hc|Hc]; [discriminate Hc|].
    destruct (ReadCode m (inputFactor f) (reads w)) as [code e] eqn:Ec.
    cbn [snd] in Hc. subst e.
    rewrite (inputFactor_failure fuel f d m st code w err rest Hu Hs Ec).
    eexists. split; [reflexivity|].
    cbn [requests script clock sent].
    rewrite pre_world_requests, pre_world_clock, length_app. cbn [List.length read requests clock].
    repeat split. lia.
Qed.

Lemma verify_failure_is_not_retried_witness :
  exists w' : World,
    perform 3 (inputFactor totp) dance (Some (human ["123456"; "654321"])) "st0"
      (start [Failure (errorString "connection reset"); Answer (success "tok")])
    = Some (Err (errorString "connection reset"), w') /\
    List.length (requests w') = 1 /\ script w' = [Answer (success "tok")] /\
    clock w' = 0.
Proof.
  destruct (verify_failure_is_not_retried 2 (inputFactor totp) dance
              (human ["123456"; "654321"]) "st0"
              (start [Failure (errorString "connection reset"); Answer (success "tok")])
              (errorString "connection reset") [Answer (success "tok")])
    as (w' & Hrun & Hreq & Hscript & Hclock).
  - vm_compute; reflexivity.
  - reflexivity.
  - right. reflexivity.
  - exists w'. rewrite Hreq, Hscript, Hclock.
    split; [exact Hrun | repeat split].
Defined.

(** *** What the protocols send *)

Lemma hooked_Header (d : Dance) (req : Request) : Header (hooked d req) = Header req.
Proof. unfold hooked. destruct (prettyJSON d), (Body req); reflexivity. Qed.

Lemma verify_post (d : Dance) (f : factor) (body : string) :
  Method (hooked d (verify_request d f body)) = "POST" /\
  URL (hooked d (verify_request d f body)) = verify_url d f /\
  Ctx (hooked d (verify_request d f body)) = Background /\
  Header (hooked d (verify_request d f body))
  = [("Content-Type", ["application/json"]); ("Accept", ["application/json"])].
Proof.
  rewrite hooked_Method, hooked_URL, hooked_Ctx, hooked_Header. repeat split.
Qed.

Lemma pushFactor_requests :
  forall (fuel : nat) (f : factor) (d : Dance) (m : option Multifactor) (st : string)
         (w : World) (r : Result SessionToken) (w' : World),
    pushFactor_perform fuel f d m st w = Some (r, w') ->
    exists new : list Request,
      requests w' = (requests w ++ new)%list /\
      Forall (fun q => exists body : string, q = hooked d (verify_request d f body)) new /\
      List.length new <= fuel /\
      clock w' <= clock w + 2 * List.length new.
Proof.
  induction fuel as [|fuel IH]; intros f d m st w r w' Hrun; [discriminate Hrun|].
  destruct (valid_url (verify_url d f)) eqn:Hu.
  - destruct (script w) as [|[res|err] rest] eqn:Hs.
    + rewrite (pushFactor_silence fuel f d m st w Hu Hs) in Hrun.
      injection Hrun as _ Hw. subst w'.
      exists [hooked d (verify_request d f (state_only st))].
      cbn [requests clock sent List.length].
      rewrite pre_world_requests, pre_world_clock.
      repeat split; [|lia|lia].
      constructor; [eexists; reflexivity | constructor].
    + rewrite (pushFactor_iteration fuel f d m st w res rest Hu Hs) in Hrun.
      cbv zeta in Hrun.
      assert (Hone : forall r0,
                Some (r0, exchanged d "performMFA" (verify_request d f (state_only st))
                                    res rest w) = Some (r, w') ->
                exists new : list Request,
                  requests w' = (requests w ++ new)%list /\
                  Forall (fun q => exists body : string,
                            q = hooked d (verify_request d f body)) new /\
                  List.length new <= S fuel /\
                  clock w' <= clock w + 2 * List.length new).
      { intros r0 H0. injection H0 as _ Hw. subst w'.
        exists [hooked d (verify_request d f (state_only st))].
        world. cbn [List.length]. repeat split; [|lia|lia].
        constructor; [eexists; reflexivity | constructor]. }
      destruct (String.eqb (Status (seen d res)) "SUCCESS"); [exact (Hone _ Hrun)|].
      destruct (String.eqb (Status (seen d res)) "MFA_CHALLENGE"); cbn [negb] in Hrun;
        [|exact (Hone _ Hrun)].
      destruct (IH f d m _ _ r w' Hrun) as (new & Hreq & Hall & Hlen & Hclock).
      exists (hooked d (verify_request d f (state_only st)) :: new).
      revert Hreq Hclock. world. intros Hreq Hclock.
      rewrite Hreq, <- app_assoc. cbn [app List.length].
      repeat split; [|lia|lia].
      constructor; [eexists; reflexivity | exact Hall].
    + rewrite (pushFactor_failure fuel f d m st w err rest Hu Hs) in Hrun.
      injection Hrun as _ Hw. subst w'.
      exists [hooked d (verify_request d f (state_only st))].
      cbn [requests clock sent List.length].
      rewrite pre_world_requests, pre_world_clock.
      repeat split; [|lia|lia].
      constructor; [eexists; reflexivity | constructor].
  - pose proof (perform_bad_url fuel (pushFactor f) d m st w Hu) as Hb.
    cbn [perform the_factor] in Hb. rewrite Hb in Hrun.
    injection Hrun as _ Hw. subst w'.
    exists []. rewrite app_nil_r. cbn [List.length].
    repeat split; [constructor|lia|lia].
Qed.

Lemma inputFactor_requests :
  forall (fuel : nat) (f : factor) (d : Dance) (m : option Multifactor) (st : string)
         (w : World) (r : Result SessionToken) (w' : World),
    inputFactor_perform fuel f d m st w = Some (r, w') ->
    exists new : list Request,
      requests w' = (requests w ++ new)%list /\
      Forall (fun q => exists body : string, q = hooked d (verify_request d f body)) new /\
      List.length new <= fuel /\
      clock w' <= clock w + 2 * List.length new.
Proof.
  induction fuel as [|fuel IH]; intros f d m st w r w' Hrun; [discriminate Hrun|].
  assert (Hnone : forall r0 w0,
            requests w0 = requests w -> clock w0 = clock w ->
            Some (r0, w0) = Some (r, w') ->
            exists new : list Request,
              requests w' = (requests w ++ new)%list /\
              Forall (fun q => exists body : string,
                        q = hooked d (verify_request d f body)) new /\
              List.length new <= S fuel /\
              clock w' <= clock w + 2 * List.length new).
  { intros r0 w0 Hq Hc H0. injection H0 as _ Hw. subst w'.
    exists []. rewrite app_nil_r, Hq, Hc. cbn [List.length].
    repeat split; [constructor|lia|lia]. }
  destruct (valid_url (verify_url d f)) eqn:Hu.
  - destruct m as [m|].
    + destruct (ReadCode m (inputFactor f) (reads w)) as [code [e|]] eqn:Ec.
      * rewrite (inputFactor_read_error fuel f d m st code w e Hu Ec) in Hrun.
        exact (Hnone _ (read w) eq_refl eq_refl Hrun).
      * assert (Hone : forall r0 w0,
                  requests w0
                    = (requests w
                       ++ [hooked d (verify_request d f (state_and_code st code))])%list ->
                  clock w0 = clock w ->
                  Some (r0, w0) = Some (r, w') ->
                  exists new : list Request,
                    requests w' = (requests w ++ new)%list /\
                    Forall (fun q => exists body : string,
                              q = hooked d (verify_request d f body)) new /\
                    List.length new <= S fuel /\
                    clock w' <= clock w + 2 * List.length new).
        { intros r0 w0 Hq Hc H0. injection H0 as _ Hw. subst w'.
          exists [hooked d (verify_request d f (state_and_code st code))].
          rewrite Hq, Hc. cbn [List.length]. repeat split; [|lia|lia].
          constructor; [eexists; reflexivity | constructor]. }
        destruct (script w) as [|[res|err] rest] eqn:Hs.
        -- rewrite (inputFactor_silence fuel f d m st code w Hu Hs Ec) in Hrun.
           refine (Hone _ _ _ _ Hrun);
             cbn [requests clock sent];
             rewrite ?pre_world_requests, ?pre_world_clock; reflexivity.
        -- rewrite (inputFactor_iteration fuel f d m st code w res rest Hu Hs Ec) in Hrun.
           cbv zeta in Hrun.
           destruct (String.eqb (Status (seen d res)) "SUCCESS");
             [refine (Hone _ _ _ _ Hrun); world; reflexivity|].
           destruct (String.eqb (Status (seen d res)) "MFA_CHALLENGE");
             cbn [negb] in Hrun;
             [|refine (Hone _ _ _ _ Hrun); world; reflexivity].
           destruct (IH f d (Some m) _ _ r w' Hrun) as (new & Hreq & Hall & Hlen & Hclock).
           exists (hooked d (verify_request d f (state_and_code st code)) :: new).
           revert Hreq Hclock. world. intros Hreq Hclock.
           rewrite Hreq, <- app_assoc. cbn [app List.length].
           repeat split; [|lia|lia].
           constructor; [eexists; reflexivity | exact Hall].
        -- rewrite (inputFactor_failure fuel f d m st code w err rest Hu Hs Ec) in Hrun.
           refine (Hone _ _ _ _ Hrun);
             cbn [requests clock sent];
             rewrite ?pre_world_requests, ?pre_world_clock; reflexivity.
    + rewrite (inputFactor_no_handler fuel f d st w Hu) in Hrun.
      exact (Hnone _ w eq_refl eq_refl Hrun).
  - pose proof (perform_bad_url fuel (inputFactor f) d m st w Hu) as Hb.
    cbn [perform the_factor] in Hb. rewrite Hb in Hrun.
    exact (Hnone _ w eq_refl eq_refl Hrun).
Qed.

(** X14.  Whatever the provider and the handler do, every request a
    factor protocol hands to the transport is a [POST] to the verify
    endpoint of that one factor, with the two JSON headers and under the
    background context; a run makes no more calls than it has rounds,
    and sleeps at most two seconds a call. *)
Theorem protocol_requests_are_verify_posts :
  forall (fuel : nat) (F : Factor) (d : Dance) (m : option Multifactor) (st : string)
         (w : World) (r : Result SessionToken) (w' : World),
    perform fuel F d m st w = Some (r, w') ->
    exists new : list Request,
      requests w' = (requests w ++ new)%list /\
      Forall (fun q =>
                Method q = "POST" /\
                URL q = verify_url d (the_factor F) /\
                Ctx q = Background /\
                Header q = [("Content-Type", ["application/json"]);
                            ("Accept", ["application/json"])]) new /\
      List.length new <= fuel /\
      clock w' <= clock w + 2 * List.length new.
Proof.
  intros fuel F d m st w r w' Hrun.
  assert (H : exists new : list Request,
             requests w' = (requests w ++ new)%list /\
             Forall (fun q => exists body : string,
                       q = hooked d (verify_request d (the_factor F) body)) new /\
             List.length new <= fuel /\
             clock w' <= clock w + 2 * List.length new).
  { destruct F as [f|f]; cbn [perform the_factor] in *.
    - exact (pushFactor_requests fuel f d m st w r w' Hrun).
    - exact (inputFactor_requests fuel f d m st w r w' Hrun). }
  destruct H as (new & Hreq & Hall & Hlen & Hclock).
  exists new. repeat split; try assumption.
  eapply Forall_impl; [|exact Hall].
  intros q (body & ->). apply verify_post.
Qed.

Lemma protocol_requests_are_verify_posts_witness :
  exists (r : Result SessionToken) (w' : World) (new : list Request),
    perform 3 (pushFactor push) verbose_dance None "st0"
      (start [Answer (challenge "st1"); Answer (challenge "st2")])
    = Some (r, w') /\
    requests w' = new /\
    Forall (fun q => Method q = "POST" /\
                     URL q = "https://example.okta.com/api/v1/authn/factors/opf1/verify" /\
                     Ctx q = Background /\
                     Header q = [("Content-Type", ["application/json"]);
                                 ("Accept", ["application/json"])]) new /\
    List.length new <= 3.
Proof.
  destruct (perform 3 (pushFactor push) verbose_dance None "st0"
              (start [Answer (challenge "st1"); Answer (challenge "st2")]))
    as [[r w']|] eqn:Hrun; [|vm_compute in Hrun; discriminate Hrun].
  destruct (protocol_requests_are_verify_posts 3 (pushFactor push) verbose_dance None
              "st0" (start [Answer (challenge "st1"); Answer (challenge "st2")])
              r w' Hrun)
    as (new & Hreq & Hall & Hlen & _).
  exists r, w', new. repeat split; assumption.
Defined.

(** *** The addresses of the requests *)

Lemma forallb_chars_app (p : ascii -> bool) (a b : string) :
  forallb_chars p (a ++ b) = forallb_chars p a && forallb_chars p b.
Proof.
  induction a as [|c a IH]; cbn [append forallb_chars]; [reflexivity|].
  rewrite IH, andb_assoc. reflexivity.
Qed.

Lemma forallb_chars_impl (p p' : ascii -> bool) (s : string) :
  (forall c : ascii, p c = true -> p' c = true) ->
  forallb_chars p s = true -> forallb_chars p' s = true.
Proof.
  intros Himp. induction s as [|c s IH]; cbn [forallb_chars]; [reflexivity|].
  intros H. apply andb_true_iff in H. destruct H as [Hc Hs].
  rewrite (Himp c Hc), (IH Hs). reflexivity.
Qed.

Lemma cut_found (sep : ascii) (s a b : string) :
  cut sep s = Some (a, b) -> s = a ++ String sep b.
Proof.
  revert a b. induction s as [|c s IH]; intros a b; cbn [cut]; [discriminate|].
  destruct (Ascii.eqb_spec c sep) as [->|_].
  - intros H. injection H as <- <-. reflexivity.
  - destruct (cut sep s) as [[a' b']|]; [|discriminate].
    intros H. injection H as <- <-. cbn [append]. rewrite (IH a' b' eq_refl).
    reflexivity.
Qed.

Lemma cut_at_first (sep : ascii) (a b : string) :
  forallb_chars (fun c => negb (Ascii.eqb c sep)) a = true ->
  cut sep (a ++ String sep b) = Some (a, b).
Proof.
  induction a as [|c a IH]; cbn [append forallb_chars cut].
  - intros _. rewrite Ascii.eqb_refl. reflexivity.
  - intros H. apply andb_true_iff in H. destruct H as [Hc Ha].
    apply negb_true_iff in Hc. rewrite Hc, (IH Ha). reflexivity.
Qed.

Lemma cut_absent (sep : ascii) (a : string) :
  forallb_chars (fun c => negb (Ascii.eqb c sep)) a = true ->
  cut sep a = None.
Proof.
  induction a as [|c a IH]; cbn [forallb_chars cut]; [reflexivity|].
  intros H. apply andb_true_iff in H. destruct H as [Hc Ha].
  apply negb_true_iff in Hc. rewrite Hc, (IH Ha). reflexivity.
Qed.

Lemma substring_all (s : string) : String.substring 0 (String.length s) s = s.
Proof.
  induction s as [|c s IH]; [reflexivity|].
  cbn [String.length String.substring]. rewrite IH. reflexivity.
Qed.

Lemma strip_https (r : string) : strip_prefix "https://" ("https://" ++ r) = Some r.
Proof.
  unfold strip_prefix. cbn [append String.prefix String.length Nat.sub].
  repeat (destruct (ascii_dec _ _) as [_|N]; [|exfalso; apply N; reflexivity]).
  cbn [String.substring]. rewrite Nat.sub_0_r, substring_all.
  destruct r; reflexivity.
Qed.

(** The bytes of a host name, of a port and of the colon between them
    are none of the marks that end the host in a URL. *)
Lemma hostname_byte_no_mark (c : ascii) :
  hostname_byte c = true -> negb (Calls.host_mark c) = true.
Proof.
  destruct c as [[] [] [] [] [] [] [] []]; vm_compute; intros H;
    first [reflexivity | discriminate H].
Qed.

Lemma is_digit_no_mark (c : ascii) : is_digit c = true -> negb (Calls.host_mark c) = true.
Proof.
  destruct c as [[] [] [] [] [] [] [] []]; vm_compute; intros H;
    first [reflexivity | discriminate H].
Qed.

Lemma valid_host_no_mark (h : string) :
  valid_host h = true -> forallb_chars (fun c => negb (Calls.host_mark c)) h = true.
Proof.
  unfold valid_host.
  destruct (cut ":"%char h) as [[name port]|] eqn:E.
  - apply cut_found in E. subst h. intros H.
    apply andb_true_iff in H. destruct H as [H Hport].
    apply andb_true_iff in H. destruct H as [_ Hname].
    rewrite forallb_chars_app. cbn [forallb_chars].
    rewrite (forallb_chars_impl _ _ name hostname_byte_no_mark Hname).
    rewrite (forallb_chars_impl _ _ port is_digit_no_mark Hport).
    reflexivity.
  - intros H. apply andb_true_iff in H. destruct H as [_ H].
    exact (forallb_chars_impl _ _ h hostname_byte_no_mark H).
Qed.

Lemma no_mark_no_slash (h : string) :
  forallb_chars (fun c => negb (Calls.host_mark c)) h = true ->
  forallb_chars (fun c => negb (Ascii.eqb c "/"%char)) h = true.
Proof.
  apply forallb_chars_impl. intros c H. unfold Calls.host_mark in H.
  apply negb_true_iff in H. apply orb_false_iff in H. destruct H as [H _].
  rewrite H. reflexivity.
Qed.

Lemma no_mark_no_question (h : string) :
  forallb_chars (fun c => negb (Calls.host_mark c)) h = true ->
  forallb_chars (fun c => negb (Ascii.eqb c "?"%char)) h = true.
Proof.
  apply forallb_chars_impl. intros c H. unfold Calls.host_mark in H.
  apply negb_true_iff in H. apply orb_false_iff in H. destruct H as [_ H].
  rewrite H. reflexivity.
Qed.

(** A URL made of a valid host and a path without a question mark. *)
Lemma valid_url_path (h path : string) :
  valid_host h = true ->
  forallb_chars path_byte path = true ->
  forallb_chars (fun c => negb (Ascii.eqb c "?"%char)) path = true ->
  valid_url ("https://" ++ h ++ String "/" path) = true.
Proof.
  intros Hh Hp Hq. unfold valid_url. rewrite strip_https.
  pose proof (valid_host_no_mark h Hh) as Hm.
  rewrite cut_absent.
  - cbn [forallb_chars andb].
    rewrite (cut_at_first "/"%char h path (no_mark_no_slash h Hm)).
    rewrite Hh, Hp. reflexivity.
  - rewrite forallb_chars_app. cbn [forallb_chars].
    rewrite (no_mark_no_question h Hm), Hq. reflexivity.
Qed.

(** The same with a query behind it. *)
Lemma valid_url_query (h path query : string) :
  valid_host h = true ->
  forallb_chars path_byte path = true ->
  forallb_chars (fun c => negb (Ascii.eqb c "?"%char)) path = true ->
  forallb_chars query_byte query = true ->
  valid_url (("https://" ++ h ++ String "/" path) ++ String "?" query) = true.
Proof.
  intros Hh Hp Hq Hquery. unfold valid_url.
  change (("https://" ++ h ++ String "/" path) ++ String "?" query)
    with ("https://" ++ ((h ++ String "/" path) ++ String "?" query)).
  rewrite strip_https.
  pose proof (valid_host_no_mark h Hh) as Hm.
  rewrite cut_at_first.
  - rewrite Hquery. cbn [andb].
    rewrite (cut_at_first "/"%char h path (no_mark_no_slash h Hm)).
    rewrite Hh, Hp. reflexivity.
  - rewrite forallb_chars_app. cbn [forallb_chars].
    rewrite (no_mark_no_question h Hm), Hq. reflexivity.
Qed.

Lemma unreserved_query_byte (c : ascii) : unreserved c = true -> query_byte c = true.
Proof.
  destruct c as [[] [] [] [] [] [] [] []]; vm_compute; intros H;
    first [reflexivity | discriminate H].
Qed.

Lemma HEX_query_byte (c : ascii) :
  query_byte (HEX (code c / 16)) = true /\ query_byte (HEX (code c mod 16)) = true.
Proof.
  destruct c as [[] [] [] [] [] [] [] []]; vm_compute; split; reflexivity.
Qed.

(** What [QueryEscape] writes can stand in a query. *)
Lemma QueryEscape_query_bytes (s : string) :
  forallb_chars query_byte (QueryEscape s) = true.
Proof.
  induction s as [|c s IH]; [reflexivity|].
  cbn [QueryEscape].
  destruct (unreserved c) eqn:Eu.
  - cbn [forallb_chars]. rewrite (unreserved_query_byte c Eu), IH. reflexivity.
  - destruct (Ascii.eqb c " "%char).
    + cbn [forallb_chars]. rewrite IH. reflexivity.
    + cbn [forallb_chars]. destruct (HEX_query_byte c) as [H1 H2].
      rewrite H1, H2, IH. reflexivity.
Qed.

Lemma authorize_query_encoded (client token : string) :
  Encode [("client_id", client);
          ("redirect_uri", "https://epithet.io/okta-callback");
          ("sessionToken", token);
          ("prompt", "none");
          ("response_type", "id_token");
          ("scope", "openid")]
  = "client_id=" ++ QueryEscape client
    ++ "&prompt=none&redirect_uri=https%3A%2F%2Fepithet.io%2Fokta-callback"
    ++ "&response_type=id_token&scope=openid&sessionToken=" ++ QueryEscape token.
Proof.
  reflexivity.
Qed.

(** X15.  The query of the authorize request holds the six parameters
    sorted by name, whatever the order the code adds them in, each value
    escaped: the client identifier first and the session token last. *)
Theorem authorize_query_is_sorted_and_escaped :
  forall (d : Dance) (token : SessionToken),
    Encode (authorize_query d token)
    = "client_id=" ++ QueryEscape (clientID d)
      ++ "&prompt=none&redirect_uri=https%3A%2F%2Fepithet.io%2Fokta-callback"
      ++ "&response_type=id_token&scope=openid&sessionToken=" ++ QueryEscape token.
Proof.
  intros d token. unfold authorize_query. apply authorize_query_encoded.
Qed.

Lemma authorize_query_bytes (d : Dance) (token : SessionToken) :
  forallb_chars query_byte (Encode (authorize_query d token)) = true.
Proof.
  unfold authorize_query. rewrite authorize_query_encoded.
  repeat rewrite forallb_chars_app.
  rewrite !QueryEscape_query_bytes. reflexivity.
Qed.

(** With a well-formed host name as the domain, every address the
    operations build is accepted. *)
Lemma urls_of_a_valid_host (d : Dance) :
  valid_host (oktaDomain d) = true ->
  valid_url (authn_url d) = true /\
  valid_url (sessions_url d) = true /\
  valid_url (authorize_url d) = true /\
  forall token : SessionToken,
    valid_url (authorize_url d ++ "?" ++ Encode (authorize_query d token)) = true.
Proof.
  intros Hh. repeat split.
  - apply (valid_url_path (oktaDomain d) "api/v1/authn" Hh); reflexivity.
  - apply (valid_url_path (oktaDomain d) "api/v1/sessions/me" Hh); reflexivity.
  - apply (valid_url_path (oktaDomain d) "oauth2/v1/authorize" Hh); reflexivity.
  - intros token.
    apply (valid_url_query (oktaDomain d) "oauth2/v1/authorize"
             (Encode (authorize_query d token)) Hh);
      [reflexivity | reflexivity | apply authorize_query_bytes].
Qed.

(** *** One call for each operation *)

Lemma hooked_no_body (d : Dance) (req : Request) :
  Body req = None -> hooked d req = req.
Proof. intros H. unfold hooked. rewrite H. destruct (prettyJSON d); reflexivity. Qed.

(** The round trip of [Authorize], [Session] and [CloseSession], on
    everything the transport can do. *)
Lemma round_trip_under_cases {A : Type} (d : Dance) (name : string) (req : Request)
  (ctx : Context) (k : Response -> M A) (w : World) :
  (req' <- pre d name req ;; res' <- Do (WithContext req' ctx) ;;
   res'' <- post d name res' ;; k res'') w
  = if Done ctx (clock w) then
      Some (Err (urlError (urlErrorOp (Method req)) (URL req) context_Canceled),
            sent (WithContext (hooked d req) ctx) (script w) (pre_world d name req w))
    else
      match script w with
      | [] =>
          Some (Err (urlError (urlErrorOp (Method req)) (URL req) io_EOF),
                sent (WithContext (hooked d req) ctx) [] (pre_world d name req w))
      | Answer res :: rest =>
          k (received d res) (exchanged_under d name req ctx res rest w)
      | Failure err :: rest =>
          Some (Err err,
                sent (WithContext (hooked d req) ctx) rest (pre_world d name req w))
      end.
Proof.
  destruct (Done ctx (clock w)) eqn:Hd.
  - rewrite (bind_ok _ (pre_run d name req w)).
    unfold bind at 1, Do. cbn [Ctx WithContext Method URL].
    rewrite pre_world_clock, Hd, pre_world_script, hooked_Method, hooked_URL.
    reflexivity.
  - destruct (script w) as [|[res|err] rest] eqn:Hs.
    + rewrite (bind_ok _ (pre_run d name req w)).
      unfold bind at 1, Do. cbn [Ctx WithContext Method URL].
      rewrite pre_world_clock, Hd, pre_world_script, Hs, hooked_Method, hooked_URL.
      reflexivity.
    + apply round_trip_under; assumption.
    + rewrite (bind_ok _ (pre_run d name req w)).
      unfold bind at 1, Do. cbn [Ctx WithContext Method URL].
      rewrite pre_world_clock, Hd, pre_world_script, Hs.
      reflexivity.
Qed.

Lemma Authorize_cases (d : Dance) (ctx : Context) (token : SessionToken) (w : World) :
  valid_host (oktaDomain d) = true ->
  Authorize d ctx token w
  = if Done ctx (clock w) then
      Some (Err (urlError "Get" (URL (authorize_request d ctx token)) context_Canceled),
            sent (authorize_request d ctx token) (script w)
                 (pre_world d "Authorize" (authorize_request d Background token) w))
    else
      match script w with
      | [] =>
          Some (Err (urlError "Get" (URL (authorize_request d ctx token)) io_EOF),
                sent (authorize_request d ctx token) []
                     (pre_world d "Authorize" (authorize_request d Background token) w))
      | Answer res :: rest =>
          let w1 := exchanged_under d "Authorize" (authorize_request d Background token)
                                    ctx res rest w in
          if (400 <=? StatusCode res)%nat
          then Some (Err (errors_New (body_read d res)), w1)
          else Some (Ok (last_sid (Cookies res)), w1)
      | Failure err :: rest =>
          Some (Err err,
                sent (authorize_request d ctx token) rest
                     (pre_world d "Authorize" (authorize_request d Background token) w))
      end.
Proof.
  intros Hh. destruct (urls_of_a_valid_host d Hh) as (_ & _ & Hu & Hq).
  unfold Authorize, url_Parse. rewrite Hu. cbn [try].
  rewrite (bind_ok _ (w:=w) (w':=w) eq_refl).
  unfold http_NewRequest. rewrite (Hq token). cbn [try].
  rewrite (bind_ok _ (w:=w) (w':=w) eq_refl).
  rewrite round_trip_under_cases.
  change (set_header "Accept" "application/json" _)
    with (authorize_request d Background token).
  rewrite (hooked_no_body d (authorize_request d Background token) eq_refl).
  change (WithContext (authorize_request d Background token) ctx)
    with (authorize_request d ctx token).
  destruct (Done ctx (clock w)); [reflexivity|].
  destruct (script w) as [|[res|err] rest]; try reflexivity.
  rewrite received_StatusCode, received_body, received_Cookies. cbv zeta.
  destruct (400 <=? StatusCode res)%nat; reflexivity.
Qed.

Lemma Session_cases (d : Dance) (ctx : Context) (sessionID : SessionID) (w : World) :
  valid_host (oktaDomain d) = true ->
  Session d ctx sessionID w
  = if Done ctx (clock w) then
      Some (Err (urlError "Get" (sessions_url d) context_Canceled),
            sent (session_request d ctx sessionID) (script w)
                 (pre_world d "Session" (session_request d Background sessionID) w))
    else
      match script w with
      | [] =>
          Some (Err (urlError "Get" (sessions_url d) io_EOF),
                sent (session_request d ctx sessionID) []
                     (pre_world d "Session" (session_request d Background sessionID) w))
      | Answer res :: rest =>
          let w1 := exchanged_under d "Session" (session_request d Background sessionID)
                                    ctx res rest w in
          match Unmarshal Session_struct (body_read d res) (zero Session_struct) with
          | (_, Some err) => Some (Err err, w1)
          | (sess, None) => Some (Ok sess, w1)
          end
      | Failure err :: rest =>
          Some (Err err,
                sent (session_request d ctx sessionID) rest
                     (pre_world d "Session" (session_request d Background sessionID) w))
      end.
Proof.
  intros Hh. destruct (urls_of_a_valid_host d Hh) as (_ & Hu & _ & _).
  unfold Session, http_NewRequest. rewrite Hu. cbn [try].
  rewrite (bind_ok _ (w:=w) (w':=w) eq_refl).
  rewrite round_trip_under_cases.
  change (AddCookie _ _) with (session_request d Background sessionID).
  rewrite (hooked_no_body d (session_request d Background sessionID) eq_refl).
  change (WithContext (session_request d Background sessionID) ctx)
    with (session_request d ctx sessionID).
  destruct (Done ctx (clock w)); [reflexivity|].
  destruct (script w) as [|[res|err] rest]; try reflexivity.
  rewrite received_body. cbv zeta.
  destruct (Unmarshal Session_struct (body_read d res) (zero Session_struct))
    as [sess [err|]]; reflexivity.
Qed.

Lemma CloseSession_cases (d : Dance) (ctx : Context) (sessionID : SessionID)
  (w : World) :
  valid_host (oktaDomain d) = true ->
  CloseSession d ctx sessionID w
  = if Done ctx (clock w) then
      Some (Err (urlError "Delete" (sessions_url d) context_Canceled),
            sent (close_request d ctx sessionID) (script w)
                 (pre_world d "CloseSession" (close_request d Background sessionID) w))
    else
      match script w with
      | [] =>
          Some (Err (urlError "Delete" (sessions_url d) io_EOF),
                sent (close_request d ctx sessionID) []
                     (pre_world d "CloseSession"
                        (close_request d Background sessionID) w))
      | Answer res :: rest =>
          let w1 := exchanged_under d "CloseSession"
                      (close_request d Background sessionID) ctx res rest w in
          if (300 <=? StatusCode res)%nat
          then Some (Err (errorString ("Error closing session, status "
                                       ++ Itoa (StatusCode res) ++ ": "
                                       ++ body_read d res)), w1)
          else Some (Ok tt, w1)
      | Failure err :: rest =>
          Some (Err err,
                sent (close_request d ctx sessionID) rest
                     (pre_world d "CloseSession"
                        (close_request d Background sessionID) w))
      end.
Proof.
  intros Hh. destruct (urls_of_a_valid_host d Hh) as (_ & Hu & _ & _).
  unfold CloseSession, http_NewRequest. rewrite Hu. cbn [try].
  rewrite (bind_ok _ (w:=w) (w':=w) eq_refl).
  rewrite round_trip_under_cases.
  change (AddCookie _ _) with (close_request d Background sessionID).
  rewrite (hooked_no_body d (close_request d Background sessionID) eq_refl).
  change (WithContext (close_request d Background sessionID) ctx)
    with (close_request d ctx sessionID).
  destruct (Done ctx (clock w)); [reflexivity|].
  destruct (script w) as [|[res|err] rest]; try reflexivity.
  rewrite received_StatusCode, received_body. cbv zeta.
  destruct (300 <=? StatusCode res)%nat; reflexivity.
Qed.

Lemma exchanged_under_clock d name req ctx res rest w :
  clock (exchanged_under d name req ctx res rest w) = clock w.
Proof.
  unfold exchanged_under, post_world, pre_world.
  destruct (logger d); cbn [andb]; try destruct (DumpResponse_ok _); reflexivity.
Qed.

Lemma exchanged_under_selects d name req ctx res rest w :
  selects (exchanged_under d name req ctx res rest w) = selects w.
Proof.
  unfold exchanged_under, post_world, pre_world.
  destruct (logger d); cbn [andb]; try destruct (DumpResponse_ok _); reflexivity.
Qed.

Lemma exchanged_under_reads d name req ctx res rest w :
  reads (exchanged_under d name req ctx res rest w) = reads w.
Proof.
  unfold exchanged_under, post_world, pre_world.
  destruct (logger d); cbn [andb]; try destruct (DumpResponse_ok _); reflexivity.
Qed.

Ltac one_call_done :=
  eexists; eexists; (split; [reflexivity|]);
  cbn [requests script clock selects reads sent];
  rewrite ?exchanged_under_requests, ?exchanged_under_script, ?exchanged_under_clock,
    ?exchanged_under_selects, ?exchanged_under_reads,
    ?pre_world_requests, ?pre_world_clock, ?pre_world_selects, ?pre_world_reads;
  rewrite ?hooked_no_body by reflexivity;
  repeat split; try reflexivity;
  first [left; reflexivity | right; reflexivity].

(** X16.  With a well-formed host name as the domain, [Authorize],
    [Session] and [CloseSession] each come to a result after exactly one
    call of the transport, whatever the provider does and whatever the
    token or the session identifier holds.  The request is the one
    described (the session identifier travels as the cookie [sid] and
    nowhere else), at most one reply is taken off the provider's script,
    and the code neither sleeps nor calls a handler. *)
Theorem one_call_per_operation :
  forall (d : Dance) (ctx : Context) (token : SessionToken) (sessionID : SessionID)
         (w : World),
    valid_host (oktaDomain d) = true ->
    Calls.one_call (Authorize d ctx token) (authorize_request d ctx token) w /\
    Calls.one_call (Session d ctx sessionID) (session_request d ctx sessionID) w /\
    Calls.one_call (CloseSession d ctx sessionID) (close_request d ctx sessionID) w.
Proof.
  intros d ctx token sessionID w Hh. unfold Calls.one_call.
  rewrite (Authorize_cases d ctx token w Hh), (Session_cases d ctx sessionID w Hh),
    (CloseSession_cases d ctx sessionID w Hh).
  destruct (Done ctx (clock w)).
  - split; [|split]; one_call_done.
  - destruct (script w) as [|[res|err] rest].
    + split; [|split]; one_call_done.
    + cbv zeta. split; [|split].
      * destruct (400 <=? StatusCode res)%nat; one_call_done.
      * destruct (Unmarshal Session_struct (body_read d res) (zero Session_struct))
          as [sess [err|]]; one_call_done.
      * destruct (300 <=? StatusCode res)%nat; one_call_done.
    + split; [|split]; one_call_done.
Qed.

Lemma one_call_per_operation_witness :
  Calls.one_call (Authorize dance (WithCancelAt 0) "a token/with?marks")
    (authorize_request dance (WithCancelAt 0) "a token/with?marks") (start []) /\
  Calls.one_call (Session dance Background "102")
    (session_request dance Background "102")
    (start [Failure (errorString "connection reset")]) /\
  Calls.one_call (CloseSession verbose_dance Background "102")
    (close_request verbose_dance Background "102") (start [reply 500 "no"]).
Proof.
  split; [|split].
  - apply (one_call_per_operation dance (WithCancelAt 0) "a token/with?marks" ""
             (start [])). vm_compute; reflexivity.
  - apply (one_call_per_operation dance Background "" "102"
             (start [Failure (errorString "connection reset")])).
    vm_compute; reflexivity.
  - apply (one_call_per_operation verbose_dance Background "" "102"
             (start [reply 500 "no"])).
    vm_compute; reflexivity.
Defined.

(** X17.  [CloseSession] judges the reply by its status code alone: a
    code below 300 is success, whatever the body; a code of 300 or more
    gives the error [Error closing session, status ], the code in
    decimal, a colon and the body as the operation read it. *)
Theorem CloseSession_outcome :
  forall (d : Dance) (ctx : Context) (sessionID : SessionID) (w : World)
         (res : Response) (rest : list Reply),
    valid_host (oktaDomain d) = true ->
    Done ctx (clock w) = false ->
    script w = Answer res :: rest ->
    exists w' : World,
      CloseSession d ctx sessionID w
        = Some ((if (StatusCode res <? 300)%nat then Ok tt
                 else Err (errorString ("Error closing session, status "
                                        ++ Itoa (StatusCode res) ++ ": "
                                        ++ body_read d res))), w') /\
      requests w' = (requests w ++ [close_request d ctx sessionID])%list /\
      script w' = rest.
Proof.
  intros d ctx sessionID w res rest Hh Hd Hs.
  rewrite (CloseSession_cases d ctx sessionID w Hh), Hd, Hs. cbv zeta.
  rewrite Nat.ltb_antisym.
  destruct (300 <=? StatusCode res)%nat; cbn [negb];
    (eexists; split; [reflexivity|]);
    rewrite exchanged_under_requests, exchanged_under_script;
    rewrite (hooked_no_body d (close_request d Background sessionID) eq_refl);
    split; reflexivity.
Qed.

Lemma CloseSession_outcome_witness :
  (exists w' : World,
     CloseSession dance Background "102" (start [reply 204 ""]) = Some (Ok tt, w')) /\
  (exists w' : World,
     CloseSession dance Background "102" (start [reply 404 "not found"])
     = Some (Err (errorString "Error closing session, status 404: not found"), w')).
Proof.
  split.
  - destruct (CloseSession_outcome dance Background "102" (start [reply 204 ""])
                {| StatusCode := 204; ResHeader := []; ResBody := "" |} [])
      as (w' & Hrun & _).
    + vm_compute; reflexivity.
    + reflexivity.
    + reflexivity.
    + exists w'. exact Hrun.
  - destruct (CloseSession_outcome dance Background "102"
                (start [reply 404 "not found"])
                {| StatusCode := 404; ResHeader := []; ResBody := "not found" |} [])
      as (w' & Hrun & _).
    + vm_compute; reflexivity.
    + reflexivity.
    + reflexivity.
    + exists w'. exact Hrun.
Defined.

(** X18.  A caller who has cancelled before the call gets the
    cancellation back from [Authorize], [Session] and [CloseSession]:
    the error of the transport around [context canceled], named after
    the method and the address, and no reply is taken off the
    provider's script. *)
Theorem done_context_stops_the_operations :
  forall (d : Dance) (ctx : Context) (token : SessionToken) (sessionID : SessionID)
         (w : World),
    valid_host (oktaDomain d) = true ->
    Done ctx (clock w) = true ->
    (exists w' : World,
       Authorize d ctx token w
         = Some (Err (urlError "Get" (authorize_url d ++ "?"
                                        ++ Encode (authorize_query d token))
                               context_Canceled), w') /\
       script w' = script w) /\
    (exists w' : World,
       Session d ctx sessionID w
         = Some (Err (urlError "Get" (sessions_url d) context_Canceled), w') /\
       script w' = script w) /\
    (exists w' : World,
       CloseSession d ctx sessionID w
         = Some (Err (urlError "Delete" (sessions_url d) context_Canceled), w') /\
       script w' = script w).
Proof.
  intros d ctx token sessionID w Hh Hd.
  rewrite (Authorize_cases d ctx token w Hh), (Session_cases d ctx sessionID w Hh),
    (CloseSession_cases d ctx sessionID w Hh), Hd.
  split; [|split]; eexists; split; reflexivity.
Qed.

Lemma done_context_stops_the_operations_witness :
  exists w' : World,
    Session dance (WithCancelAt 3) "102"
      (slept 3 (start [Answer (answer 200 "{'id':'102'}")]))
    = Some (Err (urlError "Get" "https://example.okta.com/api/v1/sessions/me"
                          context_Canceled), w') /\
    script w' = [Answer (answer 200 "{'id':'102'}")].
Proof.
  destruct (done_context_stops_the_operations dance (WithCancelAt 3) "" "102"
              (slept 3 (start [Answer (answer 200 "{'id':'102'}")])))
    as (_ & (w' & Hrun & Hscript) & _).
  - vm_compute; reflexivity.
  - reflexivity.
  - exists w'. split; [exact Hrun | exact Hscript].
Defined.

(** X19.  A failure of the transport is returned as it is by
    [Authorize], [Session] and [CloseSession]: none of them wraps it,
    reads a body or tries again. *)
Theorem transport_failure_is_returned :
  forall (d : Dance) (ctx : Context) (token : SessionToken) (sessionID : SessionID)
         (w : World) (err : error) (rest : list Reply),
    valid_host (oktaDomain d) = true ->
    Done ctx (clock w) = false ->
    script w = Failure err :: rest ->
    (exists w' : World,
       Authorize d ctx token w = Some (Err err, w') /\ script w' = rest) /\
    (exists w' : World,
       Session d ctx sessionID w = Some (Err err, w') /\ script w' = rest) /\
    (exists w' : World,
       CloseSession d ctx sessionID w = Some (Err err, w') /\ script w' = rest).
Proof.
  intros d ctx token sessionID w err rest Hh Hd Hs.
  rewrite (Authorize_cases d ctx token w Hh), (Session_cases d ctx sessionID w Hh),
    (CloseSession_cases d ctx sessionID w Hh), Hd, Hs.
  split; [|split]; eexists; split; reflexivity.
Qed.

Lemma transport_failure_is_returned_witness :
  exists w' : World,
    Authorize dance Background "tok"
      (start [Failure (errorString "no route to host"); reply 200 ""])
    = Some (Err (errorString "no route to host"), w') /\
    script w' = [reply 200 ""].
Proof.
  destruct (transport_failure_is_returned dance Background "tok" ""
              (start [Failure (errorString "no route to host"); reply 200 ""])
              (errorString "no route to host") [reply 200 ""])
    as ((w' & Hrun & Hscript) & _).
  - vm_compute; reflexivity.
  - reflexivity.
  - reflexivity.
  - exists w'. split; [exact Hrun | exact Hscript].
Defined.

(** *** The log *)

Lemma exchanged_under_logged d name req ctx res rest w :
  logged (exchanged_under d name req ctx res rest w)
  = (logged w ++ (if logger d
                  then DumpRequest name (hooked d req)
                       :: (if DumpResponse_ok (received d res)
                           then [DumpResponse name (received d res)]
                           else [])
                  else []))%list.
Proof.
  unfold exchanged_under, post_world, pre_world.
  destruct (logger d); cbn [andb].
  - destruct (DumpResponse_ok (received d res)); cbn [logged with_log sent].
    + rewrite <- app_assoc. reflexivity.
    + reflexivity.
  - cbn [logged sent]. rewrite app_nil_r. reflexivity.
Qed.

(** X20.  What an answered call leaves in the log.  With a logger, the
    operation logs the request before the call, under its own name and
    as the request was before the caller's context was attached.  The
    reply is logged after the call only when [httputil.DumpResponse]
    gives its dump: [post] returns before the logging function
    otherwise, and the dump fails when pretty printing has replaced the
    body of a reply that declared another length.  Without a logger
    nothing is logged.  This is so whether the operation then succeeds
    or fails on the reply. *)
Theorem answered_call_is_logged :
  forall (d : Dance) (ctx : Context) (token : SessionToken) (sessionID : SessionID)
         (w : World) (res : Response) (rest : list Reply),
    valid_host (oktaDomain d) = true ->
    Done ctx (clock w) = false ->
    script w = Answer res :: rest ->
    (exists (r : Result SessionID) (w' : World),
       Authorize d ctx token w = Some (r, w') /\
       logged w'
       = (logged w
          ++ (if logger d
              then DumpRequest "Authorize" (authorize_request d Background token)
                   :: (if DumpResponse_ok (received d res)
                       then [DumpResponse "Authorize" (received d res)] else [])
              else []))%list) /\
    (exists (r : Result goval) (w' : World),
       Session d ctx sessionID w = Some (r, w') /\
       logged w'
       = (logged w
          ++ (if logger d
              then DumpRequest "Session" (session_request d Background sessionID)
                   :: (if DumpResponse_ok (received d res)
                       then [DumpResponse "Session" (received d res)] else [])
              else []))%list) /\
    (exists (r : Result unit) (w' : World),
       CloseSession d ctx sessionID w = Some (r, w') /\
       logged w'
       = (logged w
          ++ (if logger d
              then DumpRequest "CloseSession" (close_request d Background sessionID)
                   :: (if DumpResponse_ok (received d res)
                       then [DumpResponse "CloseSession" (received d res)] else [])
              else []))%list).
Proof.
  intros d ctx token sessionID w res rest Hh Hd Hs.
  rewrite (Authorize_cases d ctx token w Hh), (Session_cases d ctx sessionID w Hh),
    (CloseSession_cases d ctx sessionID w Hh), Hd, Hs. cbv zeta.
  split; [|split].
  - destruct (400 <=? StatusCode res)%nat; eexists; eexists;
      (split; [reflexivity|]); rewrite exchanged_under_logged;
      rewrite (hooked_no_body d (authorize_request d Background token) eq_refl);
      reflexivity.
  - destruct (Unmarshal Session_struct (body_read d res) (zero Session_struct))
      as [sess [err|]]; eexists; eexists;
      (split; [reflexivity|]); rewrite exchanged_under_logged;
      rewrite (hooked_no_body d (session_request d Background sessionID) eq_refl);
      reflexivity.
  - destruct (300 <=? StatusCode res)%nat; eexists; eexists;
      (split; [reflexivity|]); rewrite exchanged_under_logged;
      rewrite (hooked_no_body d (close_request d Background sessionID) eq_refl);
      reflexivity.
Qed.

Lemma answered_call_is_logged_witness :
  (exists (r : Result unit) (w' : World),
     CloseSession verbose_dance (WithCancelAt 9) "102" (start [reply 500 "[broken"])
     = Some (r, w') /\
     logged w'
     = [DumpRequest "CloseSession" (close_request verbose_dance Background "102");
        DumpResponse "CloseSession"
          {| StatusCode := 500; ResHeader := []; ResBody := "{}" |}]) /\
  (exists (r : Result goval) (w' : World),
     Session verbose_dance Background "102"
       (start [Answer {| StatusCode := 200; ResHeader := [("Content-Length", "12")];
                         ResBody := q "{'id':'102'}" |}])
     = Some (r, w') /\
     logged w'
     = [DumpRequest "Session" (session_request verbose_dance Background "102")]).
Proof.
  split.
  - destruct (answered_call_is_logged verbose_dance (WithCancelAt 9) "" "102"
                (start [reply 500 "[broken"])
                {| StatusCode := 500; ResHeader := []; ResBody := "[broken" |} [])
      as (_ & _ & (r & w' & Hrun & Hlog)).
    + vm_compute; reflexivity.
    + reflexivity.
    + reflexivity.
    + exists r, w'. split; [exact Hrun|]. rewrite Hlog. vm_compute; reflexivity.
  - destruct (answered_call_is_logged verbose_dance Background "" "102"
                (start [Answer {| StatusCode := 200;
                                  ResHeader := [("Content-Length", "12")];
                                  ResBody := q "{'id':'102'}" |}])
                {| StatusCode := 200; ResHeader := [("Content-Length", "12")];
                   ResBody := q "{'id':'102'}" |} [])
      as (_ & (r & w' & Hrun & Hlog) & _).
    + vm_compute; reflexivity.
    + reflexivity.
    + reflexivity.
    + exists r, w'. split; [exact Hrun|]. rewrite Hlog. vm_compute; reflexivity.
Defined.

(** *** The first version of the library *)

(** X21.  The hooks changed nothing for a client without options: the
    [Authorize], [Session] and [CloseSession] of the first version run
    exactly as those of the later version do on the client built from
    the same domain and client identifier, on every context, argument
    and provider. *)
Theorem first_version_agrees_without_options :
  forall (d : Legacy.Dance) (ctx : Context) (token : SessionToken)
         (sessionID : SessionID) (w : World),
    Legacy.Authorize d ctx token w = Authorize (Legacy.later d) ctx token w /\
    Legacy.Session d ctx sessionID w = Session (Legacy.later d) ctx sessionID w /\
    Legacy.CloseSession d ctx sessionID w = CloseSession (Legacy.later d) ctx sessionID w.
Proof.
  intros d ctx token sessionID w.
  split; [|split].
  - unfold Legacy.Authorize, Authorize, authorize_url, authorize_query.
    change (oktaDomain (Legacy.later d)) with (Legacy.oktaDomain d).
    change (clientID (Legacy.later d)) with (Legacy.clientID d).
    destruct (url_Parse ("https://" ++ Legacy.oktaDomain d ++ "/oauth2/v1/authorize"))
      as [u|e]; [|reflexivity].
    cbn [try]. rewrite !(bind_ok _ (w:=w) (w':=w) eq_refl).
    destruct (http_NewRequest "GET" _ None) as [req|e]; [|reflexivity].
    cbn [try]. rewrite !(bind_ok _ (w:=w) (w':=w) eq_refl).
    unfold bind. destruct (Do _ w) as [[[res|e|msg] w1]|]; reflexivity.
  - unfold Legacy.Session, Session, sessions_url.
    change (oktaDomain (Legacy.later d)) with (Legacy.oktaDomain d).
    destruct (http_NewRequest "GET" _ None) as [req|e]; [|reflexivity].
    cbn [try]. rewrite !(bind_ok _ (w:=w) (w':=w) eq_refl).
    unfold bind. destruct (Do _ w) as [[[res|e|msg] w1]|]; reflexivity.
  - unfold Legacy.CloseSession, CloseSession, sessions_url.
    change (oktaDomain (Legacy.later d)) with (Legacy.oktaDomain d).
    destruct (http_NewRequest "DELETE" _ None) as [req|e]; [|reflexivity].
    cbn [try]. rewrite !(bind_ok _ (w:=w) (w':=w) eq_refl).
    unfold bind. destruct (Do _ w) as [[[res|e|msg] w1]|]; reflexivity.
Qed.

(** Members that are not the session token leave the answer of the
    first version as it was. *)
Lemma no_token_member (l : list (string * json)) (cur : goval) (saved : option error) :
  Forall (fun kv => equalFold "sessionToken" (fst kv) = false) l ->
  decode Legacy.authnResponse cur (JObj l) saved = (cur, Go_on saved).
Proof.
  intros Hall. unfold Legacy.authnResponse. cbn [decode].
  revert cur saved. induction Hall as [|[k v] l Hk Hall IH]; intros cur saved;
    [reflexivity|].
  cbn [fst] in Hk.
  assert (He : String.eqb "sessionToken" k = false).
  { destruct (String.eqb_spec "sessionToken" k) as [E|_]; [|reflexivity].
    subst k. vm_compute in Hk. discriminate Hk. }
  unfold find_field. cbn [find_exact find_fold]. rewrite He, Hk.
  apply IH.
Qed.

(** X22.  The [Authenticate] of the first version does not look at the
    status of the answer.  When the provider answers with a JSON object
    that has no member named [sessionToken], in any letter case and
    whatever else the object holds (as the answers for a locked account
    and for a required second factor do), the operation returns the
    empty session token and no error, after its one request and
    whatever the status code. *)
Theorem first_version_ignores_the_status :
  forall (d : Legacy.Dance) (ctx : Context) (username password : string)
         (code : nat) (header : list (string * string)) (body : string)
         (members : list (string * json)) (w : World) (rest : list Reply),
    valid_host (Legacy.oktaDomain d) = true ->
    Done ctx (clock w) = false ->
    script w = Answer {| StatusCode := code; ResHeader := header; ResBody := body |}
                 :: rest ->
    parse body = Some (JObj members) ->
    Forall (fun kv => equalFold "sessionToken" (fst kv) = false) members ->
    exists w' : World,
      Legacy.Authenticate d ctx username password w = Some (Ok "", w') /\
      List.length (requests w') = S (List.length (requests w)) /\
      script w' = rest.
Proof.
  intros d ctx username password code header body members w rest Hh Hd Hs Hp Hall.
  destruct (urls_of_a_valid_host (Legacy.later d) Hh) as (Hu & _).
  change (authn_url (Legacy.later d))
    with ("https://" ++ Legacy.oktaDomain d ++ "/api/v1/authn") in Hu.
  unfold Legacy.Authenticate, http_NewRequest. rewrite Hu. cbn [try].
  rewrite (bind_ok _ (w:=w) (w':=w) eq_refl).
  unfold bind, Do. cbn [Ctx WithContext]. rewrite Hd, Hs.
  cbn [ResBody]. unfold Unmarshal. rewrite Hp, (no_token_member members _ None Hall).
  eexists. split; [reflexivity|].
  cbn [requests script sent]. rewrite length_app. cbn [List.length].
  split; [lia | reflexivity].
Qed.

Lemma first_version_ignores_the_status_witness :
  exists w' : World,
    Legacy.Authenticate (Legacy.New "example.okta.com") Background "user" "pass"
      (start [Answer (mfa_required (push_json ++ "," ++ totp_json))])
    = Some (Ok "", w') /\
    List.length (requests w') = 1.
Proof.
  destruct (first_version_ignores_the_status (Legacy.New "example.okta.com")
              Background "user" "pass" 200 []
              (ResBody (mfa_required (push_json ++ "," ++ totp_json)))
              (match parse (ResBody (mfa_required (push_json ++ "," ++ totp_json))) with
               | Some (JObj l) => l
               | _ => []
               end)
              (start [Answer (mfa_required (push_json ++ "," ++ totp_json))]) [])
    as (w' & Hrun & Hreq & _).
  - vm_compute; reflexivity.
  - reflexivity.
  - reflexivity.
  - vm_compute; reflexivity.
  - vm_compute. repeat (apply Forall_cons; [reflexivity|]). apply Forall_nil.
  - exists w'. split; [exact Hrun | exact Hreq].
Defined.

(** *** The console handler *)

Lemma Select_rounds_outcome (factors : list Factor) :
  forall (lines : list string) (shown : list Console.Event),
    (exists (f : Factor) (t' : Console.Terminal) (n : nat),
       Console.Select_rounds factors lines shown = ((Some f, None), t') /\
       In f factors /\ Console.input t' = skipn (S n) lines /\ n < List.length lines) \/
    (exists t' : Console.Terminal,
       Console.Select_rounds factors lines shown = ((None, Some io_EOF), t') /\
       Console.input t' = []).
Proof.
  induction lines as [|line rest IH]; intros shown.
  - right. eexists. split; reflexivity.
  - cbn [Console.Select_rounds].
    assert (Hnext : forall shown',
              (exists (f : Factor) (t' : Console.Terminal) (n : nat),
                 Console.Select_rounds factors rest shown' = ((Some f, None), t') /\
                 In f factors /\ Console.input t' = skipn (S n) (line :: rest) /\
                 n < List.length (line :: rest)) \/
              (exists t' : Console.Terminal,
                 Console.Select_rounds factors rest shown' = ((None, Some io_EOF), t') /\
                 Console.input t' = [])).
    { intros shown'.
      destruct (IH shown') as [(f & t' & n & Hrun & Hin & Hinput & Hn)|Heof].
      - left. exists f, t', (S n). repeat split; try assumption.
        cbn [List.length]. lia.
      - right. exact Heof. }
    destruct (Console.Atoi (Console.TrimSpace line)) as [idx|]; [|apply Hnext].
    destruct (Console.offered factors idx) as [f|] eqn:Ef; [|apply Hnext].
    left. exists f, {| Console.input := rest;
                       Console.shown := (shown ++ Console.menu factors)%list |}, 0.
    repeat split.
    + unfold Console.offered in Ef. destruct (idx <? 0)%Z; [discriminate Ef|].
      exact (nth_error_In _ _ Ef).
    + cbn [List.length]. lia.
Qed.

(** X23.  The console's [Select] never returns a nil factor without an
    error.  Whatever is typed, it either returns one of the factors it
    was given, having read at least one line, or it reaches the end of
    the input and returns [io.EOF]; a line that is not the number of a
    factor only makes it ask again. *)
Theorem console_Select_outcome :
  forall (factors : list Factor) (t : Console.Terminal),
    (exists (f : Factor) (t' : Console.Terminal) (n : nat),
       Console.Select factors t = ((Some f, None), t') /\
       In f factors /\
       Console.input t' = skipn (S n) (Console.input t) /\
       n < List.length (Console.input t)) \/
    (exists t' : Console.Terminal,
       Console.Select factors t = ((None, Some io_EOF), t') /\
       Console.input t' = []).
Proof.
  intros factors t. unfold Console.Select. apply Select_rounds_outcome.
Qed.

(** The decimal digits [Itoa] writes. *)
Lemma append_empty_r (s : string) : s ++ "" = s.
Proof. induction s as [|c s IH]; cbn [append]; [reflexivity | rewrite IH; reflexivity]. Qed.

Lemma digits_value_app (s t : string) (a : Z) :
  digits_value (s ++ t) a = digits_value t (digits_value s a).
Proof.
  revert a. induction s as [|c s IH]; intros a; cbn [append digits_value];
    [reflexivity | apply IH].
Qed.

Lemma digit_code (k : nat) :
  k < 10 -> code (chr (48 + N.of_nat k)) = (48 + N.of_nat k)%N.
Proof. intros Hk. unfold code, chr. apply N_ascii_embedding. lia. Qed.

Lemma digit_is_digit (k : nat) : k < 10 -> is_digit (chr (48 + N.of_nat k)) = true.
Proof.
  intros Hk. unfold is_digit, between. rewrite (digit_code k Hk).
  apply andb_true_iff. split; apply N.leb_le; lia.
Qed.

Lemma digits_spec :
  forall (fuel n : nat) (acc : string),
    n < fuel ->
    exists s : string,
      digits fuel n acc = s ++ acc /\
      s <> "" /\
      forallb_chars is_digit s = true /\
      digits_value s 0 = Z.of_nat n.
Proof.
  induction fuel as [|fuel IH]; intros n acc Hn; [lia|].
  cbn [digits].
  assert (Hk : n mod 10 < 10) by (apply Nat.mod_upper_bound; lia).
  pose proof (Nat.div_mod_eq n 10) as Hdm.
  destruct (n / 10 =? 0)%nat eqn:Ez.
  - apply Nat.eqb_eq in Ez.
    exists (String (chr (48 + N.of_nat (n mod 10))) "").
    repeat split.
    + discriminate.
    + cbn [forallb_chars]. rewrite (digit_is_digit _ Hk). reflexivity.
    + cbn [digits_value]. rewrite (digit_code _ Hk).
      replace (48 + N.of_nat (n mod 10) - 48)%N with (N.of_nat (n mod 10)) by lia.
      rewrite nat_N_Z. lia.
  - apply Nat.eqb_neq in Ez.
    destruct (IH (n / 10) (String (chr (48 + N.of_nat (n mod 10))) acc))
      as (s & Hs & Hne & Hall & Hval); [lia|].
    exists (s ++ String (chr (48 + N.of_nat (n mod 10))) "").
    repeat split.
    + rewrite Hs, append_assoc. reflexivity.
    + destruct s; [congruence | discriminate].
    + rewrite forallb_chars_app, Hall. cbn [forallb_chars].
      rewrite (digit_is_digit _ Hk). reflexivity.
    + rewrite digits_value_app, Hval. cbn [digits_value]. rewrite (digit_code _ Hk).
      replace (48 + N.of_nat (n mod 10) - 48)%N with (N.of_nat (n mod 10)) by lia.
      rewrite nat_N_Z. lia.
Qed.

Lemma Itoa_spec (n : nat) :
  Itoa n <> "" /\
  forallb_chars is_digit (Itoa n) = true /\
  digits_value (Itoa n) 0 = Z.of_nat n.
Proof.
  unfold Itoa.
  destruct (digits_spec (S n) n "" (Nat.lt_succ_diag_r n)) as (s & Hs & Hne & Hall & Hval).
  rewrite Hs, append_empty_r. repeat split; assumption.
Qed.

Lemma digit_is_no_sign (c : ascii) :
  is_digit c = true -> Ascii.eqb c "-"%char = false /\ Ascii.eqb c "+"%char = false.
Proof.
  destruct c as [[] [] [] [] [] [] [] []]; vm_compute; intros H;
    first [discriminate H | split; reflexivity].
Qed.

(** [Atoi] reads back what [Itoa] wrote. *)
Lemma Atoi_Itoa (n : nat) :
  (Z.of_nat n <= 9223372036854775807)%Z ->
  Console.Atoi (Itoa n) = Some (Z.of_nat n).
Proof.
  intros Hmax. destruct (Itoa_spec n) as (Hne & Hall & Hval).
  unfold Console.Atoi.
  destruct (Itoa n) as [|c r] eqn:E; [congruence|].
  pose proof Hall as Hall'. cbn [forallb_chars] in Hall'.
  apply andb_true_iff in Hall'. destruct Hall' as [Hc _].
  destruct (digit_is_no_sign c Hc) as [Hm Hp]. rewrite Hm, Hp.
  rewrite Hall. cbn [String.eqb negb andb]. rewrite Hval.
  assert (H1 : (-9223372036854775808 <=? Z.of_nat n)%Z = true) by (apply Z.leb_le; lia).
  assert (H2 : (Z.of_nat n <=? 9223372036854775807)%Z = true) by (apply Z.leb_le; lia).
  rewrite H1, H2. reflexivity.
Qed.

Lemma digit_is_no_space (c : ascii) (r : string) :
  is_digit c = true ->
  Console.after_space Console.wide_spaces (String c r) = None /\
  Console.after_space (map Console.reversed Console.wide_spaces) (String c r) = None.
Proof.
  destruct c as [[] [] [] [] [] [] [] []]; intros H; vm_compute in H;
    first [discriminate H | split; reflexivity].
Qed.

Lemma trim_head_digits (fuel : nat) (s : string) :
  forallb_chars is_digit s = true ->
  Console.trim_head fuel Console.wide_spaces s = s /\
  Console.trim_head fuel (map Console.reversed Console.wide_spaces) s = s.
Proof.
  intros Hall. destruct fuel as [|fuel]; [split; reflexivity|].
  destruct s as [|c r]; [split; reflexivity|].
  cbn [forallb_chars] in Hall. apply andb_true_iff in Hall. destruct Hall as [Hc _].
  destruct (digit_is_no_space c r Hc) as [H1 H2].
  cbn [Console.trim_head]. rewrite H1, H2. split; reflexivity.
Qed.

Lemma forallb_chars_rev (p : ascii -> bool) (s acc : string) :
  forallb_chars p (rev_string s acc) = forallb_chars p s && forallb_chars p acc.
Proof.
  revert acc. induction s as [|c s IH]; intros acc; cbn [rev_string forallb_chars];
    [reflexivity|].
  rewrite IH. cbn [forallb_chars].
  destruct (p c), (forallb_chars p s), (forallb_chars p acc); reflexivity.
Qed.

Lemma rev_string_twice (s acc acc' : string) :
  rev_string (rev_string s acc) acc' = rev_string acc (s ++ acc').
Proof.
  revert acc acc'. induction s as [|c s IH]; intros acc acc'; cbn [rev_string append];
    [reflexivity|].
  rewrite IH. reflexivity.
Qed.

Lemma TrimSpace_digits (s : string) :
  forallb_chars is_digit s = true -> Console.TrimSpace s = s.
Proof.
  intros Hall. unfold Console.TrimSpace.
  destruct (trim_head_digits (String.length s) s Hall) as [H1 _]. rewrite H1.
  assert (Hrev : forallb_chars is_digit (Console.reversed s) = true).
  { unfold Console.reversed. rewrite forallb_chars_rev, Hall. reflexivity. }
  destruct (trim_head_digits (String.length s) (Console.reversed s) Hrev) as [_ H2].
  rewrite H2. unfold Console.reversed. rewrite rev_string_twice.
  cbn [rev_string]. apply append_empty_r.
Qed.

(** X24.  The numbers of the menu work.  The menu shows each factor
    under its position, written by [strconv.Itoa]; when the person types
    that number, [Select] reads it back with [strconv.Atoi] and returns
    the factor at that position, after one round and with no error. *)
Theorem typing_the_number_selects_the_factor :
  forall (factors : list Factor) (i : nat) (f : Factor) (rest : list string)
         (shown : list Console.Event),
    nth_error factors i = Some f ->
    (Z.of_nat i <= 9223372036854775807)%Z ->
    Console.Select factors {| Console.input := Itoa i :: rest; Console.shown := shown |}
    = ((Some f, None),
       {| Console.input := rest;
          Console.shown := (shown ++ Console.menu factors)%list |}).
Proof.
  intros factors i f rest shown Hf Hmax.
  unfold Console.Select. cbn [Console.input Console.shown Console.Select_rounds].
  destruct (Itoa_spec i) as (_ & Hall & _).
  rewrite (TrimSpace_digits (Itoa i) Hall), (Atoi_Itoa i Hmax).
  unfold Console.offered.
  destruct (Z.of_nat i <? 0)%Z eqn:E; [apply Z.ltb_lt in E; lia|].
  rewrite Nat2Z.id, Hf. reflexivity.
Qed.

Lemma typing_the_number_selects_the_factor_witness :
  Console.Select [pushFactor push; inputFactor totp]
    {| Console.input := ["1"; "000000"]; Console.shown := [] |}
  = ((Some (inputFactor totp), None),
     {| Console.input := ["000000"];
        Console.shown := Console.menu [pushFactor push; inputFactor totp] |}).
Proof.
  apply (typing_the_number_selects_the_factor [pushFactor push; inputFactor totp] 1
           (inputFactor totp) ["000000"] []).
  - reflexivity.
  - vm_compute. discriminate.
Defined.

(** *** The handler of the tests and the whole flow *)

Lemma factors_map (ouae : goval) :
  oktaUserAuthnEmbedded_factors ouae = map oktaUserAuthnFactor_factor (Factors ouae).
Proof.
  unfold oktaUserAuthnEmbedded_factors.
  assert (H : forall (l : list goval) (acc : list Factor),
             fold_left (fun rs f => (rs ++ [oktaUserAuthnFactor_factor f])%list) l acc
             = (acc ++ map oktaUserAuthnFactor_factor l)%list).
  { induction l as [|x l IH]; intros acc; cbn [fold_left map].
    - rewrite app_nil_r. reflexivity.
    - rewrite IH, <- app_assoc. reflexivity. }
  apply H.
Qed.

Lemma factor_type_kept (o : goval) :
  factorType (the_factor (oktaUserAuthnFactor_factor o)) = FactorType o.
Proof.
  unfold oktaUserAuthnFactor_factor.
  destruct (String.eqb (FactorType o) "push"); reflexivity.
Qed.

(** X25.  The handler of the MFA test and the provider's factors.  On
    the factors of an answer, [testMFA.Select] returns the first one
    whose type is [push], and that factor runs the push protocol, so the
    test never needs a code; when no factor has that type it returns its
    error and no factor. *)
Theorem test_handler_picks_a_push_factor :
  forall ouae : goval,
    match Tests.testMFA_Select (oktaUserAuthnEmbedded_factors ouae) with
    | (Some f, None) =>
        exists (before : list goval) (o : goval) (after : list goval),
          Factors ouae = (before ++ o :: after)%list /\
          Forall (fun b => FactorType b <> "push") before /\
          FactorType o = "push" /\
          f = pushFactor {| id := ID o; provider := Provider o; factorType := "push" |}
    | (None, Some e) =>
        e = errorString "test requires push type" /\
        Forall (fun o => FactorType o <> "push") (Factors ouae)
    | _ => False
    end.
Proof.
  intros ouae. rewrite factors_map.
  induction (Factors ouae) as [|o l IH]; cbn [map Tests.testMFA_Select].
  - split; [reflexivity | constructor].
  - rewrite factor_type_kept.
    destruct (String.eqb_spec (FactorType o) "push") as [E|E].
    + exists [], o, l. repeat split; [constructor | exact E |].
      unfold oktaUserAuthnFactor_factor. rewrite E. reflexivity.
    + destruct (Tests.testMFA_Select (map oktaUserAuthnFactor_factor l))
        as [[f|] [e|]]; try exact IH.
      * destruct IH as (before & o' & after & Hl & Hb & Ho & Hf).
        exists (o :: before), o', after. rewrite Hl.
        repeat split; [constructor; assumption | exact Ho | exact Hf].
      * destruct IH as [He Hall]. split; [exact He | constructor; assumption].
Qed.

(** X26.  The whole flow composes.  When the provider answers the
    primary request with [SUCCESS], the authorize request with a status
    below 400, the two session requests with sessions of the user and
    the request to close with a status below 300, the test
    [TestDance_WholeFlow_NoMFA] passes; it makes these five requests in
    this order, the session token of the first answer going into the
    authorize request and the last [sid] cookie of the second answer
    into the three that follow. *)
Theorem whole_flow_passes :
  forall (fuel : nat) (domain user pass clientId : string) (w : World)
         (r1 r2 r3 r4 r5 : Response) (rest : list Reply) (ar s3 s4 : goval),
    valid_host domain = true ->
    script w = (Answer r1 :: Answer r2 :: Answer r3 :: Answer r4 :: Answer r5
                :: rest)%list ->
    Unmarshal oktaUserAuthn (ResBody r1) (zero oktaUserAuthn) = (ar, None) ->
    Status ar = "SUCCESS" ->
    StatusCode r2 < 400 ->
    Unmarshal Session_struct (ResBody r3) (zero Session_struct) = (s3, None) ->
    Login s3 = user ->
    Unmarshal Session_struct (ResBody r4) (zero Session_struct) = (s4, None) ->
    Login s4 = user ->
    StatusCode r5 < 300 ->
    exists w' : World,
      Tests.TestDance_WholeFlow_NoMFA fuel domain user pass clientId w
        = Some (Ok tt, w') /\
      requests w'
      = (requests w
         ++ [authn_request (WithClientID clientId (New domain)) Background user pass;
             authorize_request (WithClientID clientId (New domain)) Background
               (sessionToken ar);
             session_request (WithClientID clientId (New domain)) Background
               (last_sid (Cookies r2));
             session_request (WithClientID clientId (New domain)) Background
               (last_sid (Cookies r2));
             close_request (WithClientID clientId (New domain)) Background
               (last_sid (Cookies r2))])%list /\
      script w' = rest.
Proof.
  intros fuel domain user pass clientId w r1 r2 r3 r4 r5 rest ar s3 s4
         Hh Hs Hd1 Hst H2 Hd3 Hl3 Hd4 Hl4 H5.
  set (d := WithClientID clientId (New domain)).
  assert (Hhd : valid_host (oktaDomain d) = true) by exact Hh.
  destruct (urls_of_a_valid_host d Hhd) as (Hu & _).
  set (w1 := exchanged d "Authenticate" (authn_request d Background user pass) r1
               (Answer r2 :: Answer r3 :: Answer r4 :: Answer r5 :: rest) w).
  assert (E1 : Authenticate fuel d Background user pass None w
               = Some (Ok (sessionToken ar), w1)).
  { rewrite (Authenticate_exchange fuel d Background user pass None w r1 _ ar None
               Hu eq_refl Hs Hd1).
    cbv zeta. rewrite Hst. reflexivity. }
  set (w2 := exchanged_under d "Authorize"
               (authorize_request d Background (sessionToken ar)) Background r2
               (Answer r3 :: Answer r4 :: Answer r5 :: rest) w1).
  assert (E2 : Authorize d Background (sessionToken ar) w1
               = Some (Ok (last_sid (Cookies r2)), w2)).
  { rewrite (Authorize_cases d Background (sessionToken ar) w1 Hhd).
    cbn [Done]. unfold w1 at 1. rewrite exchanged_script. cbv zeta.
    destruct (Nat.leb_spec 400 (StatusCode r2)) as [H|_]; [lia|]. reflexivity. }
  set (sid := last_sid (Cookies r2)) in *.
  set (w3 := exchanged_under d "Session" (session_request d Background sid) Background
               r3 (Answer r4 :: Answer r5 :: rest) w2).
  assert (E3 : Session d Background sid w2 = Some (Ok s3, w3)).
  { rewrite (Session_cases d Background sid w2 Hhd).
    cbn [Done]. unfold w2 at 1. rewrite exchanged_under_script. cbv zeta.
    change (body_read d r3) with (ResBody r3). rewrite Hd3. reflexivity. }
  set (w4 := exchanged_under d "Session" (session_request d Background sid) Background
               r4 (Answer r5 :: rest) w3).
  assert (E4 : Session d Background sid w3 = Some (Ok s4, w4)).
  { rewrite (Session_cases d Background sid w3 Hhd).
    cbn [Done]. unfold w3 at 1. rewrite exchanged_under_script. cbv zeta.
    change (body_read d r4) with (ResBody r4). rewrite Hd4. reflexivity. }
  set (w5 := exchanged_under d "CloseSession" (close_request d Background sid)
               Background r5 rest w4).
  assert (E5 : CloseSession d Background sid w4 = Some (Ok tt, w5)).
  { rewrite (CloseSession_cases d Background sid w4 Hhd).
    cbn [Done]. unfold w4 at 1. rewrite exchanged_under_script. cbv zeta.
    destruct (Nat.leb_spec 300 (StatusCode r5)) as [H|_]; [lia|]. reflexivity. }
  assert (Eq : forall it, Login it = user ->
                 forall w0, Tests.require_Equal user (Login it) w0 = Some (Ok tt, w0)).
  { intros it Hit w0. unfold Tests.require_Equal. rewrite Hit, String.eqb_refl.
    reflexivity. }
  exists w5. split; [|split].
  - unfold Tests.TestDance_WholeFlow_NoMFA, Tests.require_NoError. cbv zeta.
    fold d.
    rewrite (bind_ok _ E1), (bind_ok _ E2), (bind_ok _ E3), (bind_ok _ (Eq s3 Hl3 w3)),
      (bind_ok _ E4), (bind_ok _ (Eq s4 Hl4 w4)).
    exact E5.
  - unfold w5, w4, w3, w2, w1.
    rewrite !exchanged_under_requests, exchanged_requests.
    change (hooked d (authn_request d Background user pass))
      with (authn_request d Background user pass).
    rewrite (hooked_no_body d (authorize_request d Background (sessionToken ar)) eq_refl),
      (hooked_no_body d (session_request d Background sid) eq_refl),
      (hooked_no_body d (close_request d Background sid) eq_refl).
    repeat rewrite <- app_assoc. reflexivity.
  - unfold w5. apply exchanged_under_script.
Qed.

Lemma whole_flow_passes_witness :
  exists w' : World,
    Tests.TestDance_WholeFlow_NoMFA 0 "example.okta.com" "user@example.com" "pass"
      "0oa1client"
      (start [Answer (success "tok");
              Answer {| StatusCode := 302;
                        ResHeader := [("Set-Cookie", "sid=102abc; Path=/")];
                        ResBody := "" |};
              Answer (answer 200 "{'id':'102abc','login':'user@example.com'}");
              Answer (answer 200 "{'id':'102abc','login':'user@example.com'}");
              reply 204 ""])
    = Some (Ok tt, w') /\
    map URL (requests w')
    = ["https://example.okta.com/api/v1/authn";
       "https://example.okta.com/oauth2/v1/authorize?client_id=0oa1client"
       ++ "&prompt=none&redirect_uri=https%3A%2F%2Fepithet.io%2Fokta-callback"
       ++ "&response_type=id_token&scope=openid&sessionToken=tok";
       "https://example.okta.com/api/v1/sessions/me";
       "https://example.okta.com/api/v1/sessions/me";
       "https://example.okta.com/api/v1/sessions/me"] /\
    map ReqCookies (skipn 2 (requests w'))
    = [[{| Name := "sid"; Value := "102abc" |}];
       [{| Name := "sid"; Value := "102abc" |}];
       [{| Name := "sid"; Value := "102abc" |}]].
Proof.
  destruct (whole_flow_passes 0 "example.okta.com" "user@example.com" "pass"
              "0oa1client"
              (start [Answer (success "tok");
                      Answer {| StatusCode := 302;
                                ResHeader := [("Set-Cookie", "sid=102abc; Path=/")];
                                ResBody := "" |};
                      Answer (answer 200 "{'id':'102abc','login':'user@example.com'}");
                      Answer (answer 200 "{'id':'102abc','login':'user@example.com'}");
                      reply 204 ""])
              (success "tok")
              {| StatusCode := 302;
                 ResHeader := [("Set-Cookie", "sid=102abc; Path=/")];
                 ResBody := "" |}
              (answer 200 "{'id':'102abc','login':'user@example.com'}")
              (answer 200 "{'id':'102abc','login':'user@example.com'}")
              {| StatusCode := 204; ResHeader := []; ResBody := "" |} []
              (fst (Unmarshal oktaUserAuthn (ResBody (success "tok"))
                              (zero oktaUserAuthn)))
              (fst (Unmarshal Session_struct
                      (ResBody (answer 200 "{'id':'102abc','login':'user@example.com'}"))
                      (zero Session_struct)))
              (fst (Unmarshal Session_struct
                      (ResBody (answer 200 "{'id':'102abc','login':'user@example.com'}"))
                      (zero Session_struct))))
    as (w' & Hrun & Hreq & _).
  - vm_compute; reflexivity.
  - reflexivity.
  - vm_compute; reflexivity.
  - vm_compute; reflexivity.
  - vm_compute. lia.
  - vm_compute; reflexivity.
  - vm_compute; reflexivity.
  - vm_compute; reflexivity.
  - vm_compute; reflexivity.
  - vm_compute. lia.
  - exists w'. rewrite Hreq. split; [exact Hrun|]. split; vm_compute; reflexivity.
Defined.

(** *** The handler of the example program *)

Lemma find_snoc {A : Type} (p : A -> bool) (l : list A) (x : A) :
  find p (l ++ [x])%list
  = match find p l with
    | Some y => Some y
    | None => if p x then Some x else None
    end.
Proof.
  induction l as [|y l IH]; cbn [app find]; [reflexivity|].
  destruct (p y); [reflexivity | exact IH].
Qed.

Lemma find_nothing {A : Type} (p : A -> bool) (l : list A) :
  (forall x : A, In x l -> p x = false) -> find p l = None.
Proof.
  induction l as [|y l IH]; intros H; cbn [find]; [reflexivity|].
  rewrite (H y (or_introl eq_refl)). apply IH. intros x Hx. apply H. right. exact Hx.
Qed.

Lemma by_type_fold (l : list Factor) (fm : string -> option Factor) (key : string) :
  fold_left
    (fun (fm : string -> option Factor) (f : Factor) =>
       fun key => if String.eqb key (Console.FactorType_of f) then Some f else fm key)
    l fm key
  = match find (fun f => String.eqb key (Console.FactorType_of f)) (rev l) with
    | Some f => Some f
    | None => fm key
    end.
Proof.
  revert fm. induction l as [|x l IH]; intros fm; cbn [fold_left rev find];
    [reflexivity|].
  rewrite IH, find_snoc.
  destruct (find (fun f => String.eqb key (Console.FactorType_of f)) (rev l));
    [reflexivity|].
  destruct (String.eqb key (Console.FactorType_of x)); reflexivity.
Qed.

Lemma example_console_answers_by_type_aux (factors : list Factor) (line : string)
  (rest : list string) (shown : list Console.Event) :
  exists t' : Console.Terminal,
    Example.Select factors {| Console.input := line :: rest; Console.shown := shown |}
    = ((find (fun f => String.eqb (Console.TrimSpace line) (Console.FactorType_of f))
             (rev factors), None), t').
Proof.
  unfold Example.Select, Console.Readline, Console.show.
  cbn [Console.input Console.shown].
  eexists. unfold Example.by_type. rewrite by_type_fold.
  destruct (find _ (rev factors)); reflexivity.
Qed.

(** X27.  The console of the example answers with the factor whose type
    was typed: the last of the factors of that type, and no factor at
    all, with no error either, when no factor has it; it reads one line
    and asks once. *)
Theorem example_console_answers_by_type :
  forall (factors : list Factor) (line : string) (rest : list string)
         (shown : list Console.Event),
    exists t' : Console.Terminal,
      Example.Select factors {| Console.input := line :: rest; Console.shown := shown |}
      = ((find (fun f => String.eqb (Console.TrimSpace line) (Console.FactorType_of f))
               (rev factors), None), t') /\
      Console.input t' = rest /\
      List.length (Console.shown t') = S (List.length shown).
Proof.
  intros factors line rest shown.
  unfold Example.Select, Console.Readline, Console.show.
  cbn [Console.input Console.shown].
  eexists. split; [|split].
  - unfold Example.by_type. rewrite by_type_fold.
    destruct (find _ (rev factors)); reflexivity.
  - reflexivity.
  - cbn [Console.shown]. rewrite length_app. cbn [List.length]. lia.
Qed.

(** X28.  A slip at the console of the example ends the
    authentication.  With two factors or more, when the line typed is
    the type of none of them, the handler returns no factor and no
    error, and [Authenticate] returns the error whose text is
    [no MFA was factor selected], after the primary request alone. *)
Theorem example_console_slip_ends_authentication :
  forall (fuel : nat) (d : Dance) (ctx : Context) (username password : string)
         (m : Multifactor) (line : string) (more : list string)
         (shown : list Console.Event) (w : World) (res : Response)
         (rest : list Reply) (ar : goval),
    valid_url (authn_url d) = true ->
    Done ctx (clock w) = false ->
    script w = Answer res :: rest ->
    Unmarshal oktaUserAuthn (body_read d res) (zero oktaUserAuthn) = (ar, None) ->
    Status ar = "MFA_REQUIRED" ->
    2 <= List.length (Factors (Embedded ar)) ->
    (forall factors : list Factor,
       Select m factors
       = fst (Example.Select factors
                {| Console.input := line :: more; Console.shown := shown |})) ->
    Forall (fun o => FactorType o <> Console.TrimSpace line) (Factors (Embedded ar)) ->
    exists w' : World,
      Authenticate fuel d ctx username password (Some m) w
        = Some (Err (errorString "no MFA was factor selected"), w') /\
      requests w'
        = (requests w ++ [hooked d (authn_request d ctx username password)])%list /\
      script w' = rest.
Proof.
  intros fuel d ctx username password m line more shown w res rest ar
         Hu Hd Hs Hdec Hst Hlen Hm Hnone.
  assert (Hsel : Select m (oktaUserAuthnEmbedded_factors (Embedded ar)) = (None, None)).
  { rewrite Hm.
    destruct (example_console_answers_by_type_aux
                (oktaUserAuthnEmbedded_factors (Embedded ar)) line more shown)
      as (t' & Hrun).
    rewrite Hrun. cbn [fst].
    rewrite factors_map.
    rewrite find_nothing; [reflexivity|]. intros f Hin.
    apply in_rev in Hin. apply in_map_iff in Hin. destruct Hin as (o & <- & Ho).
    unfold Console.FactorType_of. rewrite factor_type_kept.
    apply String.eqb_neq. intros E.
    rewrite Forall_forall in Hnone. apply (Hnone o Ho). symmetry. exact E. }
  rewrite (Authenticate_exchange fuel d ctx username password (Some m) w res rest ar None
             Hu Hd Hs Hdec).
  cbv zeta. rewrite Hst. cbn [String.eqb Ascii.eqb Bool.eqb].
  destruct (List.length (Factors (Embedded ar))) as [|[|n]] eqn:El; try lia.
  cbn [Nat.eqb].
  unfold call_Select, bind, count_select, ret, fail. rewrite Hsel. cbn [fst snd].
  eexists. split; [reflexivity|]. world. split; reflexivity.
Qed.

Lemma example_console_slip_ends_authentication_witness :
  exists w' : World,
    Authenticate 1 dance Background "user" "pass"
      (Some {| Select := fun factors =>
                 fst (Example.Select factors
                        {| Console.input := ["puhs"]; Console.shown := [] |});
               ReadCode := fun _ _ => ("", Some io_EOF) |})
      (start [Answer (mfa_required (push_json ++ "," ++ totp_json));
              Answer (success "tok")])
    = Some (Err (errorString "no MFA was factor selected"), w') /\
    List.length (requests w') = 1 /\
    script w' = [Answer (success "tok")].
Proof.
  destruct (example_console_slip_ends_authentication 1 dance Background "user" "pass"
              {| Select := fun factors =>
                   fst (Example.Select factors
                          {| Console.input := ["puhs"]; Console.shown := [] |});
                 ReadCode := fun _ _ => ("", Some io_EOF) |}
              "puhs" [] []
              (start [Answer (mfa_required (push_json ++ "," ++ totp_json));
                      Answer (success "tok")])
              (mfa_required (push_json ++ "," ++ totp_json))
              [Answer (success "tok")]
              (fst (Unmarshal oktaUserAuthn
                      (body_read dance (mfa_required (push_json ++ "," ++ totp_json)))
                      (zero oktaUserAuthn))))
    as (w' & Hrun & Hreq & Hscript).
  - vm_compute; reflexivity.
  - reflexivity.
  - reflexivity.
  - vm_compute; reflexivity.
  - vm_compute; reflexivity.
  - vm_compute. lia.
  - intros factors. reflexivity.
  - vm_compute.
    repeat (apply Forall_cons; [intro H; vm_compute in H; discriminate H|]).
    apply Forall_nil.
  - exists w'. rewrite Hreq, Hscript. split; [exact Hrun | split; reflexivity].
Defined.
